(** * EV charger simulator: the session / protocol engine

    A shallow embedding of the multi-EVSE OCPP 2.0.1 charge-point simulator
    (the [App] component with [createEvse], [doStartSession], [doStopSession],
    [injectFault], [clearFault] and [handleCsmsMessage]) and of its charging
    physics ([chargeCurve], [tempDerating], [updateTemp]).

    Conventions of the embedding.
    - JavaScript numbers are idealised as exact rationals ([Q]); rounding of
      IEEE doubles is not modelled.  A quotient [x / 0] is 0 in [Q] where
      JavaScript gives Infinity or NaN, so every statement that depends on
      a quotient carries the hypothesis that its divisor is positive.
    - React state ([evses], [config], [connected], [logs]) and the refs
      ([wsRef], [meterRefs]) are fields of one explicit [Station] record that
      every handler threads through.  The mirror [evseRef.current] is the
      [evses] value at the start of the running handler (a render separates
      two handlers), and is passed explicitly where a handler reads it after
      queuing updates.
    - [setTimeout] callbacks are kept as data in a list of pending timers,
      [setInterval] callbacks in a list of live intervals; an operation fires
      one of them.  Deadlines are not modelled: any pending timer may fire,
      which covers every real schedule.
    - [uid()], [now()] and [Math.random()] are inputs of the operation that
      calls them.
    - Text rendering ([JSON.stringify], template strings, [toFixed]) is not
      modelled: log lines and outbound payloads keep the interpolated values
      in structured form.  A template string throws a [TypeError] when it
      interpolates an object that cannot be converted (one with an own
      [toString] property); the handlers interpolate the message id, the
      action and, in the single-connector variant, the id tag, so the
      statements about them carry the hypothesis that these values are
      primitive, for which the conversion cannot throw.
    - [wire] records the reply frames (CALLRESULT and CALLERROR) written to
      the socket.  The CALL frames of [sendOCPP] are recorded as TX log
      lines only, and the loop-back answer of the simulated CSMS (a 350 ms
      timeout that logs an RX line) is left out: the pending timers are
      those of the session engine, of Reset and of the boot sequence. *)

From Stdlib Require Import QArith Qabs Qround Lqa ZArith Lia String List Bool.
From stdpp Require Import base option list gmap strings.

Open Scope Q_scope.

#[local] Set Warnings "-register-all".
#[local] Set Warnings "-automation".
#[local] Set Warnings "-default".

(** ** Rational helpers *)

Definition Qltb (x y : Q) : bool := negb (Qle_bool y x).

Definition Qmin' (x y : Q) : Q := if Qle_bool x y then x else y.
Definition Qmax' (x y : Q) : Q := if Qle_bool x y then y else x.

(** ** Charging physics *)

Module Physics.

(** [chargeCurve(soc)]: power multiplier from the state of charge. *)
Definition chargeCurve (soc : Q) : Q :=
  if Qltb soc 20 then 0.75 + (soc / 20) * 0.25
  else if Qltb soc 80 then 1.0
  else if Qltb soc 90 then 1.0 - ((soc - 80) / 10) * 0.55
  else if Qltb soc 95 then 0.45 - ((soc - 90) / 5) * 0.25
  else 0.20 - ((soc - 95) / 5) * 0.15.

(** [updateTemp(currentTemp, powerKw, maxPower, ambientTemp = 25)].  The
    code and this definition agree for [maxPower] other than 0. *)
Definition updateTemp (currentTemp powerKw maxPower ambientTemp : Q) : Q :=
  let load := powerKw / maxPower in
  let heatRate := load * 0.08 in
  let coolRate := (currentTemp - ambientTemp) * 0.012 in
  Qmax' ambientTemp (Qmin' 85 (currentTemp + heatRate - coolRate)).

Definition ambientDefault : Q := 25.

(** [tempDerating(temp)]: power multiplier from the connector temperature. *)
Definition tempDerating (temp : Q) : Q :=
  if Qltb temp 60 then 1.0
  else if Qltb temp 75 then 1.0 - ((temp - 60) / 15) * 0.4
  else 0.6 - ((temp - 75) / 10) * 0.4.

(** The curve as the specification words it: straight lines between the
    named end points of each SOC band. *)
Definition lerp (x0 y0 x1 y1 x : Q) : Q :=
  y0 + (y1 - y0) * ((x - x0) / (x1 - x0)).

Definition powerCurveMultiplier_spec (soc : Q) : Q :=
  if Qltb soc 20 then lerp 0 0.75 20 1.0 soc
  else if Qle_bool soc 80 then 1.0
  else if Qltb soc 90 then lerp 80 1.0 90 0.45 soc
  else if Qltb soc 95 then lerp 90 0.45 95 0.20 soc
  else lerp 95 0.20 100 0.05 soc.

(** The derating as the specification words it, with the stated floor. *)
Definition temperatureDerating_spec (tempC : Q) : Q :=
  if Qltb tempC 60 then 1.0
  else if Qltb tempC 75 then lerp 60 1.0 75 0.6 tempC
  else Qmax' 0.2 (lerp 75 0.6 85 0.2 tempC).

End Physics.

(** Continuity of a rational function at a point, in epsilon-delta form. *)
Definition continuous_at (f : Q -> Q) (b : Q) : Prop :=
  forall eps, 0 < eps ->
    exists delta, 0 < delta /\
      forall x, Qabs (x - b) < delta -> Qabs (f x - f b) < eps.


(** ** Data model *)

(** [EVSE_STATUS]. *)
Inductive EvseStatus :=
  | Available | Preparing | Charging | SuspendedEVSE | SuspendedEV
  | Finishing | Reserved | Unavailable | Faulted.

#[global] Instance EvseStatus_eq_dec : EqDecision EvseStatus.
Proof. solve_decision. Defined.

(** The string each status is reported with ([connectorStatus]). *)
Definition statusName (st : EvseStatus) : string :=
  match st with
  | Available => "Available" | Preparing => "Preparing"
  | Charging => "Charging" | SuspendedEVSE => "SuspendedEVSE"
  | SuspendedEV => "SuspendedEV" | Finishing => "Finishing"
  | Reserved => "Reserved" | Unavailable => "Unavailable"
  | Faulted => "Faulted"
  end.

(** Values produced by [JSON.parse].  An object carries its own properties;
    a missing property or array element ([undefined]) is [None] at the
    places that read one. *)
Inductive json :=
  | JNull
  | JBool (b : bool)
  | JNum (q : Q)
  | JStr (s : string)
  | JArr (items : list json)
  | JObj (props : list (string * json)).

Definition jid (z : Z) : json := JNum (inject_Z z).

(** The session object built by [doStartSession]. *)
Record Session := {
  startTime : Z;
  energy : Q;
  soc : Q;
  transactionId : string;
  idTag : json;
  totalSeconds : Q;
  socEnd : Q
}.

(** [{ errorCode, info, timestamp }]. *)
Record Fault := {
  errorCode : string;
  info : string;
  timestamp : string
}.

(** The object returned by [createEvse]; the field [id] is [evse_id]. *)
Record Evse := {
  evse_id : Z;
  connectorType : string;
  status : EvseStatus;
  session : option Session;
  temperature : Q;
  fault : option Fault;
  power : Q
}.

Definition createEvse (id : Z) (connType : string) : Evse :=
  {| evse_id := id; connectorType := connType; status := Available;
     session := None; temperature := 28; fault := None; power := 0 |}.

(** The [config] state of [App]. *)
Record Config := {
  csmsUrl : string;
  stationId : string;
  vendor : string;
  model : string;
  serialNumber : string;
  maxPower : Q;
  cfg_connectorType : string;
  heartbeatInterval : Q;
  voltage : Q;
  batteryCapacity : Q;
  socStart : Q;
  cfg_socEnd : Q;
  chargeDurationMin : Q;
  evseCount : Q;
  chargeMode : string
}.

Definition defaultConfig : Config :=
  {| csmsUrl := "ws://localhost:9000/ocpp"; stationId := "EVCS-001";
     vendor := "VoltCore Systems"; model := "VC-150DC";
     serialNumber := "VC2024000001"; maxPower := 50;
     cfg_connectorType := "CCS2"; heartbeatInterval := 30; voltage := 400;
     batteryCapacity := 60; socStart := 20; cfg_socEnd := 100;
     chargeDurationMin := 5; evseCount := 2; chargeMode := "nonlinear" |}.

(** A patch object as passed to [updateEvse]: the fields it names. *)
Record Patch := {
  p_status : option EvseStatus;
  p_session : option (option Session);
  p_temperature : option Q;
  p_fault : option (option Fault);
  p_power : option Q
}.

Definition noPatch : Patch :=
  {| p_status := None; p_session := None; p_temperature := None;
     p_fault := None; p_power := None |}.

(** [{ ...e, ...patch }]. *)
Definition applyPatch (p : Patch) (e : Evse) : Evse :=
  {| evse_id := evse_id e;
     connectorType := connectorType e;
     status := default (status e) (p_status p);
     session := default (session e) (p_session p);
     temperature := default (temperature e) (p_temperature p);
     fault := default (fault e) (p_fault p);
     power := default (power e) (p_power p) |}.

(** [prev.map(e => e.id === id ? { ...e, ...patch } : e)]. *)
Definition patchEvses (id : Z) (p : Patch) (evs : list Evse) : list Evse :=
  map (fun e => if Z.eqb (evse_id e) id then applyPatch p e else e) evs.

(** [evses.find(e => e.id === id)]. *)
Fixpoint findEvse (id : Z) (evs : list Evse) : option Evse :=
  match evs with
  | [] => None
  | e :: rest => if Z.eqb (evse_id e) id then Some e else findEvse id rest
  end.

(** ** Outbound traffic and log lines *)

(** A CALL handed to [sendOCPP], by action, with the values its payload
    interpolates (timestamps left out). *)
Inductive OutCall :=
  | Authorize (idToken : json)
  | TransactionStarted (txId : string) (idToken : json) (evseId : Z)
  | TransactionEnded (txId : string) (triggerReason stoppedReason : string)
                     (meter : option (Z * Q))
  | MeterValues (evseId : Z) (txId : string) (energyWh powerW : Z)
                (socPct tempC : Q)
  | StatusNotification (connectorStatus : string) (evseId : json)
  | NotifyEvent (actualValue : string) (evseId : Z) (eventId : Z)
  | BootNotification (reason serial modelName vendorName : string)
  | Heartbeat.

(** A frame given to [wsRef.current.send] by [replyOCPP] or by the default
    branch of the dispatcher.  [FCallResult id st] is
    [[3, id, { status: st }]]; [FCallError id code act] is
    [[4, id, code, `${act} not supported`, {}]]. *)
Inductive Frame :=
  | FCallResult (msgId : option json) (statusText : string)
  | FCallError (msgId : option json) (code : string) (action : option json).

Inductive LogMsg :=
  | MsgTx (c : OutCall)
  | MsgReply (msgId : option json) (statusText : string)
  | MsgInvalid
  | MsgCallResult (msgId : option json) (payload : json)
  | MsgCallError (rest : list json)
  | MsgCsmsCall (action : json) (payload : json)
  | MsgSessionStarted (evseId : Z) (txId : string)
  | MsgTargetReached (evseId : Z) (target : Q)
  | MsgSessionEnded (evseId : Z) (reason : string) (kWh : Q)
  | MsgFault (evseId : Z) (code infoText : string)
  | MsgFaultCleared (evseId : Z)
  | MsgText (text : string).

(** [{ dir, msg, time, evseId }], without the wall-clock [time]. *)
Record LogEntry := {
  dir : string;
  msg : LogMsg;
  log_evseId : option json
}.

(** ** Timers *)

(** What the metering [setInterval] callback closes over. *)
Record MeterClosure := {
  m_evseId : Z;
  m_txId : string;
  m_totalEnergy : Q;
  m_totalSeconds : Q;
  m_socRange : Q;
  m_seqNo : Z
}.

Inductive Interval :=
  | IHeartbeat
  | IMeter (c : MeterClosure).

(** Pending [setTimeout] callbacks, each with what it closes over. *)
Inductive Timer :=
  | TRamp (evseId : Z) (txId : string) (tag : json)
          (totalEnergy totalSecs socRange : Q)
  | TAutoEnd (evseId : Z) (txId : string) (newEnergy : Q)
             (updatedSession : Session) (target : Q)
  | TAutoAvail (evseId : Z)
  | TStopAvail (evseId : Z)
  | TReset
  | TBoot.

(** [WebSocket.readyState]. *)
Inductive ReadyState := CONNECTING | OPEN | CLOSING | CLOSED.

#[global] Instance ReadyState_eq_dec : EqDecision ReadyState.
Proof. solve_decision. Defined.

(** ** Station state *)

Record Station := {
  config : Config;
  evses : list Evse;
  connected : bool;
  simMode : bool;
  logs : list LogEntry;
  wsRef : option ReadyState;
  wire : list Frame;
  heartbeatRef : option nat;
  meterRefs : gmap Z nat;
  intervals : list (nat * Interval);
  timers : list Timer;
  nextHandle : nat
}.

Definition initialStation : Station :=
  {| config := defaultConfig;
     evses := [createEvse 1 "CCS2"; createEvse 2 "CHAdeMO"];
     connected := false; simMode := false; logs := [];
     wsRef := None; wire := []; heartbeatRef := None; meterRefs := ∅;
     intervals := []; timers := []; nextHandle := 1 |}.

Definition set_config (c : Config) (s : Station) : Station :=
  {| config := c; evses := evses s; connected := connected s;
     simMode := simMode s; logs := logs s; wsRef := wsRef s; wire := wire s;
     heartbeatRef := heartbeatRef s; meterRefs := meterRefs s;
     intervals := intervals s; timers := timers s;
     nextHandle := nextHandle s |}.

Definition set_evses (evs : list Evse) (s : Station) : Station :=
  {| config := config s; evses := evs; connected := connected s;
     simMode := simMode s; logs := logs s; wsRef := wsRef s; wire := wire s;
     heartbeatRef := heartbeatRef s; meterRefs := meterRefs s;
     intervals := intervals s; timers := timers s;
     nextHandle := nextHandle s |}.

Definition set_connected (c sim : bool) (s : Station) : Station :=
  {| config := config s; evses := evses s; connected := c;
     simMode := sim; logs := logs s; wsRef := wsRef s; wire := wire s;
     heartbeatRef := heartbeatRef s; meterRefs := meterRefs s;
     intervals := intervals s; timers := timers s;
     nextHandle := nextHandle s |}.

Definition set_logs (l : list LogEntry) (s : Station) : Station :=
  {| config := config s; evses := evses s; connected := connected s;
     simMode := simMode s; logs := l; wsRef := wsRef s; wire := wire s;
     heartbeatRef := heartbeatRef s; meterRefs := meterRefs s;
     intervals := intervals s; timers := timers s;
     nextHandle := nextHandle s |}.

Definition set_wsRef (w : option ReadyState) (s : Station) : Station :=
  {| config := config s; evses := evses s; connected := connected s;
     simMode := simMode s; logs := logs s; wsRef := w; wire := wire s;
     heartbeatRef := heartbeatRef s; meterRefs := meterRefs s;
     intervals := intervals s; timers := timers s;
     nextHandle := nextHandle s |}.

Definition set_wire (w : list Frame) (s : Station) : Station :=
  {| config := config s; evses := evses s; connected := connected s;
     simMode := simMode s; logs := logs s; wsRef := wsRef s; wire := w;
     heartbeatRef := heartbeatRef s; meterRefs := meterRefs s;
     intervals := intervals s; timers := timers s;
     nextHandle := nextHandle s |}.

Definition set_intervals (hb : option nat) (mr : gmap Z nat)
    (ivs : list (nat * Interval)) (next : nat) (s : Station) : Station :=
  {| config := config s; evses := evses s; connected := connected s;
     simMode := simMode s; logs := logs s; wsRef := wsRef s; wire := wire s;
     heartbeatRef := hb; meterRefs := mr; intervals := ivs;
     timers := timers s; nextHandle := next |}.

Definition set_timers (t : list Timer) (s : Station) : Station :=
  {| config := config s; evses := evses s; connected := connected s;
     simMode := simMode s; logs := logs s; wsRef := wsRef s; wire := wire s;
     heartbeatRef := heartbeatRef s; meterRefs := meterRefs s;
     intervals := intervals s; timers := t; nextHandle := nextHandle s |}.

(** ** Primitive effects *)

(** [prev.slice(-n)]. *)
Definition lastN {A} (n : nat) (l : list A) : list A :=
  drop (length l - n) l.

(** [addLog(dir, msg, evseId)]: keeps the last 300 lines and appends. *)
Definition addLog (d : string) (m : LogMsg) (ev : option json)
    (s : Station) : Station :=
  set_logs (lastN 300 (logs s) ++
            [{| dir := d; msg := m; log_evseId := ev |}]) s.

(** [updateEvse(id, patch)]. *)
Definition updateEvse (id : Z) (p : Patch) (s : Station) : Station :=
  set_evses (patchEvses id p (evses s)) s.

(** [sendOCPP(action, payload, evseId)]: the TX log line.  Which transport
    then carries the CALL (socket or loop-back) is left out: the CALL frame
    is not added to [wire]. *)
Definition sendOCPP (c : OutCall) (ev : option json) (s : Station) : Station :=
  addLog "TX" (MsgTx c) ev s.

Definition wsIsOpen (s : Station) : bool :=
  bool_decide (wsRef s = Some OPEN).

(** [replyOCPP(msgId, { status })]: on an open socket the reply frame is
    sent and a TX line is logged.  The log line interpolates [msgId] after
    the send; this definition describes the code for a primitive [msgId]. *)
Definition replyOCPP (msgId : option json) (st : string)
    (s : Station) : Station :=
  if wsIsOpen s
  then addLog "TX" (MsgReply msgId st) None
         (set_wire (wire s ++ [FCallResult msgId st]) s)
  else s.

(** [setTimeout(cb, _)]. *)
Definition setTimeout (t : Timer) (s : Station) : Station :=
  set_timers (timers s ++ [t]) s.

(** [clearInterval(h)]; [None] is [clearInterval(undefined)]. *)
Definition clearInterval (h : option nat) (s : Station) : Station :=
  match h with
  | None => s
  | Some h =>
      set_intervals (heartbeatRef s) (meterRefs s)
        (filter (fun iv => fst iv ≠ h) (intervals s)) (nextHandle s) s
  end.

(** [meterRefs.current[evseId] = setInterval(tick, 1000)]. *)
Definition startMeter (c : MeterClosure) (s : Station) : Station :=
  let h := nextHandle s in
  set_intervals (heartbeatRef s) (<[m_evseId c := h]> (meterRefs s))
    (intervals s ++ [(h, IMeter c)]) (S h) s.

(** [heartbeatRef.current = setInterval(() => sendOCPP("Heartbeat", {}), _)]. *)
Definition startHeartbeat (s : Station) : Station :=
  let h := nextHandle s in
  set_intervals (Some h) (meterRefs s)
    (intervals s ++ [(h, IHeartbeat)]) (S h) s.

(** What [uid()], [now()], [Date.now()] and [Math.random()] return during
    one handler. *)
Record Env := {
  env_uid : string;
  env_now : string;
  env_dateNow : Z;
  env_eventId : Z
}.

(** Stored numbers are kept in lowest terms; [norm x == x]. *)
Definition norm (x : Q) : Q := Qred x.

(** [Math.round(x)]. *)
Definition jsRound (x : Q) : Z := Qfloor (x + (1 # 2)).

Definition patch (st : option EvseStatus) (ses : option (option Session))
    (ft : option (option Fault)) (pw : option Q) : Patch :=
  {| p_status := st; p_session := ses; p_temperature := None;
     p_fault := ft; p_power := pw |}.

(** ** Session engine *)

(** [doStartSession(evseId, idTag)]. *)
Definition doStartSession (env : Env) (evseId : Z) (tag : json)
    (s : Station) : Station :=
  let cfg := config s in
  match findEvse evseId (evses s) with
  | None => s
  | Some evse =>
      if negb (bool_decide (status evse = Available)) then s
      else
        let txId := env_uid env in
        let socRange := cfg_socEnd cfg - socStart cfg in
        let totalEnergy := (socRange / 100) * batteryCapacity cfg in
        let totalSecs := chargeDurationMin cfg * 60 in
        let ses := {| startTime := env_dateNow env; energy := 0;
                      soc := socStart cfg; transactionId := txId;
                      idTag := tag; totalSeconds := totalSecs;
                      socEnd := cfg_socEnd cfg |} in
        let s := updateEvse evseId
                   (patch (Some Preparing) (Some (Some ses)) None (Some 0)) s in
        let s := addLog "SYS" (MsgSessionStarted evseId txId)
                   (Some (jid evseId)) s in
        let s := sendOCPP (Authorize tag) (Some (jid evseId)) s in
        setTimeout (TRamp evseId txId tag totalEnergy totalSecs socRange) s
  end.

(** The 1500 ms callback of [doStartSession]: Preparing to Charging, and the
    metering interval is installed. *)
Definition rampUp (evseId : Z) (txId : string) (tag : json)
    (totalEnergy totalSecs socRange : Q) (s : Station) : Station :=
  match findEvse evseId (evses s) with
  | None => s
  | Some currentEvse =>
      match session currentEvse with
      | None => s
      | Some _ =>
          let s := updateEvse evseId (patch (Some Charging) None None None) s in
          let s := sendOCPP (TransactionStarted txId tag evseId)
                     (Some (jid evseId)) s in
          startMeter {| m_evseId := evseId; m_txId := txId;
                        m_totalEnergy := totalEnergy;
                        m_totalSeconds := totalSecs;
                        m_socRange := socRange; m_seqNo := 1 |} s
      end
  end.

(** [seqNo++] in the closure of the interval with handle [h]. *)
Definition bumpSeqNo (h : nat) (s : Station) : Station :=
  set_intervals (heartbeatRef s) (meterRefs s)
    (map (fun iv =>
            match iv with
            | (h', IMeter c) =>
                if Nat.eqb h' h
                then (h', IMeter {| m_evseId := m_evseId c; m_txId := m_txId c;
                                    m_totalEnergy := m_totalEnergy c;
                                    m_totalSeconds := m_totalSeconds c;
                                    m_socRange := m_socRange c;
                                    m_seqNo := (m_seqNo c + 1)%Z |})
                else iv
            | _ => iv
            end) (intervals s))
    (nextHandle s) s.

(** The numbers one metering tick computes for a session [ses] on an EVSE at
    temperature [temp], under the live configuration [cfg].  The code and
    these definitions agree for a closure whose [m_totalSeconds] is not
    0. *)
Definition curveMultOf (cfg : Config) (ses : Session) : Q :=
  if String.eqb (chargeMode cfg) "nonlinear"
  then Physics.chargeCurve (soc ses) else 1.0.

Definition effectivePowerOf (cfg : Config) (ses : Session) (temp : Q) : Q :=
  maxPower cfg * curveMultOf cfg ses * Physics.tempDerating temp.

Definition energyIncOf (c : MeterClosure) (cfg : Config) (ses : Session)
    (temp : Q) : Q :=
  let energyPerSecBase := m_totalEnergy c / m_totalSeconds c in
  energyPerSecBase * curveMultOf cfg ses * Physics.tempDerating temp.

Definition socIncOf (c : MeterClosure) (cfg : Config) (ses : Session)
    (temp : Q) : Q :=
  (m_socRange c / m_totalSeconds c) * curveMultOf cfg ses
  * Physics.tempDerating temp.

Definition newSocOf (c : MeterClosure) (cfg : Config) (ses : Session)
    (temp : Q) : Q :=
  norm (Qmin' (soc ses + socIncOf c cfg ses temp) (cfg_socEnd cfg)).

Definition newEnergyOf (c : MeterClosure) (cfg : Config) (ses : Session)
    (temp : Q) : Q :=
  norm (energy ses + energyIncOf c cfg ses temp).

(** [{ ...ses, energy: newEnergy, soc: newSoc }]. *)
Definition updatedSessionOf (c : MeterClosure) (cfg : Config) (ses : Session)
    (temp : Q) : Session :=
  {| startTime := startTime ses;
     energy := newEnergyOf c cfg ses temp;
     soc := newSocOf c cfg ses temp;
     transactionId := transactionId ses; idTag := idTag ses;
     totalSeconds := totalSeconds ses; socEnd := socEnd ses |}.

(** One run of the metering [setInterval] callback with handle [h]. *)
Definition meterTick (h : nat) (c : MeterClosure) (s : Station) : Station :=
  let evseId := m_evseId c in
  match findEvse evseId (evses s) with
  | None => s
  | Some evse =>
      match session evse with
      | None => s
      | Some ses =>
          if bool_decide (status evse = Faulted) then s
          else
            let currentCfg := config s in
            let temp := temperature evse in
            let effectivePower := effectivePowerOf currentCfg ses temp in
            let newSoc := newSocOf c currentCfg ses temp in
            let newEnergy := newEnergyOf c currentCfg ses temp in
            let newTemp :=
              Physics.updateTemp temp effectivePower (maxPower currentCfg)
                Physics.ambientDefault in
            let updatedSession := updatedSessionOf c currentCfg ses temp in
            let s1 :=
              if Z.eqb (Z.rem (Qfloor (newEnergy * 100)) 30) 0
              then bumpSeqNo h
                     (sendOCPP
                        (MeterValues evseId (m_txId c)
                           (jsRound (newEnergy * 1000))
                           (jsRound (effectivePower * 1000)) newSoc newTemp)
                        (Some (jid evseId)) s)
              else s in
            let s2 :=
              if Qle_bool (cfg_socEnd currentCfg) newSoc
              then
                let s' := clearInterval (meterRefs s1 !! evseId) s1 in
                let s' := addLog "SYS"
                            (MsgTargetReached evseId (cfg_socEnd currentCfg))
                            (Some (jid evseId)) s' in
                setTimeout (TAutoEnd evseId (m_txId c) newEnergy
                              updatedSession (cfg_socEnd currentCfg)) s'
              else s1 in
            set_evses
              (patchEvses evseId
                 {| p_status := None;
                    p_session := Some (Some updatedSession);
                    p_temperature := Some (norm newTemp);
                    p_fault := None;
                    p_power := Some (norm effectivePower) |}
                 (evses s))
              s2
      end
  end.

(** The 500 ms callback scheduled when the target SOC is reached. *)
Definition autoEnd (evseId : Z) (txId : string) (newEnergy : Q)
    (updatedSession : Session) (target : Q) (s : Station) : Station :=
  let s := sendOCPP
             (TransactionEnded txId "EVDeparted" "EVDisconnected"
                (Some (jsRound (newEnergy * 1000), target)))
             (Some (jid evseId)) s in
  let s := sendOCPP (StatusNotification "Available" (jid evseId))
             (Some (jid evseId)) s in
  let s := updateEvse evseId
             (patch (Some Finishing) (Some (Some updatedSession)) None
                (Some 0)) s in
  setTimeout (TAutoAvail evseId) s.

(** The 2000 ms callback that follows [autoEnd]. *)
Definition autoAvail (evseId : Z) (s : Station) : Station :=
  updateEvse evseId (patch (Some Available) (Some None) None (Some 0)) s.

(** [doStopSession(evseId, reason)]; [mirror] is [evseRef.current]. *)
Definition doStopSession (mirror : list Evse) (evseId : Z) (reason : string)
    (s : Station) : Station * bool :=
  let s := clearInterval (meterRefs s !! evseId) s in
  match findEvse evseId mirror with
  | None => (s, false)
  | Some evse =>
      match session evse with
      | None => (s, false)
      | Some ses =>
          let s := addLog "SYS" (MsgSessionEnded evseId reason (energy ses))
                     (Some (jid evseId)) s in
          let s := sendOCPP
                     (TransactionEnded (transactionId ses)
                        (if String.eqb reason "Remote"
                         then "RemoteStop" else "StopAuthorized")
                        reason
                        (Some (jsRound (energy ses * 1000), soc ses)))
                     (Some (jid evseId)) s in
          let s := updateEvse evseId
                     (patch (Some Finishing) None None (Some 0)) s in
          (setTimeout (TStopAvail evseId) s, true)
      end
  end.

(** The 2000 ms callback of [doStopSession]. *)
Definition stopAvail (evseId : Z) (s : Station) : Station :=
  let s := updateEvse evseId
             (patch (Some Available) (Some None) None (Some 0)) s in
  sendOCPP (StatusNotification "Available" (jid evseId))
    (Some (jid evseId)) s.

(** [injectFault(evseId, errorCode, info)]. *)
Definition injectFault (env : Env) (evseId : Z) (code infoText : string)
    (s : Station) : Station :=
  let mirror := evses s in
  let s := clearInterval (meterRefs s !! evseId) s in
  let evse := findEvse evseId mirror in
  let flt := {| errorCode := code; info := infoText;
                timestamp := env_now env |} in
  let s :=
    match evse ≫= session with
    | Some ses =>
        sendOCPP
          (TransactionEnded (transactionId ses) "AbnormalCondition"
             "ImmediateReset" None)
          (Some (jid evseId)) s
    | None => s
    end in
  let s := sendOCPP (StatusNotification "Faulted" (jid evseId))
             (Some (jid evseId)) s in
  let s := sendOCPP (NotifyEvent code evseId (env_eventId env))
             (Some (jid evseId)) s in
  let s := addLog "FAULT" (MsgFault evseId code infoText)
             (Some (jid evseId)) s in
  updateEvse evseId
    (patch (Some Faulted) (Some None) (Some (Some flt)) (Some 0)) s.

(** [clearFault(evseId)]. *)
Definition clearFault (evseId : Z) (s : Station) : Station :=
  let s := updateEvse evseId
             (patch (Some Available) None (Some None) (Some 0)) s in
  let s := sendOCPP (StatusNotification "Available" (jid evseId))
             (Some (jid evseId)) s in
  addLog "SYS" (MsgFaultCleared evseId) (Some (jid evseId)) s.

(** ** Reading parsed JSON the way the dispatcher does *)

(** How a handler ends: normally, or with an uncaught [TypeError]. *)
Inductive Completion := Normal | TypeError.

(** Array destructuring [const [a, b, ...rest] = v]: arrays and strings are
    iterable (a string yields its characters), anything else throws. *)
Definition iterate (v : json) : option (list json) :=
  match v with
  | JArr items => Some items
  | JStr str =>
      Some (map (fun ch => JStr (String ch EmptyString))
              (list_ascii_of_string str))
  | _ => None
  end.

Fixpoint lookupProp (key : string) (props : list (string * json))
    : option json :=
  match props with
  | [] => None
  | (k, v) :: rest => if String.eqb k key then Some v else lookupProp key rest
  end.

(** [v?.key] for the keys the dispatcher reads. *)
Definition getProp (key : string) (v : option json) : option json :=
  match v with
  | Some (JObj props) => lookupProp key props
  | _ => None
  end.

(** [v ?? d]. *)
Definition nullish (v : option json) (d : json) : json :=
  match v with
  | None | Some JNull => d
  | Some x => x
  end.

(** [v || d]. *)
Definition orElse (v : option json) (d : json) : json :=
  match v with
  | None | Some JNull | Some (JBool false) => d
  | Some (JStr str) => if String.eqb str "" then d else JStr str
  | Some (JNum q) => if Qeq_bool q 0 then d else JNum q
  | Some x => x
  end.

(** [v] is a primitive value (neither an array nor an object): converting
    it to a string, as a template literal does, cannot throw. *)
Definition primitive (v : json) : bool :=
  match v with
  | JArr _ | JObj _ => false
  | _ => true
  end.

(** [v === n] for a number literal [n]. *)
Definition isNum (v : option json) (n : Z) : bool :=
  match v with
  | Some (JNum q) => Qeq_bool q (inject_Z n)
  | _ => false
  end.

(** [v === "str"]. *)
Definition isStr (v : option json) (str : string) : bool :=
  match v with
  | Some (JStr t) => String.eqb t str
  | _ => false
  end.

(** The EVSE id a JSON value is strictly equal to, if any. *)
Definition asId (v : json) : option Z :=
  match v with
  | JNum q => if Qeq_bool q (inject_Z (Qfloor q)) then Some (Qfloor q) else None
  | _ => None
  end.

(** [evseRef.current.find(e => e.id === v)]. *)
Definition findEvseJ (v : json) (evs : list Evse) : option Evse :=
  match asId v with
  | Some z => findEvse z evs
  | None => None
  end.

(** [e.session?.transactionId === txId]. *)
Definition matchesTx (txId : option json) (e : Evse) : bool :=
  match session e, txId with
  | None, None => true
  | Some ses, Some (JStr t) => String.eqb (transactionId ses) t
  | _, _ => false
  end.

Fixpoint findByTx (txId : option json) (evs : list Evse) : option Evse :=
  match evs with
  | [] => None
  | e :: rest => if matchesTx txId e then Some e else findByTx txId rest
  end.

(** ** Remote command dispatcher *)

Definition bootCall (reason : string) (cfg : Config) : OutCall :=
  BootNotification reason (serialNumber cfg) (model cfg) (vendor cfg).

(** [evseRef.current.forEach(e => { if (e.session) doStopSession(e.id, r) })]. *)
Definition stopAll (mirror : list Evse) (reason : string) (s : Station)
    : Station :=
  fold_left
    (fun acc e =>
       match session e with
       | Some _ => fst (doStopSession mirror (evse_id e) reason acc)
       | None => acc
       end)
    mirror s.

(** The branches of [switch (action)]. *)
Definition dispatchCall (env : Env) (msgId : option json) (action : json)
    (payload : json) (s : Station) : Station :=
  let mirror := evses s in
  let pl := Some payload in
  if isStr (Some action) "RequestStartTransaction" then
    let evseId := nullish (getProp "evseId" pl) (JNum 1) in
    match findEvseJ evseId mirror with
    | None => replyOCPP msgId "Rejected" s
    | Some evse =>
        if negb (bool_decide (status evse = Available))
        then replyOCPP msgId "Rejected" s
        else
          let s := replyOCPP msgId "Accepted" s in
          doStartSession env (evse_id evse)
            (orElse (getProp "idToken" (getProp "idToken" pl)) (JStr "REMOTE"))
            s
    end
  else if isStr (Some action) "RequestStopTransaction" then
    let txId := getProp "transactionId" pl in
    match findByTx txId mirror with
    | None => replyOCPP msgId "Rejected" s
    | Some evse =>
        let s := replyOCPP msgId "Accepted" s in
        fst (doStopSession mirror (evse_id evse) "Remote" s)
    end
  else if isStr (Some action) "Reset" then
    let s := replyOCPP msgId "Accepted" s in
    let s := stopAll mirror "Remote" s in
    setTimeout TReset s
  else if isStr (Some action) "ChangeAvailability" then
    let evseId := nullish (getProp "evseId" pl) (JNum 1) in
    let newStatus :=
      if isStr (getProp "operationalStatus" pl) "Inoperative"
      then Unavailable else Available in
    let s := replyOCPP msgId "Accepted" s in
    let s :=
      match asId evseId with
      | Some z => updateEvse z (patch (Some newStatus) None None None) s
      | None => s
      end in
    sendOCPP (StatusNotification (statusName newStatus) evseId)
      (Some evseId) s
  else if isStr (Some action) "TriggerMessage" then
    let s := replyOCPP msgId "Accepted" s in
    let m := getProp "requestedMessage" pl in
    let evseId := nullish (getProp "id" (getProp "evse" pl)) (JNum 1) in
    let s := if isStr m "Heartbeat" then sendOCPP Heartbeat None s else s in
    if isStr m "StatusNotification"
    then
      sendOCPP
        (StatusNotification
           (match findEvseJ evseId mirror with
            | Some e => statusName (status e)
            | None => "Available"
            end)
           evseId)
        (Some evseId) s
    else s
  else
    if wsIsOpen s
    then set_wire (wire s ++ [FCallError msgId "NotImplemented" (Some action)]) s
    else s.

(** [handleCsmsMessage(data)].  [parsed] is the outcome of
    [JSON.parse(data)]: [None] when it throws.  The log lines interpolate
    the message id (CALLRESULT) and the action (CALL); this definition
    describes the code for frames in which these are primitive. *)
Definition handleCsmsMessage (env : Env) (parsed : option json)
    (s : Station) : Station * Completion :=
  match parsed with
  | None => (addLog "ERR" MsgInvalid None s, Normal)
  | Some v =>
      match iterate v with
      | None => (s, TypeError)
      | Some elems =>
          let type := elems !! 0%nat in
          let msgId := elems !! 1%nat in
          let rest := drop 2 elems in
          if isNum type 3 then
            match rest !! 0%nat with
            | None => (s, TypeError)
            | Some r0 => (addLog "RX" (MsgCallResult msgId r0) None s, Normal)
            end
          else if isNum type 4 then
            (addLog "ERR" (MsgCallError rest) None s, Normal)
          else if isNum type 2 then
            match rest !! 0%nat, rest !! 1%nat with
            | Some action, Some payload =>
                let s := addLog "CSMS" (MsgCsmsCall action payload) None s in
                (dispatchCall env msgId action payload s, Normal)
            | _, _ => (s, TypeError)
            end
          else (s, Normal)
      end
  end.

(** ** Connection life cycle *)

Definition allTo (f : Evse -> Evse) (s : Station) : Station :=
  set_evses (map f (evses s)) s.

(** [sendBoot()]. *)
Definition sendBoot (s : Station) : Station :=
  let mirror := evses s in
  let s := sendOCPP (bootCall "PowerUp" (config s)) None s in
  fold_left
    (fun acc e =>
       sendOCPP (StatusNotification "Available" (jid (evse_id e)))
         (Some (jid (evse_id e))) acc)
    mirror s.

(** What [connect(true)] and [ws.onopen] share. *)
Definition goOnline (s : Station) : Station :=
  let s := allTo (applyPatch (patch (Some Available) None None None)) s in
  let s := setTimeout TBoot s in
  startHeartbeat s.

(** [connect(sim)]; [urlOk] tells whether [new WebSocket(url)] returns. *)
Definition connect (sim urlOk : bool) (s : Station) : Station :=
  if sim then
    let s := addLog "SYS" (MsgText "[SIM] connected") None s in
    goOnline (set_connected true true s)
  else if urlOk then set_wsRef (Some CONNECTING) s
  else addLog "ERR" (MsgText "connect failed") None s.

(** [ws.onopen]. *)
Definition wsOnOpen (s : Station) : Station :=
  let s := addLog "SYS" (MsgText "connected") None s in
  goOnline (set_connected true (simMode s) s).

(** [ws.onclose]. *)
Definition wsOnClose (s : Station) : Station :=
  let s := addLog "SYS" (MsgText "connection closed") None s in
  clearInterval (heartbeatRef s) (set_connected false (simMode s) s).

(** [disconnect()]. *)
Definition disconnect (s : Station) : Station :=
  let mirror := evses s in
  let s := clearInterval (heartbeatRef s) s in
  let s := fold_left (fun acc h => clearInterval (Some h) acc)
             (snd <$> map_to_list (meterRefs s)) s in
  let s := stopAll mirror "Local" s in
  let s :=
    match wsRef s with
    | Some CONNECTING | Some OPEN => set_wsRef (Some CLOSING) s
    | _ => s
    end in
  let s := set_connected false false s in
  let s := allTo (applyPatch
                    (patch (Some Unavailable) (Some None) None (Some 0))) s in
  addLog "SYS" (MsgText "disconnected") None s.

(** The 1500 ms callback of the Reset branch. *)
Definition resetAll (s : Station) : Station :=
  let s := allTo (applyPatch
                    (patch (Some Available) (Some None) (Some None)
                       (Some 0))) s in
  sendOCPP (bootCall "RemoteReset" (config s)) None s.

(** The station-wide one-second temperature interval. *)
Definition tempTick (s : Station) : Station :=
  allTo (fun e =>
           applyPatch
             {| p_status := None; p_session := None;
                p_temperature :=
                  Some (norm (Physics.updateTemp (temperature e) (power e)
                                (maxPower (config s))
                                Physics.ambientDefault));
                p_fault := None; p_power := None |} e) s.

(** The effect that follows [config.evseCount]: runs only while
    disconnected, keeps the EVSEs it finds and creates the missing ones. *)
Definition connTypes : list string := ["CCS2"; "CHAdeMO"; "Type2"; "Tesla"].

Definition syncEvseCount (s : Station) : Station :=
  if connected s then s
  else
    let count := Z.to_nat (Qfloor (evseCount (config s))) in
    set_evses
      (map (fun i =>
              match findEvse (Z.of_nat i + 1) (evses s) with
              | Some existing => existing
              | None =>
                  createEvse (Z.of_nat i + 1)
                    (default (cfg_connectorType (config s)) (connTypes !! i))
              end)
         (seq 0 count))
      s.

(** [configChange]: every field is editable while disconnected; the charge
    mode switch stays live while connected. *)
Definition withChargeMode (m : string) (c : Config) : Config :=
  {| csmsUrl := csmsUrl c; stationId := stationId c; vendor := vendor c;
     model := model c; serialNumber := serialNumber c;
     maxPower := maxPower c; cfg_connectorType := cfg_connectorType c;
     heartbeatInterval := heartbeatInterval c; voltage := voltage c;
     batteryCapacity := batteryCapacity c; socStart := socStart c;
     cfg_socEnd := cfg_socEnd c; chargeDurationMin := chargeDurationMin c;
     evseCount := evseCount c; chargeMode := m |}.

Definition configChange (c' : Config) (s : Station) : Station :=
  if connected s
  then set_config (withChargeMode (chargeMode c') (config s)) s
  else set_config c' s.

(** ** Operations and reachable states *)

Definition fireTimer (t : Timer) (s : Station) : Station :=
  match t with
  | TRamp evseId txId tag te ts sr => rampUp evseId txId tag te ts sr s
  | TAutoEnd evseId txId ne us tg => autoEnd evseId txId ne us tg s
  | TAutoAvail evseId => autoAvail evseId s
  | TStopAvail evseId => stopAvail evseId s
  | TReset => resetAll s
  | TBoot => sendBoot s
  end.

Definition fireInterval (h : nat) (iv : Interval) (s : Station) : Station :=
  match iv with
  | IHeartbeat => sendOCPP Heartbeat None s
  | IMeter c => meterTick h c s
  end.

Fixpoint lookupInterval (h : nat) (ivs : list (nat * Interval))
    : option Interval :=
  match ivs with
  | [] => None
  | (h', iv) :: rest => if Nat.eqb h' h then Some iv else lookupInterval h rest
  end.

(** What the outside world can make the station do. *)
Inductive Op :=
  | OpConnect (sim urlOk : bool)
  | OpWsOpen
  | OpWsMessage (env : Env) (parsed : option json)
  | OpWsClose
  | OpDisconnect
  | OpStart (env : Env) (evseId : Z) (tag : string)
  | OpStop (evseId : Z)
  | OpInjectFault (env : Env) (evseId : Z) (code infoText : string)
  | OpClearFault (evseId : Z)
  | OpConfigChange (c : Config)
  | OpSyncEvseCount
  | OpTempTick
  | OpFireTimer (n : nat)
  | OpTick (h : nat).

Definition step (o : Op) (s : Station) : Station :=
  match o with
  | OpConnect sim urlOk => connect sim urlOk s
  | OpWsOpen =>
      match wsRef s with
      | Some CONNECTING => wsOnOpen (set_wsRef (Some OPEN) s)
      | _ => s
      end
  | OpWsMessage env parsed =>
      match wsRef s with
      | Some OPEN | Some CLOSING => fst (handleCsmsMessage env parsed s)
      | _ => s
      end
  | OpWsClose =>
      match wsRef s with
      | Some CLOSED | None => s
      | Some _ => wsOnClose (set_wsRef (Some CLOSED) s)
      end
  | OpDisconnect => disconnect s
  | OpStart env evseId tag =>
      if connected s then doStartSession env evseId (JStr tag) s else s
  | OpStop evseId => fst (doStopSession (evses s) evseId "Local" s)
  | OpInjectFault env evseId code infoText =>
      injectFault env evseId code infoText s
  | OpClearFault evseId => clearFault evseId s
  | OpConfigChange c => configChange c s
  | OpSyncEvseCount => syncEvseCount s
  | OpTempTick => tempTick s
  | OpFireTimer n =>
      match timers s !! n with
      | Some t => fireTimer t (set_timers (delete n (timers s)) s)
      | None => s
      end
  | OpTick h =>
      match lookupInterval h (intervals s) with
      | Some iv => fireInterval h iv s
      | None => s
      end
  end.

Definition run (ops : list Op) (s : Station) : Station :=
  fold_left (fun acc o => step o acc) ops s.

Inductive reachable : Station -> Prop :=
  | reach_init : reachable initialStation
  | reach_step s o : reachable s -> reachable (step o s).

(** A configuration whose charging numbers lie in the ranges that the
    configuration panel declares for its fields ([min] and [max] of the
    number inputs).  In particular [maxPower] and [chargeDurationMin], the
    two numbers the code divides by, are positive. *)
Definition inPanelRanges (c : Config) : Prop :=
  1 <= maxPower c /\ maxPower c <= 350
  /\ 5 <= batteryCapacity c /\ batteryCapacity c <= 200
  /\ 0 <= socStart c /\ socStart c <= 99
  /\ 1 <= cfg_socEnd c /\ cfg_socEnd c <= 100
  /\ 1 <= chargeDurationMin c /\ chargeDurationMin c <= 480.

(** An operation that installs no configuration outside these ranges. *)
Definition wellConfigured (o : Op) : Prop :=
  match o with
  | OpConfigChange c => inPanelRanges c
  | _ => True
  end.

(** ** Invariants *)

(** The invariant the specification states for one EVSE. *)
Definition specInvariant (e : Evse) : Prop :=
  ((status e = Charging \/ status e = Preparing) <-> is_Some (session e))
  /\ (status e = Faulted <-> is_Some (fault e))
  /\ ~ (is_Some (session e) /\ is_Some (fault e)).

(** The part of it that every handler keeps. *)
Definition evseInvariant (e : Evse) : Prop :=
  (status e = Charging \/ status e = Preparing -> is_Some (session e))
  /\ (status e = Faulted -> is_Some (fault e) /\ session e = None).

Definition stationInvariant (evs : list Evse) : Prop :=
  NoDup (map evse_id evs) /\ Forall evseInvariant evs.

(** ** Concrete runs used as examples *)

Definition demoEnv : Env :=
  {| env_uid := "TX000001"; env_now := "2026-01-01T00:00:00.000Z";
     env_dateNow := 0; env_eventId := 7 |}.

(** Start a session on EVSE 1 from the simulated connection, then stop it. *)
Definition traceStartStop : list Op :=
  [OpConnect true true; OpStart demoEnv 1 "USER001"; OpStop 1].

(** [[2, "m1", "ChangeAvailability", { evseId: 1, operationalStatus: st }]]. *)
Definition changeAvailabilityFrame (st : string) : json :=
  JArr [JNum 2; JStr "m1"; JStr "ChangeAvailability";
        JObj [("evseId", JNum 1); ("operationalStatus", JStr st)]].

(** Fault EVSE 1, let the CSMS set it Operative, start a session on it. *)
Definition traceFaultThenStart : list Op :=
  [OpConnect false true; OpWsOpen;
   OpInjectFault demoEnv 1 "GroundFailure" "";
   OpWsMessage demoEnv (Some (changeAvailabilityFrame "Operative"));
   OpStart demoEnv 1 "USER001"].

(** The default configuration with a one-minute charge from 19 % to 20 %. *)
Definition shortChargeConfig : Config :=
  {| csmsUrl := "ws://localhost:9000/ocpp"; stationId := "EVCS-001";
     vendor := "VoltCore Systems"; model := "VC-150DC";
     serialNumber := "VC2024000001"; maxPower := 50;
     cfg_connectorType := "CCS2"; heartbeatInterval := 30; voltage := 400;
     batteryCapacity := 60; socStart := 19; cfg_socEnd := 20;
     chargeDurationMin := 1; evseCount := 2; chargeMode := "nonlinear" |}.

(** Configure, connect, start on EVSE 1 and let the ramp-up delay elapse:
    the metering interval gets handle 2 (the heartbeat has handle 1). *)
Definition traceCharging : list Op :=
  [OpConfigChange shortChargeConfig; OpConnect true true;
   OpStart demoEnv 1 "USER001"; OpFireTimer 1].

(** The same followed by [n] metering ticks. *)
Definition traceTicks (n : nat) : list Op :=
  traceCharging ++ repeat (OpTick 2) n.

(** [batteryCapacity * (socEnd - socStart) / 100]. *)
Definition targetEnergy (cfg : Config) : Q :=
  batteryCapacity cfg * (cfg_socEnd cfg - socStart cfg) / 100.

Definition sessionOf (id : Z) (s : Station) : option Session :=
  findEvse id (evses s) ≫= session.

(** The station once EVSE 1 is Charging, with its session, its EVSE record
    and the closure of its metering interval. *)
Definition demoCharging : Station := run traceCharging initialStation.

Definition demoSession : Session :=
  {| startTime := 0; energy := 0; soc := 19; transactionId := "TX000001";
     idTag := JStr "USER001"; totalSeconds := 60; socEnd := 20 |}.

Definition demoEvse : Evse :=
  {| evse_id := 1; connectorType := "CCS2"; status := Charging;
     session := Some demoSession; temperature := 28; fault := None;
     power := 0 |}.

Definition demoClosure : MeterClosure :=
  {| m_evseId := 1; m_txId := "TX000001"; m_totalEnergy := (20 - 19) / 100 * 60;
     m_totalSeconds := 1 * 60; m_socRange := 20 - 19; m_seqNo := 1 |}.

(** The actions the dispatcher has a branch for. *)
Definition knownActions : list string :=
  ["RequestStartTransaction"; "RequestStopTransaction"; "Reset";
   "ChangeAvailability"; "TriggerMessage"].

(** Everything of the station except its log and the frames it has sent. *)
Definition sameEngineState (s s' : Station) : Prop :=
  config s' = config s /\ evses s' = evses s
  /\ connected s' = connected s /\ simMode s' = simMode s
  /\ wsRef s' = wsRef s /\ heartbeatRef s' = heartbeatRef s
  /\ meterRefs s' = meterRefs s /\ intervals s' = intervals s
  /\ timers s' = timers s /\ nextHandle s' = nextHandle s.

(** A station with an open socket and nothing else going on. *)
Definition demoOnline : Station :=
  run [OpConnect false true; OpWsOpen] initialStation.

(** The same with EVSE 1 charging. *)
Definition demoOnlineCharging : Station :=
  run [OpConnect false true; OpWsOpen; OpStart demoEnv 1 "USER001";
       OpFireTimer 1] initialStation.

Definition demoOnlineSession : Session :=
  {| startTime := 0; energy := 0; soc := 20; transactionId := "TX000001";
     idTag := JStr "USER001"; totalSeconds := 5 * 60; socEnd := 100 |}.

Definition demoOnlineEvse : Evse :=
  {| evse_id := 1; connectorType := "CCS2"; status := Charging;
     session := Some demoOnlineSession; temperature := 28; fault := None;
     power := 0 |}.

Definition demoOnlineClosure : MeterClosure :=
  {| m_evseId := 1; m_txId := "TX000001";
     m_totalEnergy := (100 - 20) / 100 * 60;
     m_totalSeconds := 5 * 60; m_socRange := 100 - 20; m_seqNo := 1 |}.

(** Does the session of EVSE 1 sit at the target SOC with more energy than
    the target energy? *)
Definition overshoots (s : Station) : bool :=
  match sessionOf 1 s with
  | Some ses =>
      Qeq_bool (soc ses) (cfg_socEnd (config s))
      && Qltb (targetEnergy (config s)) (energy ses)
  | None => false
  end.

(** A one-minute charge from 22 % to 82 %: one point per tick on the
    plateau, then the taper above 80 %. *)
Definition plateauChargeConfig : Config :=
  {| csmsUrl := "ws://localhost:9000/ocpp"; stationId := "EVCS-001";
     vendor := "VoltCore Systems"; model := "VC-150DC";
     serialNumber := "VC2024000001"; maxPower := 50;
     cfg_connectorType := "CCS2"; heartbeatInterval := 30; voltage := 400;
     batteryCapacity := 60; socStart := 22; cfg_socEnd := 82;
     chargeDurationMin := 1; evseCount := 2; chargeMode := "nonlinear" |}.

(** Configure it, connect, start on EVSE 1, let the ramp-up delay elapse
    and let the metering interval (handle 2) tick 61 times. *)
Definition traceOvershoot : list Op :=
  [OpConfigChange plateauChargeConfig; OpConnect true true;
   OpStart demoEnv 1 "USER001"; OpFireTimer 1] ++ repeat (OpTick 2) 61.


(** The temperature window of an EVSE. *)
Definition temperatureInRange (e : Evse) : Prop :=
  25 <= temperature e /\ temperature e <= 85.

(** The correlation id a reply frame carries. *)
Definition frameId (f : Frame) : option json :=
  match f with
  | FCallResult i _ => i
  | FCallError i _ _ => i
  end.

(** ** The single-connector variant ([src/App.jsx])

    The same engine for one connector: [status], [session] and [power] are
    separate pieces of React state, [sessionRef] mirrors the session for the
    callbacks, and the metering increments are constants fixed when the
    session starts.  Its configuration has no [evseCount] and no
    [chargeMode]; those two fields of [Config] are not read here. *)

Module SingleEvse.

(** What the ramp-up callback and the metering callback close over. *)
Record Closure := {
  k_cfg : Config;
  k_txId : string;
  k_idTag : json;
  k_socIncPerSec : Q;
  k_energyIncPerSec : Q;
  k_chargePower : Q
}.

Inductive Timer :=
  | TRamp (k : Closure)
  | TAutoEnd (k : Closure)
  | TFinal
  | TResetBoot.

Record Charger := {
  config : Config;
  status : EvseStatus;
  session : option Session;
  sessionRef : option Session;
  power : Q;
  logs : list LogEntry;
  wsRef : option ReadyState;
  wire : list Frame;
  meterRef : option nat;
  intervals : list (nat * Closure);
  timers : list Timer;
  nextHandle : nat
}.


Definition set_status (st : EvseStatus) (s : Charger) : Charger :=
  {| config := config s; status := st; session := session s;
     sessionRef := sessionRef s; power := power s; logs := logs s;
     wsRef := wsRef s; wire := wire s; meterRef := meterRef s;
     intervals := intervals s; timers := timers s;
     nextHandle := nextHandle s |}.

(** [setSession(v); sessionRef.current = r]. *)
Definition set_session (v r : option Session) (s : Charger) : Charger :=
  {| config := config s; status := status s; session := v;
     sessionRef := r; power := power s; logs := logs s;
     wsRef := wsRef s; wire := wire s; meterRef := meterRef s;
     intervals := intervals s; timers := timers s;
     nextHandle := nextHandle s |}.

Definition set_power (p : Q) (s : Charger) : Charger :=
  {| config := config s; status := status s; session := session s;
     sessionRef := sessionRef s; power := p; logs := logs s;
     wsRef := wsRef s; wire := wire s; meterRef := meterRef s;
     intervals := intervals s; timers := timers s;
     nextHandle := nextHandle s |}.

Definition set_logs (l : list LogEntry) (s : Charger) : Charger :=
  {| config := config s; status := status s; session := session s;
     sessionRef := sessionRef s; power := power s; logs := l;
     wsRef := wsRef s; wire := wire s; meterRef := meterRef s;
     intervals := intervals s; timers := timers s;
     nextHandle := nextHandle s |}.

Definition set_wire (w : list Frame) (s : Charger) : Charger :=
  {| config := config s; status := status s; session := session s;
     sessionRef := sessionRef s; power := power s; logs := logs s;
     wsRef := wsRef s; wire := w; meterRef := meterRef s;
     intervals := intervals s; timers := timers s;
     nextHandle := nextHandle s |}.

Definition set_meter (m : option nat) (ivs : list (nat * Closure))
    (n : nat) (s : Charger) : Charger :=
  {| config := config s; status := status s; session := session s;
     sessionRef := sessionRef s; power := power s; logs := logs s;
     wsRef := wsRef s; wire := wire s; meterRef := m;
     intervals := ivs; timers := timers s; nextHandle := n |}.

Definition set_timers (t : list Timer) (s : Charger) : Charger :=
  {| config := config s; status := status s; session := session s;
     sessionRef := sessionRef s; power := power s; logs := logs s;
     wsRef := wsRef s; wire := wire s; meterRef := meterRef s;
     intervals := intervals s; timers := t; nextHandle := nextHandle s |}.

(** [addLog(dir, msg)]: keeps the last 200 lines and appends. *)
Definition addLog (d : string) (m : LogMsg) (s : Charger) : Charger :=
  set_logs (lastN 200 (logs s) ++
            [{| dir := d; msg := m; log_evseId := None |}]) s.

(** [sendOCPP(action, payload)]: the TX log line (transport left out). *)
Definition sendOCPP (c : OutCall) (s : Charger) : Charger :=
  addLog "TX" (MsgTx c) s.

Definition wsIsOpen (s : Charger) : bool :=
  bool_decide (wsRef s = Some OPEN).

(** [replyOCPP(msgId, { status })]; as in the multi-EVSE variant the log
    line interpolates [msgId] after the send, and this definition describes
    the code for a primitive [msgId]. *)
Definition replyOCPP (msgId : option json) (st : string)
    (s : Charger) : Charger :=
  if wsIsOpen s
  then addLog "TX" (MsgReply msgId st)
         (set_wire (wire s ++ [FCallResult msgId st]) s)
  else s.

Definition setTimeout (t : Timer) (s : Charger) : Charger :=
  set_timers (timers s ++ [t]) s.

(** [clearInterval(meterRef.current)]. *)
Definition clearMeter (s : Charger) : Charger :=
  match meterRef s with
  | None => s
  | Some h =>
      set_meter (meterRef s)
        (filter (fun iv => fst iv ≠ h) (intervals s)) (nextHandle s) s
  end.

(** [doStartSession(idTag)]. *)
Definition doStartSession (env : Env) (tag : json) (s : Charger) : Charger :=
  let cfg := config s in
  let txId := env_uid env in
  let socRange := cfg_socEnd cfg - socStart cfg in
  let totalEnergy := (socRange / 100) * batteryCapacity cfg in
  let totalSecs := chargeDurationMin cfg * 60 in
  let socIncPerSec := socRange / totalSecs in
  let energyIncPerSec := totalEnergy / totalSecs in
  let chargePower := totalEnergy / (chargeDurationMin cfg / 60) in
  let ses := {| startTime := env_dateNow env; energy := 0;
                soc := socStart cfg; transactionId := txId; idTag := tag;
                totalSeconds := totalSecs; socEnd := cfg_socEnd cfg |} in
  let s := set_session (Some ses) (Some ses) s in
  let s := set_status Preparing s in
  let s := addLog "SYS" (MsgSessionStarted 1 txId) s in
  let s := sendOCPP (Authorize tag) s in
  setTimeout (TRamp {| k_cfg := cfg; k_txId := txId; k_idTag := tag;
                       k_socIncPerSec := socIncPerSec;
                       k_energyIncPerSec := energyIncPerSec;
                       k_chargePower := chargePower |}) s.

(** The constants [doStartSession] computes under configuration [cfg]. *)
Definition closureOf (env : Env) (tag : json) (cfg : Config) : Closure :=
  let socRange := cfg_socEnd cfg - socStart cfg in
  let totalEnergy := (socRange / 100) * batteryCapacity cfg in
  let totalSecs := chargeDurationMin cfg * 60 in
  {| k_cfg := cfg; k_txId := env_uid env; k_idTag := tag;
     k_socIncPerSec := socRange / totalSecs;
     k_energyIncPerSec := totalEnergy / totalSecs;
     k_chargePower := totalEnergy / (chargeDurationMin cfg / 60) |}.


(** The 1500 ms callback of [doStartSession]. *)
Definition rampUp (k : Closure) (s : Charger) : Charger :=
  let s := set_status Charging s in
  let s := set_power (k_chargePower k) s in
  let s := sendOCPP (TransactionStarted (k_txId k) (k_idTag k) 1) s in
  let h := nextHandle s in
  set_meter (Some h) (intervals s ++ [(h, k)]) (S h) s.

(** [{ ...prev, energy: newEnergy, soc: newSoc }].  The sums are exact
    here; in doubles each addition rounds, which over a whole charge can
    move the tick that reaches the target by one. *)
Definition tickSession (k : Closure) (prev : Session) : Session :=
  {| startTime := startTime prev;
     energy := energy prev + k_energyIncPerSec k;
     soc := Qmin' (soc prev + k_socIncPerSec k) (cfg_socEnd (k_cfg k));
     transactionId := transactionId prev; idTag := idTag prev;
     totalSeconds := totalSeconds prev; socEnd := socEnd prev |}.

(** One run of the metering callback. *)
Definition meterTick (k : Closure) (s : Charger) : Charger :=
  match session s with
  | None => s
  | Some prev =>
      let updated := tickSession k prev in
      let s :=
        if Qle_bool (cfg_socEnd (k_cfg k)) (soc updated)
        then
          let s := clearMeter s in
          let s := addLog "SYS"
                     (MsgTargetReached 1 (cfg_socEnd (k_cfg k))) s in
          setTimeout (TAutoEnd k) s
        else s in
      set_session (Some updated) (Some updated) s
  end.

(** The 500 ms callback scheduled when the target SOC is reached. *)
Definition autoEnd (k : Closure) (s : Charger) : Charger :=
  match sessionRef s with
  | None => s
  | Some finalSes =>
      let s := set_status Finishing s in
      let s := sendOCPP
                 (TransactionEnded (k_txId k) "EVDeparted" "EVDisconnected"
                    (Some (jsRound (energy finalSes * 1000),
                           cfg_socEnd (k_cfg k)))) s in
      setTimeout TFinal s
  end.

(** The 2000 ms callback that ends every session. *)
Definition finalize (s : Charger) : Charger :=
  let s := set_session None None s in
  let s := set_power 0 s in
  let s := set_status Available s in
  sendOCPP (StatusNotification "Available" (jid 1)) s.

(** [doStopSession(reason)]. *)
Definition doStopSession (reason : string) (s : Charger) : Charger * bool :=
  let s := clearMeter s in
  match sessionRef s with
  | None => (s, false)
  | Some ses =>
      let s := set_status Finishing s in
      let s := addLog "SYS" (MsgSessionEnded 1 reason (energy ses)) s in
      let s := sendOCPP
                 (TransactionEnded (transactionId ses)
                    (if String.eqb reason "Remote"
                     then "RemoteStop" else "StopAuthorized")
                    (if String.eqb reason "Remote" then "Remote" else "Local")
                    (Some (jsRound (energy ses * 1000), soc ses))) s in
      (setTimeout TFinal s, true)
  end.

(** [v] is truthy. *)
Definition truthy (v : option json) : bool :=
  match v with
  | None | Some JNull | Some (JBool false) => false
  | Some (JStr str) => negb (String.eqb str "")
  | Some (JNum q) => negb (Qeq_bool q 0)
  | Some _ => true
  end.

(** The branches of [switch (action)]; [curStatus] is [statusRef.current].
    The SYS log lines interpolate the id tag (start), [payload.type] (Reset)
    and [payload.requestedMessage] (TriggerMessage); this definition
    describes the code for payloads in which these are primitive. *)
Definition dispatchCall (env : Env) (msgId : option json) (action : json)
    (payload : json) (s : Charger) : Charger :=
  let curStatus := status s in
  let pl := Some payload in
  if isStr (Some action) "RequestStartTransaction" then
    if negb (bool_decide (curStatus = Available))
    then addLog "SYS" (MsgText "RequestStartTransaction rejected")
           (replyOCPP msgId "Rejected" s)
    else
      let s := replyOCPP msgId "Accepted" s in
      let tag := orElse (getProp "idToken" (getProp "idToken" pl))
                   (JStr "REMOTE") in
      let s := addLog "SYS" (MsgText "remote start accepted") s in
      doStartSession env tag s
  else if isStr (Some action) "RequestStopTransaction" then
    match sessionRef s with
    | None =>
        addLog "SYS" (MsgText "RequestStopTransaction rejected: no session")
          (replyOCPP msgId "Rejected" s)
    | Some ses =>
        if truthy (getProp "transactionId" pl)
           && negb (isStr (getProp "transactionId" pl) (transactionId ses))
        then addLog "SYS"
               (MsgText "RequestStopTransaction rejected: txId mismatch")
               (replyOCPP msgId "Rejected" s)
        else
          let s := replyOCPP msgId "Accepted" s in
          let s := addLog "SYS" (MsgText "remote stop accepted") s in
          fst (doStopSession "Remote" s)
    end
  else if isStr (Some action) "Reset" then
    let s := replyOCPP msgId "Accepted" s in
    let s := addLog "SYS" (MsgText "reset accepted") s in
    let s := fst (doStopSession "Remote" s) in
    setTimeout TResetBoot s
  else if isStr (Some action) "ChangeAvailability" then
    let s := replyOCPP msgId "Accepted" s in
    let newStatus :=
      if isStr (getProp "operationalStatus" pl) "Inoperative"
      then Unavailable else Available in
    let s := set_status newStatus s in
    let s := addLog "SYS" (MsgText "ChangeAvailability") s in
    sendOCPP (StatusNotification (statusName newStatus) (jid 1)) s
  else if isStr (Some action) "TriggerMessage" then
    let s := replyOCPP msgId "Accepted" s in
    let m := getProp "requestedMessage" pl in
    let s := addLog "SYS" (MsgText "TriggerMessage") s in
    let s := if isStr m "Heartbeat" then sendOCPP Heartbeat s else s in
    let s := if isStr m "StatusNotification"
             then sendOCPP (StatusNotification (statusName curStatus) (jid 1)) s
             else s in
    if isStr m "BootNotification"
    then sendOCPP (bootCall "Triggered" (config s)) s
    else s
  else
    if wsIsOpen s
    then addLog "TX" (MsgText "CallError [NotImplemented]")
           (set_wire (wire s ++ [FCallError msgId "NotImplemented"
                                   (Some action)]) s)
    else s.

(** [handleCsmsMessage(data)]; [parsed] is the outcome of [JSON.parse].
    The log lines interpolate the message id and the action; this
    definition describes the code for frames in which these are
    primitive. *)
Definition handleCsmsMessage (env : Env) (parsed : option json)
    (s : Charger) : Charger * Completion :=
  match parsed with
  | None => (addLog "ERR" MsgInvalid s, Normal)
  | Some v =>
      match iterate v with
      | None => (s, TypeError)
      | Some elems =>
          let type := elems !! 0%nat in
          let msgId := elems !! 1%nat in
          let rest := drop 2 elems in
          if isNum type 3 then
            match rest !! 0%nat with
            | None => (s, TypeError)
            | Some r0 => (addLog "RX" (MsgCallResult msgId r0) s, Normal)
            end
          else if isNum type 4 then
            (addLog "ERR" (MsgCallError rest) s, Normal)
          else if isNum type 2 then
            match rest !! 0%nat, rest !! 1%nat with
            | Some action, Some payload =>
                let s := addLog "CSMS" (MsgCsmsCall action payload) s in
                (dispatchCall env msgId action payload s, Normal)
            | _, _ => (s, TypeError)
            end
          else (s, Normal)
      end
  end.

(** The 2000 ms callback of the Reset branch. *)
Definition resetBoot (s : Charger) : Charger :=
  sendOCPP (bootCall "RemoteReset" (config s)) (set_status Available s).

Definition fireTimer (t : Timer) (s : Charger) : Charger :=
  match t with
  | TRamp k => rampUp k s
  | TAutoEnd k => autoEnd k s
  | TFinal => finalize s
  | TResetBoot => resetBoot s
  end.

(** Everything of the charger except its log and the frames it has sent. *)
Definition sameCharger (s s' : Charger) : Prop :=
  config s' = config s /\ status s' = status s
  /\ session s' = session s /\ sessionRef s' = sessionRef s
  /\ power s' = power s /\ wsRef s' = wsRef s
  /\ meterRef s' = meterRef s /\ intervals s' = intervals s
  /\ timers s' = timers s /\ nextHandle s' = nextHandle s.



(** An idle charger with an open socket. *)
Definition onlineCharger : Charger :=
  {| config := defaultConfig; status := Available; session := None;
     sessionRef := None; power := 0; logs := []; wsRef := Some OPEN;
     wire := []; meterRef := None; intervals := []; timers := [];
     nextHandle := 1 |}.

(** The same with a session charging: a start, then its ramp-up callback. *)
Definition demoCharger : Charger :=
  rampUp (closureOf demoEnv (JStr "USER001") defaultConfig)
    (doStartSession demoEnv (JStr "USER001") onlineCharger).

End SingleEvse.
(** ** Facts on the rational helpers *)

Lemma Qltb_lt x y : Qltb x y = true <-> x < y.
Proof.
  unfold Qltb. rewrite negb_true_iff.
  destruct (Qle_bool y x) eqn:E.
  - apply Qle_bool_iff in E. split; [discriminate | intros H; lra].
  - split; [intros _ | reflexivity].
    apply Qnot_le_lt. intros H. apply Qle_bool_iff in H. congruence.
Qed.

Lemma Qltb_ge x y : Qltb x y = false <-> y <= x.
Proof.
  unfold Qltb. rewrite negb_false_iff. apply Qle_bool_iff.
Qed.

Lemma Qle_bool_false x y : Qle_bool x y = false <-> y < x.
Proof.
  destruct (Qle_bool x y) eqn:E.
  - apply Qle_bool_iff in E. split; [discriminate | intros H; lra].
  - split; [intros _ | reflexivity].
    apply Qnot_le_lt. intros H. apply Qle_bool_iff in H. congruence.
Qed.

Ltac qcase x y :=
  let E := fresh "E" in
  destruct (Qltb x y) eqn:E;
  [apply Qltb_lt in E | apply Qltb_ge in E].

Ltac qcase_le x y :=
  let E := fresh "E" in
  destruct (Qle_bool x y) eqn:E;
  [apply Qle_bool_iff in E | apply Qle_bool_false in E].

Lemma Qmin'_spec x y : (x <= y /\ Qmin' x y = x) \/ (y < x /\ Qmin' x y = y).
Proof. unfold Qmin'. qcase_le x y; [left | right]; split; auto. Qed.

Lemma Qmax'_spec x y : (x <= y /\ Qmax' x y = y) \/ (y < x /\ Qmax' x y = x).
Proof. unfold Qmax'. qcase_le x y; [left | right]; split; auto. Qed.

Lemma Qmin'_le_l x y : Qmin' x y <= x.
Proof. destruct (Qmin'_spec x y) as [[? ->]|[? ->]]; lra. Qed.

Lemma Qmin'_le_r x y : Qmin' x y <= y.
Proof. destruct (Qmin'_spec x y) as [[? ->]|[? ->]]; lra. Qed.

Lemma Qmax'_ge_l x y : x <= Qmax' x y.
Proof. destruct (Qmax'_spec x y) as [[? ->]|[? ->]]; lra. Qed.

Lemma Qmax'_ge_r x y : y <= Qmax' x y.
Proof. destruct (Qmax'_spec x y) as [[? ->]|[? ->]]; lra. Qed.

Ltac qlra := unfold Qdiv in *; cbn [Qinv Qnum Qden] in *; lra.

Section PhysicsFacts.
Import Physics.

Lemma chargeCurve_eq_spec soc : chargeCurve soc == powerCurveMultiplier_spec soc.
Proof.
  unfold chargeCurve, powerCurveMultiplier_spec, lerp.
  qcase soc 20; [field|].
  qcase soc 80.
  - qcase_le soc 80; [reflexivity | lra].
  - qcase_le soc 80.
    + qcase soc 90; qlra.
    + qcase soc 90; [field|]. qcase soc 95; field.
Qed.

Lemma chargeCurve_plateau soc : 20 <= soc -> soc <= 80 -> chargeCurve soc == 1.
Proof.
  intros H1 H2. unfold chargeCurve.
  qcase soc 20; [lra|]. qcase soc 80; [reflexivity|].
  qcase soc 90; qlra.
Qed.

Lemma chargeCurve_range soc : 0 <= soc -> soc <= 100 ->
  0.05 <= chargeCurve soc /\ chargeCurve soc <= 1.
Proof.
  intros H1 H2. unfold chargeCurve.
  qcase soc 20; [split; qlra|]. qcase soc 80; [split; lra|].
  qcase soc 90; [split; qlra|]. qcase soc 95; split; qlra.
Qed.

(** The slopes of the five pieces lie between -0.055 and 0.0125, and the
    pieces agree where they meet, so the curve is Lipschitz on all of Q. *)
Lemma chargeCurve_slope x y : x <= y ->
  - (11 # 200) * (y - x) <= chargeCurve y - chargeCurve x
  /\ chargeCurve y - chargeCurve x <= (1 # 80) * (y - x).
Proof.
  intros Hxy. unfold chargeCurve.
  qcase x 20; qcase x 80; qcase x 90; qcase x 95;
  qcase y 20; qcase y 80; qcase y 90; qcase y 95; split; qlra.
Qed.

Lemma chargeCurve_lipschitz x y :
  Qabs (chargeCurve x - chargeCurve y) <= (11 # 200) * Qabs (x - y).
Proof.
  destruct (Qlt_le_dec x y) as [H|H].
  - destruct (chargeCurve_slope x y) as [A B]; [lra|].
    apply Qabs_case; intros; (apply Qabs_case; intros); lra.
  - destruct (chargeCurve_slope y x) as [A B]; [lra|].
    apply Qabs_case; intros; (apply Qabs_case; intros); lra.
Qed.

Lemma chargeCurve_continuous b : continuous_at chargeCurve b.
Proof.
  intros eps Heps. exists eps. split; [assumption|].
  intros x Hx. pose proof (chargeCurve_lipschitz x b) as L.
  pose proof (Qabs_nonneg (x - b)). lra.
Qed.

Lemma tempDerating_range t : t <= 85 ->
  0.2 <= tempDerating t /\ tempDerating t <= 1.
Proof.
  intros H. unfold tempDerating.
  qcase t 60; [split; lra|]. qcase t 75; split; qlra.
Qed.

Lemma tempDerating_eq_spec t : t <= 85 ->
  tempDerating t == temperatureDerating_spec t.
Proof.
  intros H. unfold tempDerating, temperatureDerating_spec, lerp.
  qcase t 60; [reflexivity|]. qcase t 75; [field|].
  assert (L : 0.6 + (0.2 - 0.6) * ((t - 75) / (85 - 75))
              == 0.6 - (t - 75) * (1 # 25)) by field.
  destruct (Qmax'_spec 0.2 (0.6 + (0.2 - 0.6) * ((t - 75) / (85 - 75))))
    as [[A ->]|[A ->]]; rewrite L in A; [field | lra].
Qed.

Lemma updateTemp_bounds cur p mx amb : amb <= 85 ->
  amb <= updateTemp cur p mx amb /\ updateTemp cur p mx amb <= 85.
Proof.
  intros H. unfold updateTemp. cbv zeta.
  set (v := cur + p / mx * 0.08 - (cur - amb) * 0.012).
  destruct (Qmax'_spec amb (Qmin' 85 v)) as [[A ->]|[A ->]];
    destruct (Qmin'_spec 85 v) as [[B E]|[B E]]; rewrite ?E in *; split; lra.
Qed.

End PhysicsFacts.

(** ** The power curve and the temperature derating *)

Section PhysicsClaims.
Import Physics.

(** C2. For every SOC in [0,100] the multiplier computed by [chargeCurve] is
    the piecewise-linear curve of the specification (0.75 to 1.0 below 20,
    1.0 on [20,80], 1.0 to 0.45 up to 90, 0.45 to 0.20 up to 95, 0.20 to 0.05
    up to 100); it is exactly 1 on the plateau, lies in [0,1], and is
    continuous at the breakpoints 20, 80, 90 and 95. *)
Theorem C2_power_curve_piecewise (soc : Q) :
  0 <= soc -> soc <= 100 ->
  chargeCurve soc == powerCurveMultiplier_spec soc
  /\ (20 <= soc -> soc <= 80 -> chargeCurve soc == 1)
  /\ (0 <= chargeCurve soc /\ chargeCurve soc <= 1)
  /\ (forall b, In b [20; 80; 90; 95] -> continuous_at chargeCurve b)
  /\ chargeCurve 0 == 0.75 /\ chargeCurve 20 == 1 /\ chargeCurve 80 == 1
  /\ chargeCurve 90 == 0.45 /\ chargeCurve 95 == 0.20
  /\ chargeCurve 100 == 0.05.
Proof.
  intros H0 H100.
  split; [apply chargeCurve_eq_spec|].
  split; [apply chargeCurve_plateau|].
  split.
  { destruct (chargeCurve_range soc H0 H100). split; lra. }
  split; [intros b _; apply chargeCurve_continuous|].
  repeat split; reflexivity.
Qed.

Lemma C2_power_curve_piecewise_witness :
  0 <= 85 /\ 85 <= 100 /\ chargeCurve 85 == powerCurveMultiplier_spec 85.
Proof.
  split; [lra|]. split; [lra|].
  apply (C2_power_curve_piecewise 85); lra.
Defined.

(** C4, as the code has it. [tempDerating] applies no floor of its own:
    above 85 degrees its last line keeps falling. *)
Lemma C4_counterexample :
  tempDerating 95 == -0.2
  /\ ~ (0.2 <= tempDerating 95)
  /\ ~ (tempDerating 95 == temperatureDerating_spec 95).
Proof.
  split; [reflexivity|]. split; intros H.
  - apply Qle_bool_iff in H. vm_compute in H. discriminate.
  - apply Qeq_bool_iff in H. vm_compute in H. discriminate.
Qed.

(** C4 (amended). For every temperature up to 85 degrees, the upper bound
    [updateTemp] keeps every EVSE temperature under, [tempDerating] is 1.0
    below 60, falls linearly from 1.0 to 0.6 between 60 and 75 and from 0.6
    to 0.2 between 75 and 85, agrees with the floored curve of the
    specification and lies in [0.2, 1.0]. *)
Theorem C4_temp_derating_up_to_85 (tempC : Q) :
  tempC <= 85 ->
  (tempC < 60 -> tempDerating tempC == 1)
  /\ (60 <= tempC -> tempC < 75 ->
      tempDerating tempC == lerp 60 1.0 75 0.6 tempC)
  /\ (75 <= tempC -> tempDerating tempC == lerp 75 0.6 85 0.2 tempC)
  /\ tempDerating tempC == temperatureDerating_spec tempC
  /\ 0.2 <= tempDerating tempC /\ tempDerating tempC <= 1.
Proof.
  intros H. unfold tempDerating, lerp.
  split; [|split; [|split; [|split]]].
  - intros Hlt. qcase tempC 60; [reflexivity | lra].
  - intros Hge Hlt. qcase tempC 60; [lra|]. qcase tempC 75; [field | lra].
  - intros Hge. qcase tempC 60; [lra|]. qcase tempC 75; [lra | field].
  - apply tempDerating_eq_spec, H.
  - apply tempDerating_range, H.
Qed.

Lemma C4_temp_derating_up_to_85_witness :
  70 <= 85 /\ 0.2 <= tempDerating 70 /\ tempDerating 70 <= 1.
Proof.
  split; [lra|]. apply (C4_temp_derating_up_to_85 70). lra.
Defined.

End PhysicsClaims.

(** ** How the handlers touch the EVSE list *)

Lemma evses_addLog d m ev s : evses (addLog d m ev s) = evses s.
Proof. reflexivity. Qed.

Lemma evses_sendOCPP c ev s : evses (sendOCPP c ev s) = evses s.
Proof. reflexivity. Qed.

Lemma evses_replyOCPP i st s : evses (replyOCPP i st s) = evses s.
Proof. unfold replyOCPP. destruct (wsIsOpen s); reflexivity. Qed.

Lemma evses_setTimeout t s : evses (setTimeout t s) = evses s.
Proof. reflexivity. Qed.

Lemma evses_clearInterval h s : evses (clearInterval h s) = evses s.
Proof. destruct h; reflexivity. Qed.

Lemma evses_startMeter c s : evses (startMeter c s) = evses s.
Proof. reflexivity. Qed.

Lemma evses_startHeartbeat s : evses (startHeartbeat s) = evses s.
Proof. reflexivity. Qed.

Lemma evses_bumpSeqNo h s : evses (bumpSeqNo h s) = evses s.
Proof. reflexivity. Qed.

Lemma evses_updateEvse id p s :
  evses (updateEvse id p s) = patchEvses id p (evses s).
Proof. reflexivity. Qed.

Lemma evses_allTo f s : evses (allTo f s) = map f (evses s).
Proof. reflexivity. Qed.

Lemma evses_set_connected c m s : evses (set_connected c m s) = evses s.
Proof. reflexivity. Qed.

Lemma evses_set_wsRef w s : evses (set_wsRef w s) = evses s.
Proof. reflexivity. Qed.

Lemma evses_set_wire w s : evses (set_wire w s) = evses s.
Proof. reflexivity. Qed.

Lemma evses_set_timers t s : evses (set_timers t s) = evses s.
Proof. reflexivity. Qed.

Lemma evses_set_config c s : evses (set_config c s) = evses s.
Proof. reflexivity. Qed.

Lemma evses_set_evses l s : evses (set_evses l s) = l.
Proof. reflexivity. Qed.

#[export] Hint Rewrite evses_addLog evses_sendOCPP evses_replyOCPP
  evses_setTimeout evses_clearInterval evses_startMeter evses_startHeartbeat
  evses_bumpSeqNo evses_updateEvse evses_allTo evses_set_connected
  evses_set_wsRef evses_set_wire evses_set_timers evses_set_config
  evses_set_evses : evs.

(** ** Lookup and patch on lists of EVSEs *)

Lemma findEvse_Some id evs e :
  findEvse id evs = Some e -> e ∈ evs /\ evse_id e = id.
Proof.
  induction evs as [|x evs IH]; simpl; [discriminate|].
  destruct (Z.eqb_spec (evse_id x) id) as [E|E].
  - intros [= <-]. split; [left | exact E].
  - intros H. destruct (IH H). split; [right|]; assumption.
Qed.

Lemma findEvse_None id evs e :
  findEvse id evs = None -> e ∈ evs -> evse_id e <> id.
Proof.
  induction evs as [|x evs IH]; simpl; intros H Hin.
  - inversion Hin.
  - destruct (Z.eqb_spec (evse_id x) id) as [E|E]; [discriminate|].
    inversion Hin; subst; auto.
Qed.

Lemma findEvse_unique evs e :
  NoDup (map evse_id evs) -> e ∈ evs -> findEvse (evse_id e) evs = Some e.
Proof.
  induction evs as [|x evs IH]; simpl; intros ND Hin.
  - inversion Hin.
  - apply NoDup_cons in ND as [Hx ND].
    destruct (Z.eqb_spec (evse_id x) (evse_id e)) as [E|E].
    + inversion Hin; subst; [reflexivity|].
      exfalso. apply Hx. rewrite E. apply list_elem_of_fmap_2. assumption.
    + inversion Hin; subst; [congruence|]. apply IH; assumption.
Qed.

Lemma patchEvses_ids id p evs :
  map evse_id (patchEvses id p evs) = map evse_id evs.
Proof.
  unfold patchEvses. rewrite map_map. apply map_ext.
  intros e. destruct (evse_id e =? id)%Z; reflexivity.
Qed.

Lemma patchEvses_elem id p evs e' :
  e' ∈ patchEvses id p evs ->
  exists e, e ∈ evs /\
    ((evse_id e = id /\ e' = applyPatch p e) \/ (evse_id e <> id /\ e' = e)).
Proof.
  unfold patchEvses. intros H. apply list_elem_of_fmap in H as [e [-> Hin]].
  exists e. split; [assumption|].
  destruct (Z.eqb_spec (evse_id e) id); [left | right]; split; auto.
Qed.

(** A patch keeps the station invariant as soon as it keeps the invariant
    of the one EVSE that [find] returns for its id. *)
Lemma stationInvariant_patch id p evs :
  stationInvariant evs ->
  (forall e, findEvse id evs = Some e -> evseInvariant e ->
             evseInvariant (applyPatch p e)) ->
  stationInvariant (patchEvses id p evs).
Proof.
  intros [ND OK] Hp. split.
  - rewrite patchEvses_ids. exact ND.
  - apply Forall_forall. intros e' Hin.
    apply patchEvses_elem in Hin as [e [Hin [[Hid ->]|[Hid ->]]]].
    + rewrite Forall_forall in OK. apply Hp; [|apply OK, Hin].
      rewrite <- Hid. apply findEvse_unique; assumption.
    + rewrite Forall_forall in OK. apply OK, Hin.
Qed.

Lemma stationInvariant_map f evs :
  stationInvariant evs ->
  (forall e, evse_id (f e) = evse_id e) ->
  (forall e, evseInvariant e -> evseInvariant (f e)) ->
  stationInvariant (map f evs).
Proof.
  intros [ND OK] Hid Hf. split.
  - rewrite map_map. erewrite map_ext; [exact ND|]. intros e. apply Hid.
  - apply Forall_forall. intros e' Hin.
    apply list_elem_of_fmap in Hin as [e [-> Hin]].
    rewrite Forall_forall in OK. apply Hf, OK, Hin.
Qed.

(** Patches that leave Charging, Preparing and Faulted behind are always
    safe; so are the two that enter them with the right companions. *)
Ltac inv_patch :=
  unfold evseInvariant, applyPatch, patch; simpl;
  intuition (try discriminate; try congruence; eauto).

Lemma evseInvariant_createEvse id ct : evseInvariant (createEvse id ct).
Proof. inv_patch. Qed.

(** ** Every handler keeps the station invariant *)

Section Preservation.

Notation Inv s := (stationInvariant (evses s)).

Lemma Inv_doStartSession env id tag s : Inv s -> Inv (doStartSession env id tag s).
Proof.
  intros H. unfold doStartSession.
  destruct (findEvse id (evses s)) as [e|]; [|exact H].
  destruct (negb _); [exact H|].
  autorewrite with evs.
  apply stationInvariant_patch; [exact H|]. intros; inv_patch.
Qed.

Lemma Inv_rampUp id tx tag te ts sr s : Inv s -> Inv (rampUp id tx tag te ts sr s).
Proof.
  intros H. unfold rampUp.
  destruct (findEvse id (evses s)) as [e|] eqn:F; [|exact H].
  destruct (session e) as [ses|] eqn:S; [|exact H].
  autorewrite with evs.
  apply stationInvariant_patch; [exact H|].
  intros e' F' [A B]. rewrite F in F'. injection F' as <-.
  unfold evseInvariant, applyPatch, patch; simpl. rewrite S.
  split; [eauto | discriminate].
Qed.

Lemma Inv_meterTick h c s : Inv s -> Inv (meterTick h c s).
Proof.
  intros H. unfold meterTick.
  destruct (findEvse (m_evseId c) (evses s)) as [e|] eqn:F; [|exact H].
  destruct (session e) as [ses|] eqn:S; [|exact H].
  destruct (bool_decide (status e = Faulted)) eqn:Flt; [exact H|].
  apply bool_decide_eq_false in Flt.
  cbv zeta. rewrite evses_set_evses.
  apply stationInvariant_patch; [exact H|].
  intros e' F' [A B]. rewrite F in F'. injection F' as <-.
  unfold evseInvariant, applyPatch; simpl.
  split; [eauto | intros; contradiction].
Qed.

Lemma Inv_autoEnd id tx ne us tg s : Inv s -> Inv (autoEnd id tx ne us tg s).
Proof.
  intros H. unfold autoEnd. autorewrite with evs.
  apply stationInvariant_patch; [exact H|]. intros; inv_patch.
Qed.

Lemma Inv_autoAvail id s : Inv s -> Inv (autoAvail id s).
Proof.
  intros H. unfold autoAvail. autorewrite with evs.
  apply stationInvariant_patch; [exact H|]. intros; inv_patch.
Qed.

Lemma Inv_stopAvail id s : Inv s -> Inv (stopAvail id s).
Proof.
  intros H. unfold stopAvail. autorewrite with evs.
  apply stationInvariant_patch; [exact H|]. intros; inv_patch.
Qed.

Lemma Inv_doStopSession mirror id reason s :
  Inv s -> Inv (fst (doStopSession mirror id reason s)).
Proof.
  intros H. unfold doStopSession.
  destruct (findEvse id mirror) as [e|]; simpl;
    [|autorewrite with evs; exact H].
  destruct (session e) as [ses|]; simpl; autorewrite with evs; [|exact H].
  apply stationInvariant_patch; [exact H|]. intros; inv_patch.
Qed.

Lemma Inv_stopAll mirror reason s : Inv s -> Inv (stopAll mirror reason s).
Proof.
  unfold stopAll. generalize mirror at 1 as m0. intros m0.
  revert s. induction mirror as [|e rest IH]; simpl; intros s H; [exact H|].
  apply IH. destruct (session e); [apply Inv_doStopSession, H | exact H].
Qed.

Lemma Inv_injectFault env id code inf s :
  Inv s -> Inv (injectFault env id code inf s).
Proof.
  intros H. unfold injectFault. cbv zeta. autorewrite with evs.
  assert (E : forall t, evses
     match findEvse id (evses s) ≫= session with
     | Some ses => sendOCPP (TransactionEnded (transactionId ses)
                     "AbnormalCondition" "ImmediateReset" None)
                     (Some (jid id)) t
     | None => t end = evses t).
  { intros t. destruct (findEvse id (evses s) ≫= session); reflexivity. }
  rewrite E. autorewrite with evs.
  apply stationInvariant_patch; [exact H|]. intros; inv_patch.
Qed.

Lemma Inv_clearFault id s : Inv s -> Inv (clearFault id s).
Proof.
  intros H. unfold clearFault. autorewrite with evs.
  apply stationInvariant_patch; [exact H|]. intros; inv_patch.
Qed.

Lemma Inv_dispatchCall env msgId action payload s :
  Inv s -> Inv (dispatchCall env msgId action payload s).
Proof.
  intros H. unfold dispatchCall. cbv zeta.
  destruct (isStr (Some action) "RequestStartTransaction").
  { destruct (findEvseJ _ _); [|autorewrite with evs; exact H].
    destruct (negb _); [autorewrite with evs; exact H|].
    apply Inv_doStartSession. autorewrite with evs. exact H. }
  destruct (isStr (Some action) "RequestStopTransaction").
  { destruct (findByTx _ _); [|autorewrite with evs; exact H].
    apply Inv_doStopSession. autorewrite with evs. exact H. }
  destruct (isStr (Some action) "Reset").
  { autorewrite with evs. apply Inv_stopAll. autorewrite with evs. exact H. }
  destruct (isStr (Some action) "ChangeAvailability").
  { autorewrite with evs.
    destruct (asId _); autorewrite with evs; [|exact H].
    apply stationInvariant_patch; [exact H|].
    intros e _.
    destruct (isStr (getProp "operationalStatus" (Some payload)) "Inoperative");
      inv_patch. }
  destruct (isStr (Some action) "TriggerMessage").
  { destruct (isStr _ "StatusNotification"), (isStr _ "Heartbeat");
      autorewrite with evs; exact H. }
  destruct (wsIsOpen s); autorewrite with evs; exact H.
Qed.

Lemma Inv_handleCsmsMessage env parsed s :
  Inv s -> Inv (fst (handleCsmsMessage env parsed s)).
Proof.
  intros H. unfold handleCsmsMessage.
  destruct parsed as [v|]; [|exact H].
  destruct (iterate v) as [elems|]; [|exact H]. cbv zeta.
  destruct (isNum _ 3).
  { destruct (drop 2 elems !! 0%nat); exact H. }
  destruct (isNum _ 4); [exact H|].
  destruct (isNum _ 2); [|exact H].
  destruct (drop 2 elems !! 0%nat); [|exact H].
  destruct (drop 2 elems !! 1%nat); [|exact H].
  simpl. apply Inv_dispatchCall. exact H.
Qed.

Lemma evses_sendBoot s : evses (sendBoot s) = evses s.
Proof.
  unfold sendBoot. cbv zeta.
  assert (G : forall (l : list Evse) (u : Station),
    evses (fold_left (fun acc e =>
       sendOCPP (StatusNotification "Available" (jid (evse_id e)))
         (Some (jid (evse_id e))) acc) l u) = evses u).
  { induction l as [|e l IH]; intros u; simpl; [reflexivity|].
    rewrite IH. reflexivity. }
  rewrite G. reflexivity.
Qed.

Lemma Inv_goOnline s : Inv s -> Inv (goOnline s).
Proof.
  intros H. unfold goOnline. autorewrite with evs.
  apply stationInvariant_map; [exact H | reflexivity | intros; inv_patch].
Qed.

Lemma Inv_connect sim ok s : Inv s -> Inv (connect sim ok s).
Proof.
  intros H. unfold connect. destruct sim; [apply Inv_goOnline, H|].
  destruct ok; exact H.
Qed.

Lemma Inv_wsOnOpen s : Inv s -> Inv (wsOnOpen s).
Proof. intros H. apply Inv_goOnline, H. Qed.

Lemma Inv_wsOnClose s : Inv s -> Inv (wsOnClose s).
Proof. intros H. unfold wsOnClose. autorewrite with evs. exact H. Qed.

Lemma evses_clearMany hs s :
  evses (fold_left (fun acc h => clearInterval (Some h) acc) hs s) = evses s.
Proof.
  revert s. induction hs as [|h hs IH]; intros s; simpl; [reflexivity|].
  rewrite IH. reflexivity.
Qed.

Lemma Inv_disconnect s : Inv s -> Inv (disconnect s).
Proof.
  intros H. unfold disconnect. cbv zeta. autorewrite with evs.
  apply stationInvariant_map; [| reflexivity | intros; inv_patch].
  match goal with
  | |- stationInvariant (evses (match ?w with _ => _ end)) =>
      assert (E : forall t, evses
        match wsRef t with
        | Some CONNECTING | Some OPEN => set_wsRef (Some CLOSING) t
        | _ => t end = evses t)
        by (intros t; destruct (wsRef t) as [[]|]; reflexivity)
  end.
  rewrite E. apply Inv_stopAll. rewrite evses_clearMany.
  autorewrite with evs. exact H.
Qed.

Lemma Inv_resetAll s : Inv s -> Inv (resetAll s).
Proof.
  intros H. unfold resetAll. autorewrite with evs.
  apply stationInvariant_map; [exact H | reflexivity | intros; inv_patch].
Qed.

Lemma Inv_tempTick s : Inv s -> Inv (tempTick s).
Proof.
  intros H. unfold tempTick. autorewrite with evs.
  apply stationInvariant_map; [exact H | reflexivity |].
  intros e Ok. exact Ok.
Qed.

Lemma Inv_syncEvseCount s : Inv s -> Inv (syncEvseCount s).
Proof.
  intros H. unfold syncEvseCount. destruct (connected s); [exact H|].
  cbv zeta. rewrite evses_set_evses.
  set (g := fun i : nat => _).
  assert (Hid : forall i, evse_id (g i) = (Z.of_nat i + 1)%Z).
  { intros i. unfold g.
    destruct (findEvse _ _) eqn:F; [|reflexivity].
    apply findEvse_Some in F as [_ F]. exact F. }
  split.
  - rewrite map_map. rewrite (map_ext _ (fun i => (Z.of_nat i + 1)%Z) Hid).
    apply NoDup_fmap_2; [|apply NoDup_seq].
    intros i j Hij. lia.
  - apply Forall_forall. intros e Hin.
    apply list_elem_of_fmap in Hin as [i [-> _]]. unfold g.
    destruct (findEvse _ _) eqn:F; [|apply evseInvariant_createEvse].
    apply findEvse_Some in F as [F _]. destruct H as [_ OK].
    rewrite Forall_forall in OK. apply OK, F.
Qed.

Lemma Inv_configChange c s : Inv s -> Inv (configChange c s).
Proof. intros H. unfold configChange. destruct (connected s); exact H. Qed.

Lemma Inv_fireTimer t s : Inv s -> Inv (fireTimer t s).
Proof.
  intros H. destruct t; cbn [fireTimer].
  - apply Inv_rampUp, H.
  - apply Inv_autoEnd, H.
  - apply Inv_autoAvail, H.
  - apply Inv_stopAvail, H.
  - apply Inv_resetAll, H.
  - rewrite evses_sendBoot. exact H.
Qed.

Lemma Inv_step o s : Inv s -> Inv (step o s).
Proof.
  intros H. destruct o; cbn [step].
  - apply Inv_connect, H.
  - destruct (wsRef s) as [[]|]; try exact H. apply Inv_wsOnOpen, H.
  - destruct (wsRef s) as [[]|]; try exact H; apply Inv_handleCsmsMessage, H.
  - destruct (wsRef s) as [[]|]; try exact H; apply Inv_wsOnClose, H.
  - apply Inv_disconnect, H.
  - destruct (connected s); [apply Inv_doStartSession, H | exact H].
  - apply Inv_doStopSession, H.
  - apply Inv_injectFault, H.
  - apply Inv_clearFault, H.
  - apply Inv_configChange, H.
  - apply Inv_syncEvseCount, H.
  - apply Inv_tempTick, H.
  - destruct (timers s !! n); [apply Inv_fireTimer, H | exact H].
  - destruct (lookupInterval h (intervals s)) as [[|c]|];
      cbn [fireInterval]; try exact H.
    apply Inv_meterTick, H.
Qed.

Lemma Inv_initial : Inv initialStation.
Proof.
  split.
  - simpl. apply NoDup_cons. split; [|apply NoDup_singleton].
    intros Hin. apply list_elem_of_singleton in Hin. discriminate.
  - repeat constructor; simpl; try discriminate; intuition discriminate.
Qed.

Lemma Inv_reachable s : reachable s -> Inv s.
Proof.
  induction 1 as [|s o _ IH]; [apply Inv_initial | apply Inv_step, IH].
Qed.

Lemma reachable_run ops s : reachable s -> reachable (run ops s).
Proof.
  revert s. induction ops as [|o ops IH]; intros s H; simpl; [exact H|].
  apply IH. constructor. exact H.
Qed.

End Preservation.

(** ** C1: the status / session / fault invariant *)

(** C1, as stated, fails on reachable states.  After a local start and stop
    EVSE 1 is Finishing and still holds its session; after a fault, a
    ChangeAvailability(Operative) from the CSMS and a start, EVSE 1 is
    Preparing and holds a session and a fault at once. *)
Lemma C1_counterexample :
  (reachable (run traceStartStop initialStation)
   /\ exists e, findEvse 1 (evses (run traceStartStop initialStation)) = Some e
        /\ status e = Finishing /\ is_Some (session e)
        /\ ~ specInvariant e)
  /\ (reachable (run traceFaultThenStart initialStation)
      /\ exists e,
           findEvse 1 (evses (run traceFaultThenStart initialStation)) = Some e
           /\ status e = Preparing /\ is_Some (session e)
           /\ is_Some (fault e) /\ ~ specInvariant e).
Proof.
  split; (split; [apply reachable_run, reach_init|]);
    eexists; (split; [vm_compute; reflexivity|]); simpl.
  - split; [reflexivity|]. split; [eauto|].
    intros [[_ A] _]. destruct A as [A|A]; [eauto | |]; discriminate.
  - split; [reflexivity|]. split; [eauto|]. split; [eauto|].
    intros [_ [_ A]]. apply A. split; eauto.
Qed.

(** C1 (amended). In every state reachable by any sequence of operations,
    EVSE ids are pairwise distinct and, for every EVSE: status Charging or
    Preparing implies a non-null session; status Faulted implies a non-null
    fault and a null session. *)
Theorem C1_reachable_state_invariant (s : Station) :
  reachable s ->
  NoDup (map evse_id (evses s))
  /\ forall e, e ∈ evses s ->
       (status e = Charging \/ status e = Preparing -> is_Some (session e))
       /\ (status e = Faulted -> is_Some (fault e) /\ session e = None).
Proof.
  intros H. destruct (Inv_reachable s H) as [ND OK].
  split; [exact ND|]. intros e Hin.
  rewrite Forall_forall in OK. apply OK, Hin.
Qed.

Lemma C1_reachable_state_invariant_witness :
  reachable (run traceStartStop initialStation)
  /\ NoDup (map evse_id (evses (run traceStartStop initialStation))).
Proof.
  assert (R : reachable (run traceStartStop initialStation))
    by apply reachable_run, reach_init.
  split; [exact R|].
  exact (proj1 (C1_reachable_state_invariant _ R)).
Defined.

(** ** C3: what one metering tick does to SOC and energy *)

Lemma norm_eq x : norm x == x.
Proof. apply Qred_correct. Qed.

Lemma findEvse_patchEvses id p evs :
  findEvse id (patchEvses id p evs) = applyPatch p <$> findEvse id evs.
Proof.
  induction evs as [|e evs IH]; simpl; [reflexivity|].
  destruct (Z.eqb_spec (evse_id e) id) as [E|E]; simpl.
  - rewrite (proj2 (Z.eqb_eq _ _) E). reflexivity.
  - rewrite (proj2 (Z.eqb_neq _ _) E). exact IH.
Qed.

Lemma findEvse_patchEvses_ne id id' p evs :
  id <> id' -> findEvse id (patchEvses id' p evs) = findEvse id evs.
Proof.
  intros N. induction evs as [|e evs IH]; simpl; [reflexivity|].
  destruct (Z.eqb_spec (evse_id e) id') as [E|E]; simpl.
  - destruct (Z.eqb_spec (evse_id e) id) as [E'|E']; [congruence | exact IH].
  - destruct (Z.eqb_spec (evse_id e) id); [reflexivity | exact IH].
Qed.

(** With an active, non-faulted session the tick rewrites exactly the
    session, power and temperature of the EVSEs carrying the id. *)
Lemma evses_meterTick h c s e ses :
  findEvse (m_evseId c) (evses s) = Some e ->
  session e = Some ses -> status e <> Faulted ->
  evses (meterTick h c s) =
  patchEvses (m_evseId c)
    {| p_status := None;
       p_session := Some (Some (updatedSessionOf c (config s) ses
                                  (temperature e)));
       p_temperature :=
         Some (norm (Physics.updateTemp (temperature e)
                       (effectivePowerOf (config s) ses (temperature e))
                       (maxPower (config s)) Physics.ambientDefault));
       p_fault := None;
       p_power := Some (norm (effectivePowerOf (config s) ses
                                (temperature e))) |}
    (evses s).
Proof.
  intros F S NF. unfold meterTick. rewrite F, S.
  rewrite bool_decide_eq_false_2 by exact NF. reflexivity.
Qed.

Lemma curveMultOf_range cfg ses :
  0 <= soc ses -> soc ses <= 100 ->
  0.05 <= curveMultOf cfg ses /\ curveMultOf cfg ses <= 1.
Proof.
  intros A B. unfold curveMultOf.
  destruct (String.eqb _ _); [apply chargeCurve_range; assumption|].
  split; lra.
Qed.

Lemma tick_multipliers cfg ses temp :
  0 <= soc ses -> soc ses <= 100 -> temp <= 85 ->
  0 < curveMultOf cfg ses * Physics.tempDerating temp.
Proof.
  intros A B C.
  destruct (curveMultOf_range cfg ses A B) as [C1 C2].
  destruct (tempDerating_range temp C) as [T1 T2].
  apply Qmult_lt_0_compat; lra.
Qed.

(** The session a tick leaves behind, and the EVSE around it. *)
Lemma meterTick_session h c s e ses :
  findEvse (m_evseId c) (evses s) = Some e ->
  session e = Some ses -> status e <> Faulted ->
  exists e',
    findEvse (m_evseId c) (evses (meterTick h c s)) = Some e'
    /\ status e' = status e /\ fault e' = fault e
    /\ session e' = Some (updatedSessionOf c (config s) ses (temperature e)).
Proof.
  intros F S NF. rewrite (evses_meterTick h c s e ses F S NF).
  rewrite findEvse_patchEvses, F. simpl. eexists. split; [reflexivity|].
  repeat split.
Qed.

Lemma updatedSession_soc c cfg ses temp :
  soc (updatedSessionOf c cfg ses temp) ==
  Qmin' (soc ses + m_socRange c / m_totalSeconds c * curveMultOf cfg ses
                   * Physics.tempDerating temp) (cfg_socEnd cfg).
Proof. simpl. unfold newSocOf, socIncOf. apply norm_eq. Qed.

Lemma updatedSession_energy c cfg ses temp :
  energy (updatedSessionOf c cfg ses temp) ==
  energy ses + m_totalEnergy c / m_totalSeconds c * curveMultOf cfg ses
               * Physics.tempDerating temp.
Proof. simpl. unfold newEnergyOf, energyIncOf. apply norm_eq. Qed.

Lemma increment_nonneg base m : 0 <= base -> 0 < m -> 0 <= base * m.
Proof. intros. apply Qmult_le_0_compat; lra. Qed.

Lemma increment_pos base m : 0 < base -> 0 < m -> 0 < base * m.
Proof. intros. apply Qmult_lt_0_compat; lra. Qed.

Lemma ratio_nonneg a b : 0 <= a -> 0 < b -> 0 <= a / b.
Proof. intros. apply Qle_shift_div_l; lra. Qed.

Lemma ratio_pos a b : 0 < a -> 0 < b -> 0 < a / b.
Proof. intros. apply Qlt_shift_div_l; lra. Qed.

Lemma overshoots_sound s :
  overshoots s = true ->
  exists ses,
    sessionOf 1 s = Some ses
    /\ soc ses == cfg_socEnd (config s)
    /\ targetEnergy (config s) < energy ses.
Proof.
  unfold overshoots. intros K.
  destruct (sessionOf 1 s) as [ses|]; [|discriminate].
  apply andb_true_iff in K as [K1 K2].
  exists ses. split; [reflexivity|].
  split; [apply Qeq_bool_iff, K1 | apply Qltb_lt, K2].
Qed.

(** C3, as stated, fails for the energy: only the SOC is clamped.  On a
    one-minute 22 % to 82 % charge the SOC gains one point per tick up to
    81 %, slows down in the taper, and the 61st tick clamps it at 82 while
    the session is left with more energy than
    [batteryCapacity * (socEnd - socStart) / 100]. *)
Lemma C3_counterexample :
  reachable (run traceOvershoot initialStation)
  /\ exists ses,
       sessionOf 1 (run traceOvershoot initialStation) = Some ses
       /\ soc ses == cfg_socEnd (config (run traceOvershoot initialStation))
       /\ targetEnergy (config (run traceOvershoot initialStation))
          < energy ses.
Proof.
  split; [apply reachable_run, reach_init|].
  apply overshoots_sound. vm_compute. reflexivity.
Qed.

(** C3 (amended). On a tick for an active, non-faulted session the SOC
    advances by [socRange/totalSeconds * curveMult * tempMult] and is
    clamped at the configured [socEnd]; the energy advances by
    [totalEnergy/totalSeconds * curveMult * tempMult] and is not clamped.
    When the session parameters are non-negative, the SOC is within
    [0, socEnd], [socEnd <= 100] and the temperature is at most 85, the SOC
    does not decrease and does not exceed [socEnd], and the energy does not
    decrease. *)
Theorem C3_meter_tick_advances (h : nat) (c : MeterClosure) (s : Station)
    (e : Evse) (ses : Session) :
  findEvse (m_evseId c) (evses s) = Some e ->
  session e = Some ses -> status e <> Faulted ->
  0 <= m_socRange c -> 0 < m_totalSeconds c -> 0 <= m_totalEnergy c ->
  0 <= soc ses -> soc ses <= cfg_socEnd (config s) ->
  cfg_socEnd (config s) <= 100 -> temperature e <= 85 ->
  exists ses',
    sessionOf (m_evseId c) (meterTick h c s) = Some ses'
    /\ soc ses' ==
       Qmin' (soc ses + m_socRange c / m_totalSeconds c
                        * curveMultOf (config s) ses
                        * Physics.tempDerating (temperature e))
         (cfg_socEnd (config s))
    /\ energy ses' ==
       energy ses + m_totalEnergy c / m_totalSeconds c
                    * curveMultOf (config s) ses
                    * Physics.tempDerating (temperature e)
    /\ soc ses <= soc ses' /\ soc ses' <= cfg_socEnd (config s)
    /\ energy ses <= energy ses'.
Proof.
  intros F S NF Hr Ht He H0 Hs H100 HT.
  destruct (meterTick_session h c s e ses F S NF) as [e' [F' [_ [_ S']]]].
  exists (updatedSessionOf c (config s) ses (temperature e)).
  split; [unfold sessionOf; rewrite F'; exact S'|].
  pose proof (updatedSession_soc c (config s) ses (temperature e)) as Es.
  pose proof (updatedSession_energy c (config s) ses (temperature e)) as Ee.
  split; [exact Es|]. split; [exact Ee|].
  assert (Pm : 0 < curveMultOf (config s) ses
                   * Physics.tempDerating (temperature e))
    by (apply tick_multipliers; lra).
  pose proof (increment_nonneg _ _ (ratio_nonneg _ _ Hr Ht) Pm) as Is.
  pose proof (increment_nonneg _ _ (ratio_nonneg _ _ He Ht) Pm) as Ie.
  rewrite Qmult_assoc in Is, Ie.
  rewrite Es, Ee.
  destruct (Qmin'_spec
              (soc ses + m_socRange c / m_totalSeconds c
                         * curveMultOf (config s) ses
                         * Physics.tempDerating (temperature e))
              (cfg_socEnd (config s))) as [[A ->]|[A ->]];
    repeat split; lra.
Qed.

Lemma C3_meter_tick_advances_witness :
  exists ses',
    sessionOf 1 (meterTick 2 demoClosure demoCharging) = Some ses'
    /\ soc demoSession <= soc ses' /\ soc ses' <= 20
    /\ energy demoSession <= energy ses'.
Proof.
  destruct (C3_meter_tick_advances 2 demoClosure demoCharging
              demoEvse demoSession) as [ses' [A [_ [_ [B [C D]]]]]].
  - vm_compute. reflexivity.
  - reflexivity.
  - discriminate.
  - apply Qle_bool_iff. reflexivity.
  - apply Qltb_lt. reflexivity.
  - apply Qle_bool_iff. reflexivity.
  - apply Qle_bool_iff. reflexivity.
  - apply Qle_bool_iff. reflexivity.
  - apply Qle_bool_iff. reflexivity.
  - apply Qle_bool_iff. reflexivity.
  - exists ses'. repeat split; assumption.
Defined.

(** ** The remote command dispatcher *)

Lemma sameEngineState_refl s : sameEngineState s s.
Proof. repeat split. Qed.

Lemma sameEngineState_addLog d m ev s : sameEngineState s (addLog d m ev s).
Proof. repeat split. Qed.

Lemma sameEngineState_set_wire w s : sameEngineState s (set_wire w s).
Proof. repeat split. Qed.

Lemma sameEngineState_trans a b c :
  sameEngineState a b -> sameEngineState b c -> sameEngineState a c.
Proof.
  unfold sameEngineState. intros H1 H2.
  destruct H1 as (?&?&?&?&?&?&?&?&?&?), H2 as (?&?&?&?&?&?&?&?&?&?).
  repeat split; congruence.
Qed.

Lemma replyOCPP_open msgId st s :
  wsRef s = Some OPEN ->
  wire (replyOCPP msgId st s) = wire s ++ [FCallResult msgId st]
  /\ sameEngineState s (replyOCPP msgId st s).
Proof.
  intros W. unfold replyOCPP, wsIsOpen.
  rewrite bool_decide_eq_true_2 by exact W.
  split; [reflexivity | repeat split].
Qed.

Lemma isNum_eq q n : q == inject_Z n -> isNum (Some (JNum q)) n = true.
Proof. intros H. simpl. apply Qeq_bool_iff, H. Qed.

Lemma isNum_ne q n m :
  q == inject_Z n -> n <> m -> isNum (Some (JNum q)) m = false.
Proof.
  intros H N. simpl. destruct (Qeq_bool q (inject_Z m)) eqn:E; [|reflexivity].
  apply Qeq_bool_iff in E. rewrite H in E. exfalso. apply N.
  unfold Qeq in E. simpl in E. lia.
Qed.

(** A four-element CALL frame reaches the dispatcher after one log line. *)
Lemma handle_call env q msgId action payload more s :
  q == 2 ->
  handleCsmsMessage env
    (Some (JArr (JNum q :: msgId :: action :: payload :: more))) s
  = (dispatchCall env (Some msgId) action payload
       (addLog "CSMS" (MsgCsmsCall action payload) None s), Normal).
Proof.
  intros H. unfold handleCsmsMessage. cbn [iterate]. cbv zeta.
  change ((JNum q :: msgId :: action :: payload :: more) !! 0%nat)
    with (Some (JNum q)).
  rewrite (isNum_ne q 2 3 H), (isNum_ne q 2 4 H), (isNum_eq q 2 H) by lia.
  reflexivity.
Qed.

Lemma isStr_unknown action a :
  (forall t, action = JStr t -> t ∉ knownActions) ->
  a ∈ knownActions -> isStr (Some action) a = false.
Proof.
  intros U Hin. destruct action; try reflexivity. simpl.
  destruct (String.eqb_spec s a) as [E|E]; [|reflexivity].
  subst. exfalso. exact (U a eq_refl Hin).
Qed.

(** ** The dispatcher of the single-connector variant *)

Section SingleEvseDispatch.
Import SingleEvse.

Lemma sameCharger_refl s : sameCharger s s.
Proof. repeat split. Qed.

Lemma sameCharger_trans a b c :
  sameCharger a b -> sameCharger b c -> sameCharger a c.
Proof.
  unfold sameCharger. intros H1 H2.
  destruct H1 as (?&?&?&?&?&?&?&?&?&?), H2 as (?&?&?&?&?&?&?&?&?&?).
  repeat split; congruence.
Qed.

Lemma sameCharger_addLog d m s : sameCharger s (addLog d m s).
Proof. repeat split. Qed.

Lemma single_reply_open msgId st s :
  wsRef s = Some OPEN ->
  wire (replyOCPP msgId st s) = wire s ++ [FCallResult msgId st]
  /\ sameCharger s (replyOCPP msgId st s).
Proof.
  intros W. unfold replyOCPP, wsIsOpen.
  rewrite bool_decide_eq_true_2 by exact W.
  split; [reflexivity | repeat split].
Qed.

Lemma single_handle_call env q msgId action payload more s :
  q == 2 ->
  handleCsmsMessage env
    (Some (JArr (JNum q :: msgId :: action :: payload :: more))) s
  = (dispatchCall env (Some msgId) action payload
       (addLog "CSMS" (MsgCsmsCall action payload) s), Normal).
Proof.
  intros H. unfold handleCsmsMessage. cbn [iterate]. cbv zeta.
  change ((JNum q :: msgId :: action :: payload :: more) !! 0%nat)
    with (Some (JNum q)).
  rewrite (isNum_ne q 2 3 H), (isNum_ne q 2 4 H), (isNum_eq q 2 H) by lia.
  reflexivity.
Qed.

End SingleEvseDispatch.

(** ** C5: unknown actions *)

(** C5. For every inbound CALL [[2, id, action, payload, ...]] whose action
    is a primitive value (a string, as the protocol has it, or a number, a
    boolean or [null]) and none of the five known ones, received on an open
    socket, the handler of either variant ends normally, sends exactly one
    reply frame, the CALLERROR [[4, id, "NotImplemented", ...]] with the
    inbound id, and changes nothing but its log: no EVSE, status, session,
    power, timer or interval is touched. *)
Theorem C5_unknown_action_not_implemented (env : Env) (q : Q)
    (msgId action payload : json) (more : list json) :
  q == 2 ->
  primitive action = true ->
  (forall t, action = JStr t -> t ∉ knownActions) ->
  let frame := Some (JArr (JNum q :: msgId :: action :: payload :: more)) in
  (forall s : Station,
     wsRef s = Some OPEN ->
     exists s',
       handleCsmsMessage env frame s = (s', Normal)
       /\ wire s' = wire s ++ [FCallError (Some msgId) "NotImplemented"
                                 (Some action)]
       /\ evses s' = evses s
       /\ sameEngineState s s')
  /\ (forall c : SingleEvse.Charger,
        SingleEvse.wsRef c = Some OPEN ->
        exists c',
          SingleEvse.handleCsmsMessage env frame c = (c', Normal)
          /\ SingleEvse.wire c'
             = SingleEvse.wire c ++ [FCallError (Some msgId) "NotImplemented"
                                       (Some action)]
          /\ SingleEvse.sameCharger c c').
Proof.
  intros Hq _ U frame. subst frame. split.
  - intros s W.
    rewrite (handle_call env q msgId action payload more s Hq).
    eexists. split; [reflexivity|].
    unfold dispatchCall. cbv zeta.
    rewrite !(isStr_unknown action _ U) by (unfold knownActions; set_solver).
    unfold wsIsOpen. cbn [wsRef addLog set_logs].
    rewrite bool_decide_eq_true_2 by exact W.
    split; [reflexivity|]. split; [reflexivity | repeat split].
  - intros c W.
    rewrite (single_handle_call env q msgId action payload more c Hq).
    eexists. split; [reflexivity|].
    unfold SingleEvse.dispatchCall. cbv zeta.
    rewrite !(isStr_unknown action _ U) by (unfold knownActions; set_solver).
    unfold SingleEvse.wsIsOpen.
    cbn [SingleEvse.wsRef SingleEvse.addLog SingleEvse.set_logs].
    rewrite bool_decide_eq_true_2 by exact W.
    split; [reflexivity | repeat split].
Qed.

Lemma C5_unknown_action_not_implemented_witness :
  (exists s',
     handleCsmsMessage demoEnv
       (Some (JArr [JNum 2; JStr "m7"; JStr "GetVariables"; JObj []]))
       demoOnlineCharging
     = (s', Normal)
     /\ wire s' = wire demoOnlineCharging
                  ++ [FCallError (Some (JStr "m7")) "NotImplemented"
                        (Some (JStr "GetVariables"))]
     /\ evses s' = evses demoOnlineCharging)
  /\ (exists c',
        SingleEvse.handleCsmsMessage demoEnv
          (Some (JArr [JNum 2; JStr "m7"; JStr "GetVariables"; JObj []]))
          SingleEvse.demoCharger
        = (c', Normal)
        /\ SingleEvse.wire c'
           = SingleEvse.wire SingleEvse.demoCharger
             ++ [FCallError (Some (JStr "m7")) "NotImplemented"
                   (Some (JStr "GetVariables"))]
        /\ SingleEvse.status c' = Charging).
Proof.
  destruct (C5_unknown_action_not_implemented demoEnv 2 (JStr "m7")
              (JStr "GetVariables") (JObj []) []) as [A B].
  - reflexivity.
  - reflexivity.
  - intros t [= <-]. apply (bool_decide_unpack _). vm_compute. exact I.
  - split.
    + destruct (A demoOnlineCharging) as [s' [P [Q [R _]]]].
      * vm_compute. reflexivity.
      * exists s'. repeat split; assumption.
    + destruct (B SingleEvse.demoCharger) as [c' [P [Q R]]].
      * reflexivity.
      * exists c'. split; [exact P|]. split; [exact Q|].
        destruct R as (_ & R & _). rewrite R. reflexivity.
Defined.

(** With the socket not open the default branch sends nothing. *)
Lemma unknown_action_socket_not_open env q msgId action payload more s :
  q == 2 -> wsRef s <> Some OPEN ->
  (forall t, action = JStr t -> t ∉ knownActions) ->
  wire (fst (handleCsmsMessage env
               (Some (JArr (JNum q :: msgId :: action :: payload :: more))) s))
  = wire s.
Proof.
  intros Hq W U. rewrite (handle_call env q msgId action payload more s Hq).
  unfold dispatchCall. cbv zeta.
  rewrite !(isStr_unknown action _ U) by (unfold knownActions; set_solver).
  unfold wsIsOpen. cbn [wsRef addLog set_logs fst].
  rewrite bool_decide_eq_false_2 by exact W. reflexivity.
Qed.

(** ** C6: starting on an EVSE that is not Available *)

Lemma doStartSession_not_available env evseId tag s e :
  findEvse evseId (evses s) = Some e -> status e <> Available ->
  doStartSession env evseId tag s = s.
Proof.
  intros F N. unfold doStartSession. rewrite F.
  rewrite bool_decide_eq_false_2 by exact N. reflexivity.
Qed.

(** C6. When the EVSE that [find] returns for the id is not Available,
    [doStartSession] and the START button leave the whole station as it
    is, and a RequestStartTransaction for that id with a primitive message
    id, received on an open socket, is answered with exactly one CALLRESULT
    [Rejected] and changes no EVSE, timer or interval. *)
Theorem C6_start_rejected_unless_available (env : Env) (evseId : Z)
    (s : Station) (e : Evse) :
  findEvse evseId (evses s) = Some e ->
  status e <> Available ->
  (forall tag, doStartSession env evseId tag s = s)
  /\ (forall tag, step (OpStart env evseId tag) s = s)
  /\ (forall q msgId payload more,
        q == 2 -> wsRef s = Some OPEN ->
        primitive msgId = true ->
        asId (nullish (getProp "evseId" (Some payload)) (JNum 1))
        = Some evseId ->
        exists s',
          handleCsmsMessage env
            (Some (JArr (JNum q :: msgId :: JStr "RequestStartTransaction"
                           :: payload :: more))) s
          = (s', Normal)
          /\ wire s' = wire s ++ [FCallResult (Some msgId) "Rejected"]
          /\ evses s' = evses s
          /\ sameEngineState s s').
Proof.
  intros F N.
  split; [intros tag; eapply doStartSession_not_available; eassumption|].
  split.
  { intros tag. cbn [step]. destruct (connected s); [|reflexivity].
    eapply doStartSession_not_available; eassumption. }
  intros q msgId payload more Hq W _ Hid.
  rewrite (handle_call env q msgId _ payload more s Hq).
  eexists. split; [reflexivity|].
  unfold dispatchCall. cbv zeta. cbn [isStr String.eqb Ascii.eqb Bool.eqb].
  unfold findEvseJ. rewrite Hid. cbn [evses addLog set_logs]. rewrite F.
  rewrite bool_decide_eq_false_2 by exact N. cbn [negb].
  match goal with
  | |- context [replyOCPP ?i ?st ?t] =>
      destruct (replyOCPP_open i st t W) as [Hw Hs]
  end.
  split; [exact Hw|]. split; [apply Hs|].
  eapply sameEngineState_trans; [apply sameEngineState_addLog | exact Hs].
Qed.

Lemma C6_start_rejected_unless_available_witness :
  step (OpStart demoEnv 1 "USER002") demoOnlineCharging = demoOnlineCharging
  /\ exists s',
       handleCsmsMessage demoEnv
         (Some (JArr [JNum 2; JStr "m2"; JStr "RequestStartTransaction";
                      JObj [("evseId", JNum 1)]])) demoOnlineCharging
       = (s', Normal)
       /\ wire s' = wire demoOnlineCharging
                    ++ [FCallResult (Some (JStr "m2")) "Rejected"]
       /\ evses s' = evses demoOnlineCharging.
Proof.
  assert (F : findEvse 1 (evses demoOnlineCharging)
              = Some {| evse_id := 1; connectorType := "CCS2";
                        status := Charging;
                        session :=
                          Some {| startTime := 0; energy := 0; soc := 20;
                                  transactionId := "TX000001";
                                  idTag := JStr "USER001";
                                  totalSeconds := 300; socEnd := 100 |};
                        temperature := 28; fault := None; power := 0 |})
    by (vm_compute; reflexivity).
  destruct (C6_start_rejected_unless_available demoEnv 1 demoOnlineCharging
              _ F) as [_ [A B]]; [discriminate|].
  split; [apply A|].
  destruct (B 2 (JStr "m2") (JObj [("evseId", JNum 1)]) [])
    as [s' [P [Q [R _]]]].
  - reflexivity.
  - vm_compute. reflexivity.
  - reflexivity.
  - vm_compute. reflexivity.
  - exists s'. repeat split; assumption.
Defined.

(** ** C7: RequestStopTransaction for an unknown transaction *)

Lemma findByTx_none txv evs :
  (forall e ses, e ∈ evs -> session e = Some ses ->
                 txv <> JStr (transactionId ses)) ->
  findByTx (Some txv) evs = None.
Proof.
  induction evs as [|e evs IH]; intros H; simpl; [reflexivity|].
  assert (M : matchesTx (Some txv) e = false).
  { unfold matchesTx. destruct (session e) as [ses|] eqn:S; [|reflexivity].
    destruct txv; try reflexivity.
    destruct (String.eqb_spec (transactionId ses) s) as [E|E]; [|reflexivity].
    exfalso. apply (H e ses); [left | exact S | congruence]. }
  rewrite M. apply IH. intros e' ses' Hin. apply H. right. exact Hin.
Qed.

(** The converse, to discharge the hypothesis on a concrete station. *)
Lemma findByTx_none_inv t evs :
  findByTx (Some (JStr t)) evs = None ->
  forall e ses, e ∈ evs -> session e = Some ses ->
                JStr t <> JStr (transactionId ses).
Proof.
  induction evs as [|x evs IH]; intros H e ses Hin S; [inversion Hin|].
  simpl in H. destruct (matchesTx (Some (JStr t)) x) eqn:M; [discriminate|].
  apply elem_of_cons in Hin as [->|Hin]; [|exact (IH H e ses Hin S)].
  unfold matchesTx in M. rewrite S in M.
  intros [= ->]. rewrite String.eqb_refl in M. discriminate.
Qed.

(** C7, counterexample.  A RequestStopTransaction whose transaction id
    matches no active session is not always rejected.  In the multi-EVSE
    variant a request without [transactionId], received while no session
    is active, finds the first idle EVSE ([undefined === undefined]) and is
    answered Accepted.  In the single-connector variant a request with the
    falsy [transactionId] 0, received while transaction TX000001 is
    charging, is answered Accepted and stops that session. *)
Theorem C7_counterexample :
  map session (evses demoOnline) = [None; None]
  /\ wire (fst (handleCsmsMessage demoEnv
                  (Some (JArr [JNum 2; JStr "m4";
                               JStr "RequestStopTransaction"; JObj []]))
                  demoOnline))
     = wire demoOnline ++ [FCallResult (Some (JStr "m4")) "Accepted"]
  /\ (SingleEvse.sessionRef SingleEvse.demoCharger ≫= Some ∘ transactionId)
     = Some "TX000001"%string
  /\ SingleEvse.status SingleEvse.demoCharger = Charging
  /\ SingleEvse.wire
       (fst (SingleEvse.handleCsmsMessage demoEnv
               (Some (JArr [JNum 2; JStr "m4";
                            JStr "RequestStopTransaction";
                            JObj [("transactionId", JNum 0)]]))
               SingleEvse.demoCharger))
     = SingleEvse.wire SingleEvse.demoCharger
       ++ [FCallResult (Some (JStr "m4")) "Accepted"]
  /\ SingleEvse.status
       (fst (SingleEvse.handleCsmsMessage demoEnv
               (Some (JArr [JNum 2; JStr "m4";
                            JStr "RequestStopTransaction";
                            JObj [("transactionId", JNum 0)]]))
               SingleEvse.demoCharger))
     = Finishing.
Proof.
  split; [vm_compute; reflexivity|].
  split; [vm_compute; reflexivity|].
  split; [vm_compute; reflexivity|].
  split; [vm_compute; reflexivity|].
  split; vm_compute; reflexivity.
Qed.

(** C7, as the code has it.  A RequestStopTransaction with a primitive
    message id whose payload carries a [transactionId], received on an open
    socket, is answered with exactly one CALLRESULT [Rejected] and changes
    no EVSE, timer or interval
    - in the multi-EVSE variant, when that id is the transaction id of no
      session;
    - in the single-connector variant, when that id is truthy and is not
      the transaction id of the active session, if there is one. *)
Theorem C7_stop_unknown_transaction_rejected (env : Env) (q : Q)
    (msgId payload txv : json) (more : list json) :
  q == 2 ->
  primitive msgId = true ->
  getProp "transactionId" (Some payload) = Some txv ->
  let frame := Some (JArr (JNum q :: msgId :: JStr "RequestStopTransaction"
                             :: payload :: more)) in
  (forall s : Station,
     wsRef s = Some OPEN ->
     (forall e ses, e ∈ evses s -> session e = Some ses ->
                    txv <> JStr (transactionId ses)) ->
     exists s',
       handleCsmsMessage env frame s = (s', Normal)
       /\ wire s' = wire s ++ [FCallResult (Some msgId) "Rejected"]
       /\ evses s' = evses s
       /\ sameEngineState s s')
  /\ (forall c : SingleEvse.Charger,
        SingleEvse.wsRef c = Some OPEN ->
        SingleEvse.truthy (Some txv) = true ->
        (forall ses, SingleEvse.sessionRef c = Some ses ->
                     txv <> JStr (transactionId ses)) ->
        exists c',
          SingleEvse.handleCsmsMessage env frame c = (c', Normal)
          /\ SingleEvse.wire c'
             = SingleEvse.wire c ++ [FCallResult (Some msgId) "Rejected"]
          /\ SingleEvse.sameCharger c c').
Proof.
  intros Hq _ G frame. subst frame. split.
  - intros s W U.
    rewrite (handle_call env q msgId _ payload more s Hq).
    eexists. split; [reflexivity|].
    unfold dispatchCall. cbv zeta. cbn [isStr String.eqb Ascii.eqb Bool.eqb].
    rewrite G. cbn [evses addLog set_logs].
    rewrite (findByTx_none txv (evses s) U).
    match goal with
    | |- context [replyOCPP ?i ?st ?t] =>
        destruct (replyOCPP_open i st t W) as [Hw Hs]
    end.
    split; [exact Hw|]. split; [apply Hs|].
    eapply sameEngineState_trans; [apply sameEngineState_addLog | exact Hs].
  - intros c W T U.
    rewrite (single_handle_call env q msgId _ payload more c Hq).
    eexists. split; [reflexivity|].
    unfold SingleEvse.dispatchCall. cbv zeta.
    cbn [isStr String.eqb Ascii.eqb Bool.eqb].
    set (c0 := SingleEvse.addLog "CSMS"
                 (MsgCsmsCall (JStr "RequestStopTransaction") payload) c).
    assert (W0 : SingleEvse.wsRef c0 = Some OPEN) by exact W.
    destruct (single_reply_open (Some msgId) "Rejected" c0 W0) as [Rw Rs].
    change (SingleEvse.sessionRef c0) with (SingleEvse.sessionRef c).
    assert (K : SingleEvse.sameCharger c
                  (SingleEvse.replyOCPP (Some msgId) "Rejected" c0)).
    { eapply sameCharger_trans; [apply sameCharger_addLog | exact Rs]. }
    destruct (SingleEvse.sessionRef c) as [ses|] eqn:S.
    + rewrite G, T.
      assert (M : isStr (Some txv) (transactionId ses) = false).
      { destruct txv as [| | |t| |]; try reflexivity. simpl.
        destruct (String.eqb_spec t (transactionId ses)) as [E|E];
          [|reflexivity].
        exfalso. apply (U ses eq_refl). rewrite E. reflexivity. }
      rewrite M. cbn [negb andb]. split; [exact Rw|].
      eapply sameCharger_trans; [exact K | apply sameCharger_addLog].
    + split; [exact Rw|].
      eapply sameCharger_trans; [exact K | apply sameCharger_addLog].
Qed.

Lemma C7_stop_unknown_transaction_rejected_witness :
  (exists s',
     handleCsmsMessage demoEnv
       (Some (JArr [JNum 2; JStr "m3"; JStr "RequestStopTransaction";
                    JObj [("transactionId", JStr "TX999999")]]))
       demoOnlineCharging
     = (s', Normal)
     /\ wire s' = wire demoOnlineCharging
                  ++ [FCallResult (Some (JStr "m3")) "Rejected"]
     /\ evses s' = evses demoOnlineCharging)
  /\ (exists c',
        SingleEvse.handleCsmsMessage demoEnv
          (Some (JArr [JNum 2; JStr "m3"; JStr "RequestStopTransaction";
                       JObj [("transactionId", JStr "TX999999")]]))
          SingleEvse.demoCharger
        = (c', Normal)
        /\ SingleEvse.wire c'
           = SingleEvse.wire SingleEvse.demoCharger
             ++ [FCallResult (Some (JStr "m3")) "Rejected"]
        /\ SingleEvse.status c' = Charging).
Proof.
  destruct (C7_stop_unknown_transaction_rejected demoEnv 2 (JStr "m3")
              (JObj [("transactionId", JStr "TX999999")]) (JStr "TX999999")
              []) as [A B].
  - reflexivity.
  - reflexivity.
  - reflexivity.
  - split.
    + destruct (A demoOnlineCharging) as [s' [P [Q [R _]]]].
      * vm_compute. reflexivity.
      * apply findByTx_none_inv. vm_compute. reflexivity.
      * exists s'. repeat split; assumption.
    + destruct (B SingleEvse.demoCharger) as [c' [P [Q R]]].
      * reflexivity.
      * reflexivity.
      * intros ses [= <-]. discriminate.
      * exists c'. split; [exact P|]. split; [exact Q|].
        destruct R as (_ & R & _). rewrite R. reflexivity.
Defined.

(** ** C8: frames that are not OCPP envelopes *)

Lemma handle_not_iterable env v s :
  iterate v = None -> handleCsmsMessage env (Some v) s = (s, TypeError).
Proof. intros H. unfold handleCsmsMessage. rewrite H. reflexivity. Qed.

(** Whatever arrives, a frame that is not a CALL changes nothing of the
    station but, at most, its log. *)
Lemma non_call_frame_keeps_state env parsed s :
  (forall elems, parsed ≫= iterate = Some elems ->
                 isNum (elems !! 0%nat) 2 = false) ->
  sameEngineState s (fst (handleCsmsMessage env parsed s))
  /\ wire (fst (handleCsmsMessage env parsed s)) = wire s.
Proof.
  intros H. unfold handleCsmsMessage.
  destruct parsed as [v|]; [|split; [apply sameEngineState_addLog | reflexivity]].
  simpl in H. destruct (iterate v) as [elems|];
    [|split; [apply sameEngineState_refl | reflexivity]].
  cbv zeta. rewrite (H elems eq_refl).
  destruct (isNum _ 3).
  { destruct (drop 2 elems !! 0%nat);
      (split; [first [apply sameEngineState_addLog | apply sameEngineState_refl]
              | reflexivity]). }
  destruct (isNum _ 4);
    (split; [first [apply sameEngineState_addLog | apply sameEngineState_refl]
            | reflexivity]).
Qed.

(** C8, on the code.  Only text that [JSON.parse] rejects is logged and
    discarded.  A parsed value that is not iterable (a number, an object,
    [null]) makes the destructuring throw outside the [try]; a CALLRESULT
    or a CALL that is too short throws while its log line is built; a frame
    with an unknown message type is dropped without a log line.  In none of
    these cases is the station changed. *)
Theorem C8_malformed_frame_outcomes (env : Env) (s : Station) :
  handleCsmsMessage env None s = (addLog "ERR" MsgInvalid None s, Normal)
  /\ handleCsmsMessage env (Some (JNum 42)) s = (s, TypeError)
  /\ handleCsmsMessage env (Some (JObj [])) s = (s, TypeError)
  /\ handleCsmsMessage env (Some JNull) s = (s, TypeError)
  /\ handleCsmsMessage env (Some (JArr [JNum 3; JStr "m1"])) s
     = (s, TypeError)
  /\ handleCsmsMessage env (Some (JArr [JNum 2; JStr "m1"; JStr "Reset"])) s
     = (s, TypeError)
  /\ handleCsmsMessage env (Some (JArr [JNum 9; JStr "m1"; JObj []])) s
     = (s, Normal).
Proof. repeat split. Qed.

(** ** C9: clearFault *)

(** C9. [clearFault] checks nothing: whatever the status of the EVSE that
    carries the id, it ends Available with no fault and power 0, and its
    session is the one it had; other EVSEs are untouched.  On a Charging
    EVSE this leaves status Available next to a non-null session. *)
Theorem C9_clearFault_no_precondition (evseId : Z) (s : Station) (e : Evse) :
  findEvse evseId (evses s) = Some e ->
  (exists e',
     findEvse evseId (evses (clearFault evseId s)) = Some e'
     /\ status e' = Available /\ fault e' = None /\ power e' = 0
     /\ session e' = session e /\ temperature e' = temperature e
     /\ (status e = Charging -> is_Some (session e) ->
         status e' = Available /\ is_Some (session e')))
  /\ (forall id', id' <> evseId ->
        findEvse id' (evses (clearFault evseId s)) = findEvse id' (evses s)).
Proof.
  intros F. unfold clearFault. autorewrite with evs. split.
  - rewrite findEvse_patchEvses, F. simpl. eexists. split; [reflexivity|].
    simpl. repeat split. assumption.
  - intros id' N. apply findEvse_patchEvses_ne. exact N.
Qed.

Lemma C9_clearFault_no_precondition_witness :
  findEvse 1 (evses demoCharging) = Some demoEvse
  /\ status demoEvse = Charging
  /\ exists e',
       findEvse 1 (evses (clearFault 1 demoCharging)) = Some e'
       /\ status e' = Available /\ session e' = Some demoSession.
Proof.
  assert (F : findEvse 1 (evses demoCharging) = Some demoEvse)
    by (vm_compute; reflexivity).
  split; [exact F|]. split; [reflexivity|].
  destruct (C9_clearFault_no_precondition 1 demoCharging demoEvse F)
    as [[e' [A [B [_ [_ [C _]]]]]] _].
  exists e'. repeat split; assumption.
Defined.

(** ** C10: ChangeAvailability(Inoperative) during a session *)

Lemma sameEngineState_replyOCPP msgId st s :
  sameEngineState s (replyOCPP msgId st s).
Proof. unfold replyOCPP. destruct (wsIsOpen s); repeat split. Qed.

Lemma changeAvailability_effect env q msgId payload more s evseId :
  q == 2 ->
  getProp "operationalStatus" (Some payload) = Some (JStr "Inoperative") ->
  asId (nullish (getProp "evseId" (Some payload)) (JNum 1)) = Some evseId ->
  let s1 := fst (handleCsmsMessage env
                   (Some (JArr (JNum q :: msgId :: JStr "ChangeAvailability"
                                  :: payload :: more))) s) in
  evses s1 = patchEvses evseId (patch (Some Unavailable) None None None)
               (evses s)
  /\ intervals s1 = intervals s /\ meterRefs s1 = meterRefs s
  /\ config s1 = config s /\ timers s1 = timers s.
Proof.
  intros Hq Hop Hid s1. subst s1.
  rewrite (handle_call env q msgId _ payload more s Hq). cbn [fst].
  unfold dispatchCall. cbv zeta. cbn [isStr String.eqb Ascii.eqb Bool.eqb].
  rewrite Hop, Hid. cbn [isStr String.eqb Ascii.eqb Bool.eqb].
  match goal with
  | |- context [replyOCPP ?i ?st ?t] =>
      destruct (sameEngineState_replyOCPP i st t)
        as (Hc & He & _ & _ & _ & _ & Hm & Hi & Ht & _)
  end.
  cbn [evses sendOCPP addLog set_logs updateEvse set_evses intervals
       meterRefs config timers] in *.
  rewrite He, Hi, Hm, Hc, Ht. repeat split.
Qed.

(** C10. ChangeAvailability with [operationalStatus] Inoperative and a
    primitive message id, for an
    EVSE that holds a session, sets the status to Unavailable, keeps the
    session and leaves the intervals and [meterRefs] as they are.  The next
    tick of its metering interval passes the guard (the session is non-null,
    the status is not Faulted): the EVSE stays Unavailable, and with positive
    session parameters, the SOC below the target and the temperature at most
    85, SOC and energy both grow. *)
Theorem C10_inoperative_keeps_metering (env : Env) (q : Q)
    (msgId payload : json) (more : list json) (s : Station) (evseId : Z)
    (e : Evse) (ses : Session) (h : nat) (c : MeterClosure) :
  q == 2 ->
  primitive msgId = true ->
  getProp "operationalStatus" (Some payload) = Some (JStr "Inoperative") ->
  asId (nullish (getProp "evseId" (Some payload)) (JNum 1)) = Some evseId ->
  findEvse evseId (evses s) = Some e -> session e = Some ses ->
  lookupInterval h (intervals s) = Some (IMeter c) -> m_evseId c = evseId ->
  let s1 := fst (handleCsmsMessage env
                   (Some (JArr (JNum q :: msgId :: JStr "ChangeAvailability"
                                  :: payload :: more))) s) in
  (exists e1, findEvse evseId (evses s1) = Some e1
              /\ status e1 = Unavailable /\ session e1 = Some ses)
  /\ intervals s1 = intervals s /\ meterRefs s1 = meterRefs s
  /\ exists e2 ses2,
       findEvse evseId (evses (step (OpTick h) s1)) = Some e2
       /\ status e2 = Unavailable /\ session e2 = Some ses2
       /\ (0 < m_socRange c -> 0 < m_totalSeconds c -> 0 < m_totalEnergy c ->
           0 <= soc ses -> soc ses < cfg_socEnd (config s) ->
           cfg_socEnd (config s) <= 100 -> temperature e <= 85 ->
           soc ses < soc ses2 /\ energy ses < energy ses2).
Proof.
  intros Hq _ Hop Hid F S L Hc s1.
  destruct (changeAvailability_effect env q msgId payload more s evseId
              Hq Hop Hid) as (He & Hi & Hm & Hcfg & _).
  fold s1 in He, Hi, Hm, Hcfg.
  assert (F1 : findEvse evseId (evses s1)
               = Some (applyPatch (patch (Some Unavailable) None None None) e)).
  { rewrite He, findEvse_patchEvses, F. reflexivity. }
  split; [eexists; split; [exact F1 | split; [reflexivity | exact S]]|].
  split; [exact Hi|]. split; [exact Hm|].
  cbn [step]. rewrite Hi, L. cbn [fireInterval].
  destruct (meterTick_session h c s1
              (applyPatch (patch (Some Unavailable) None None None) e) ses)
    as [e2 [F2 [St [_ S2]]]].
  - rewrite Hc. exact F1.
  - exact S.
  - discriminate.
  - rewrite Hc in F2. exists e2. eexists.
    split; [exact F2|]. split; [exact St|]. split; [exact S2|].
    intros Pr Pt Pe P0 Ps P100 PT. rewrite Hcfg. cbn [temperature applyPatch
      patch p_temperature default from_option].
    pose proof (updatedSession_soc c (config s) ses (temperature e)) as Es.
    pose proof (updatedSession_energy c (config s) ses (temperature e)) as Ee.
    assert (Pm : 0 < curveMultOf (config s) ses
                     * Physics.tempDerating (temperature e))
      by (apply tick_multipliers; lra).
    pose proof (increment_pos _ _ (ratio_pos _ _ Pr Pt) Pm) as Is.
    pose proof (increment_pos _ _ (ratio_pos _ _ Pe Pt) Pm) as Ie.
    rewrite Qmult_assoc in Is, Ie.
    rewrite Es, Ee.
    destruct (Qmin'_spec
                (soc ses + m_socRange c / m_totalSeconds c
                           * curveMultOf (config s) ses
                           * Physics.tempDerating (temperature e))
                (cfg_socEnd (config s))) as [[A ->]|[A ->]];
      split; lra.
Qed.

Lemma C10_inoperative_keeps_metering_witness :
  exists e2 ses2,
    findEvse 1
      (evses (step (OpTick 2)
                (fst (handleCsmsMessage demoEnv
                        (Some (changeAvailabilityFrame "Inoperative"))
                        demoOnlineCharging))))
    = Some e2
    /\ status e2 = Unavailable /\ session e2 = Some ses2
    /\ soc demoOnlineSession < soc ses2
    /\ energy demoOnlineSession < energy ses2.
Proof.
  destruct (C10_inoperative_keeps_metering demoEnv 2 (JStr "m1")
              (JObj [("evseId", JNum 1);
                     ("operationalStatus", JStr "Inoperative")])
              [] demoOnlineCharging 1 demoOnlineEvse demoOnlineSession 2%nat
              demoOnlineClosure)
    as [_ [_ [_ [e2 [ses2 [A [B [C D]]]]]]]].
  - reflexivity.
  - reflexivity.
  - reflexivity.
  - vm_compute. reflexivity.
  - vm_compute. reflexivity.
  - reflexivity.
  - vm_compute. reflexivity.
  - reflexivity.
  - exists e2, ses2. split; [exact A|]. split; [exact B|]. split; [exact C|].
    apply D.
    + apply Qltb_lt. reflexivity.
    + apply Qltb_lt. reflexivity.
    + apply Qltb_lt. reflexivity.
    + apply Qle_bool_iff. reflexivity.
    + apply Qltb_lt. vm_compute. reflexivity.
    + apply Qle_bool_iff. vm_compute. reflexivity.
    + apply Qle_bool_iff. reflexivity.
Defined.

(** ** Further facts on the physics *)

Section PhysicsExtras.
Import Physics.

(** X1. For a positive maximum power, whatever the current temperature and
    the load, [updateTemp] returns a value between the ambient temperature
    and 85 (for an ambient of at most 85). *)
Theorem X1_updateTemp_clamped (cur p mx amb : Q) :
  0 < mx ->
  amb <= 85 ->
  amb <= updateTemp cur p mx amb /\ updateTemp cur p mx amb <= 85.
Proof. intros _. apply updateTemp_bounds. Qed.

Lemma X1_updateTemp_clamped_witness :
  25 <= updateTemp 200 50 50 25 /\ updateTemp 200 50 50 25 <= 85.
Proof. apply (X1_updateTemp_clamped 200 50 50 25); lra. Defined.

(** X2. Thermal equilibrium: with a positive maximum power and a load of
    at most 1 the heating of 0.08
    per tick balances the cooling of 1.2 % of the excess at 20/3 degrees
    above ambient, so a temperature at or below that point stays there; from
    the initial 28 degrees at ambient 25 the derating threshold of 60 is
    never reached. *)
Theorem X2_updateTemp_equilibrium (cur p mx amb : Q) :
  0 < mx ->
  p / mx <= 1 ->
  cur <= amb + (20 # 3) ->
  updateTemp cur p mx amb <= amb + (20 # 3).
Proof.
  intros _ L C. unfold updateTemp. cbv zeta.
  set (load := p / mx) in *.
  destruct (Qmax'_spec amb (Qmin' 85 (cur + load * 0.08 - (cur - amb) * 0.012)))
    as [[A ->]|[A ->]]; [|lra].
  destruct (Qmin'_spec 85 (cur + load * 0.08 - (cur - amb) * 0.012))
    as [[B E]|[B E]]; rewrite E in *; lra.
Qed.

Lemma X2_updateTemp_equilibrium_witness :
  updateTemp 28 50 50 25 <= 25 + (20 # 3).
Proof.
  apply (X2_updateTemp_equilibrium 28 50 50 25).
  - apply Qltb_lt. reflexivity.
  - apply Qle_bool_iff. reflexivity.
  - apply Qle_bool_iff. reflexivity.
Defined.

(** X3. The charge curve rises up to 20 % SOC, is flat up to 80 % and
    never rises again after it: it is non-decreasing on soc <= 80 and
    non-increasing on soc >= 20. *)
Theorem X3_chargeCurve_monotone (x y : Q) :
  x <= y ->
  (y <= 80 -> chargeCurve x <= chargeCurve y)
  /\ (20 <= x -> chargeCurve y <= chargeCurve x).
Proof.
  intros Hxy. unfold chargeCurve. split; intros H;
    qcase x 20; qcase x 80; qcase x 90; qcase x 95;
    qcase y 20; qcase y 80; qcase y 90; qcase y 95; qlra.
Qed.

Lemma X3_chargeCurve_monotone_witness :
  chargeCurve 85 <= chargeCurve 50 /\ chargeCurve 5 <= chargeCurve 15.
Proof.
  split.
  - apply (X3_chargeCurve_monotone 50 85); [lra | lra].
  - apply (X3_chargeCurve_monotone 5 15); [lra | lra].
Defined.

(** X4. The temperature derating never rises with the temperature, and it
    falls by at most 0.04 per degree: it has no jump at 60 or at 75. *)
Theorem X4_tempDerating_monotone_lipschitz (x y : Q) :
  x <= y ->
  tempDerating y <= tempDerating x
  /\ tempDerating x - tempDerating y <= (1 # 25) * (y - x).
Proof.
  intros Hxy. unfold tempDerating.
  qcase x 60; qcase x 75; qcase y 60; qcase y 75; split; qlra.
Qed.

Lemma X4_tempDerating_monotone_lipschitz_witness :
  tempDerating 80 <= tempDerating 59
  /\ tempDerating 59 - tempDerating 80 <= (1 # 25) * (80 - 59).
Proof. apply (X4_tempDerating_monotone_lipschitz 59 80). lra. Defined.

End PhysicsExtras.

(** ** Invariants closed under the primitive effects

    Every handler is built from a dozen primitive updates of the station.
    A property of the station that each primitive keeps is therefore kept
    by every operation, hence holds in every reachable state. *)

Section PrimitiveClosed.

Variable I : Station -> Prop.

Hypothesis I_addLog : forall d m ev s, I s -> I (addLog d m ev s).
Hypothesis I_updateEvse :
  forall id st ses ft pw s, I s -> I (updateEvse id (patch st ses ft pw) s).
Hypothesis I_allTo :
  forall st ses ft pw s,
    I s -> I (allTo (applyPatch (patch st ses ft pw)) s).
Hypothesis I_tickPatch :
  forall id us cur p mx pw s,
    I s ->
    I (set_evses
         (patchEvses id
            {| p_status := None; p_session := Some (Some us);
               p_temperature :=
                 Some (norm (Physics.updateTemp cur p mx
                               Physics.ambientDefault));
               p_fault := None; p_power := Some pw |}
            (evses s)) s).
Hypothesis I_tempTick : forall s, I s -> I (tempTick s).
Hypothesis I_sync : forall s, I s -> I (syncEvseCount s).
Hypothesis I_set_wire : forall w s, I s -> I (set_wire w s).
Hypothesis I_set_timers : forall t s, I s -> I (set_timers t s).
Hypothesis I_set_intervals :
  forall hb mr ivs n s, I s -> I (set_intervals hb mr ivs n s).
Hypothesis I_set_connected : forall c m s, I s -> I (set_connected c m s).
Hypothesis I_set_wsRef : forall w s, I s -> I (set_wsRef w s).
Hypothesis I_set_config : forall c s, I s -> I (set_config c s).

Lemma I_sendOCPP c ev s : I s -> I (sendOCPP c ev s).
Proof. apply I_addLog. Qed.

Lemma I_replyOCPP i st s : I s -> I (replyOCPP i st s).
Proof.
  intros H. unfold replyOCPP. destruct (wsIsOpen s); [|exact H].
  apply I_addLog, I_set_wire, H.
Qed.

Lemma I_setTimeout t s : I s -> I (setTimeout t s).
Proof. apply I_set_timers. Qed.

Lemma I_clearInterval h s : I s -> I (clearInterval h s).
Proof. intros H. destruct h; [apply I_set_intervals, H | exact H]. Qed.

Lemma I_doStartSession env id tag s : I s -> I (doStartSession env id tag s).
Proof.
  intros H. unfold doStartSession.
  destruct (findEvse id (evses s)); [|exact H].
  destruct (negb _); [exact H|].
  apply I_setTimeout, I_sendOCPP, I_addLog, I_updateEvse, H.
Qed.

Lemma I_rampUp id tx tag te ts sr s : I s -> I (rampUp id tx tag te ts sr s).
Proof.
  intros H. unfold rampUp.
  destruct (findEvse id (evses s)) as [e|]; [|exact H].
  destruct (session e); [|exact H].
  apply I_set_intervals, I_sendOCPP, I_updateEvse, H.
Qed.

Lemma I_meterTick h c s : I s -> I (meterTick h c s).
Proof.
  intros H. unfold meterTick.
  destruct (findEvse (m_evseId c) (evses s)) as [e|]; [|exact H].
  destruct (session e) as [ses|]; [|exact H].
  destruct (bool_decide (status e = Faulted)); [exact H|].
  cbv zeta.
  match goal with
  | |- I (set_evses (patchEvses ?id ?p (evses s)) ?s2) =>
      assert (E : evses s = evses s2);
      [|rewrite E; apply I_tickPatch]
  end.
  - destruct (Z.eqb _ 0), (Qle_bool _ _); cbn [evses setTimeout set_timers
      addLog set_logs bumpSeqNo set_intervals sendOCPP];
      rewrite ?evses_clearInterval; reflexivity.
  - destruct (Qle_bool _ _).
    + apply I_setTimeout, I_addLog, I_clearInterval.
      destruct (Z.eqb _ 0); [apply I_set_intervals, I_sendOCPP, H | exact H].
    + destruct (Z.eqb _ 0); [apply I_set_intervals, I_sendOCPP, H | exact H].
Qed.

Lemma I_doStopSession mirror id reason s :
  I s -> I (fst (doStopSession mirror id reason s)).
Proof.
  intros H. unfold doStopSession.
  destruct (findEvse id mirror) as [e|]; cbn [fst];
    [|apply I_clearInterval, H].
  destruct (session e); cbn [fst]; [|apply I_clearInterval, H].
  apply I_setTimeout, I_updateEvse, I_sendOCPP, I_addLog, I_clearInterval, H.
Qed.

Lemma I_stopAll mirror reason s : I s -> I (stopAll mirror reason s).
Proof.
  unfold stopAll. generalize mirror at 1 as m0. intros m0.
  revert s. induction mirror as [|e rest IH]; simpl; intros s H; [exact H|].
  apply IH. destruct (session e); [apply I_doStopSession, H | exact H].
Qed.

Lemma I_injectFault env id code inf s : I s -> I (injectFault env id code inf s).
Proof.
  intros H. unfold injectFault. cbv zeta.
  apply I_updateEvse, I_addLog, I_sendOCPP, I_sendOCPP.
  destruct (findEvse id (evses s) ≫= session);
    [apply I_sendOCPP|]; apply I_clearInterval, H.
Qed.

Lemma I_clearFault id s : I s -> I (clearFault id s).
Proof.
  intros H. unfold clearFault. apply I_addLog, I_sendOCPP, I_updateEvse, H.
Qed.

Lemma I_dispatchCall env msgId action payload s :
  I s -> I (dispatchCall env msgId action payload s).
Proof.
  intros H. unfold dispatchCall. cbv zeta.
  destruct (isStr (Some action) "RequestStartTransaction").
  { destruct (findEvseJ _ _); [|apply I_replyOCPP, H].
    destruct (negb _); [apply I_replyOCPP, H|].
    apply I_doStartSession, I_replyOCPP, H. }
  destruct (isStr (Some action) "RequestStopTransaction").
  { destruct (findByTx _ _); [|apply I_replyOCPP, H].
    apply I_doStopSession, I_replyOCPP, H. }
  destruct (isStr (Some action) "Reset").
  { apply I_setTimeout, I_stopAll, I_replyOCPP, H. }
  destruct (isStr (Some action) "ChangeAvailability").
  { apply I_sendOCPP. destruct (asId _);
      [apply I_updateEvse|]; apply I_replyOCPP, H. }
  destruct (isStr (Some action) "TriggerMessage").
  { destruct (isStr _ "StatusNotification"), (isStr _ "Heartbeat");
      repeat apply I_sendOCPP; apply I_replyOCPP, H. }
  destruct (wsIsOpen s); [apply I_set_wire, H | exact H].
Qed.

Lemma I_handleCsmsMessage env parsed s :
  I s -> I (fst (handleCsmsMessage env parsed s)).
Proof.
  intros H. unfold handleCsmsMessage.
  destruct parsed as [v|]; [|apply I_addLog, H].
  destruct (iterate v) as [elems|]; [|exact H]. cbv zeta.
  destruct (isNum _ 3).
  { destruct (drop 2 elems !! 0%nat); [apply I_addLog, H | exact H]. }
  destruct (isNum _ 4); [apply I_addLog, H|].
  destruct (isNum _ 2); [|exact H].
  destruct (drop 2 elems !! 0%nat); [|exact H].
  destruct (drop 2 elems !! 1%nat); [|exact H].
  cbn [fst]. apply I_dispatchCall, I_addLog, H.
Qed.

Lemma I_sendBoot s : I s -> I (sendBoot s).
Proof.
  intros H. unfold sendBoot. cbv zeta.
  generalize (evses s) as l.
  assert (K : I (sendOCPP (bootCall "PowerUp" (config s)) None s))
    by apply I_sendOCPP, H.
  revert K. generalize (sendOCPP (bootCall "PowerUp" (config s)) None s) as t.
  intros t K l. revert t K.
  induction l as [|e l IH]; intros t K; simpl; [exact K|].
  apply IH, I_sendOCPP, K.
Qed.

Lemma I_goOnline s : I s -> I (goOnline s).
Proof.
  intros H. unfold goOnline. apply I_set_intervals, I_setTimeout, I_allTo, H.
Qed.

Lemma I_clearMany hs t :
  I t -> I (fold_left (fun acc h => clearInterval (Some h) acc) hs t).
Proof.
  revert t. induction hs as [|h hs IH]; intros t K; cbn [fold_left];
    [exact K|].
  apply IH, I_clearInterval, K.
Qed.

Lemma I_disconnect s : I s -> I (disconnect s).
Proof.
  intros H. unfold disconnect. cbv zeta.
  apply I_addLog, I_allTo, I_set_connected.
  match goal with
  | |- I (match wsRef ?t with _ => _ end) =>
      assert (K : I t); [|destruct (wsRef t) as [[]|];
                          try exact K; apply I_set_wsRef, K]
  end.
  apply I_stopAll, I_clearMany, I_clearInterval, H.
Qed.

Lemma I_fireTimer t s : I s -> I (fireTimer t s).
Proof.
  intros H. destruct t; cbn [fireTimer].
  - apply I_rampUp, H.
  - unfold autoEnd. apply I_setTimeout, I_updateEvse, I_sendOCPP, I_sendOCPP, H.
  - unfold autoAvail. apply I_updateEvse, H.
  - unfold stopAvail. apply I_sendOCPP, I_updateEvse, H.
  - unfold resetAll. apply I_sendOCPP, I_allTo, H.
  - apply I_sendBoot, H.
Qed.

Lemma I_step o s : I s -> I (step o s).
Proof.
  intros H. destruct o; cbn [step].
  - unfold connect. destruct sim;
      [apply I_goOnline, I_set_connected, I_addLog, H|].
    destruct urlOk; [apply I_set_wsRef, H | apply I_addLog, H].
  - destruct (wsRef s) as [[]|]; try exact H.
    apply I_goOnline, I_set_connected, I_addLog, I_set_wsRef, H.
  - destruct (wsRef s) as [[]|]; try exact H; apply I_handleCsmsMessage, H.
  - destruct (wsRef s) as [[]|]; try exact H;
      apply I_clearInterval, I_set_connected, I_addLog, I_set_wsRef, H.
  - apply I_disconnect, H.
  - destruct (connected s); [apply I_doStartSession, H | exact H].
  - apply I_doStopSession, H.
  - apply I_injectFault, H.
  - apply I_clearFault, H.
  - unfold configChange. destruct (connected s); apply I_set_config, H.
  - apply I_sync, H.
  - apply I_tempTick, H.
  - destruct (timers s !! n); [apply I_fireTimer, I_set_timers, H | exact H].
  - destruct (lookupInterval h (intervals s)) as [[|c]|];
      cbn [fireInterval]; try exact H.
    + apply I_sendOCPP, H.
    + apply I_meterTick, H.
Qed.

Lemma I_reachable s : I initialStation -> reachable s -> I s.
Proof.
  intros H0. induction 1 as [|s o _ IH]; [exact H0 | apply I_step, IH].
Qed.

End PrimitiveClosed.

(** ** Two invariants of the reachable states *)

Lemma Forall_mapPatch (P : Evse -> Prop) f evs :
  Forall P evs -> (forall e, P e -> P (f e)) -> Forall P (map f evs).
Proof.
  intros H Hf. induction H as [|e evs He _ IH]; simpl; constructor;
    [apply Hf, He | exact IH].
Qed.

Lemma Forall_patchEvses (P : Evse -> Prop) id p evs :
  Forall P evs -> (forall e, P e -> P (applyPatch p e)) ->
  Forall P (patchEvses id p evs).
Proof.
  intros H Hp. unfold patchEvses. apply Forall_mapPatch; [exact H|].
  intros e He. destruct (evse_id e =? id)%Z; [apply Hp, He | exact He].
Qed.

Lemma temperatureInRange_updateTemp cur p mx :
  25 <= norm (Physics.updateTemp cur p mx Physics.ambientDefault)
  /\ norm (Physics.updateTemp cur p mx Physics.ambientDefault) <= 85.
Proof.
  rewrite norm_eq. apply updateTemp_bounds. unfold Physics.ambientDefault. lra.
Qed.

Lemma syncEvseCount_elem s e :
  e ∈ evses (syncEvseCount s) ->
  e ∈ evses s \/ exists id ct, e = createEvse id ct.
Proof.
  unfold syncEvseCount. destruct (connected s); [left; assumption|].
  cbv zeta. rewrite evses_set_evses. intros H.
  apply list_elem_of_fmap in H as [i [-> _]].
  destruct (findEvse _ _) eqn:F.
  - left. apply findEvse_Some in F as [F _]. exact F.
  - right. eauto.
Qed.

(** X5. After any sequence of operations that keeps the configuration
    within the ranges the configuration panel declares (so that [maxPower]
    and [chargeDurationMin], which the code divides by, stay positive), the
    temperature of every EVSE lies between the ambient 25 degrees and the
    cap of 85 degrees. *)
Theorem X5_reachable_temperature_range (ops : list Op) :
  Forall wellConfigured ops ->
  forall e, e ∈ evses (run ops initialStation) ->
            25 <= temperature e /\ temperature e <= 85.
Proof.
  intros _.
  assert (R : reachable (run ops initialStation))
    by apply reachable_run, reach_init.
  set (s := run ops initialStation) in *.
  assert (G : Forall temperatureInRange (evses s)).
  { apply (I_reachable (fun t => Forall temperatureInRange (evses t)));
      try (intros; assumption); try exact R.
    - intros id st ses ft pw t H. rewrite evses_updateEvse.
      apply Forall_patchEvses; [exact H | intros e He; exact He].
    - intros st ses ft pw t H. rewrite evses_allTo.
      apply Forall_mapPatch; [exact H | intros e He; exact He].
    - intros id us cur p mx pw t H. rewrite evses_set_evses.
      apply Forall_patchEvses; [exact H|]. intros e _.
      apply temperatureInRange_updateTemp.
    - intros t H. unfold tempTick. rewrite evses_allTo.
      apply Forall_mapPatch; [exact H|]. intros e _.
      apply temperatureInRange_updateTemp.
    - intros t H. apply Forall_forall. intros e Hin.
      apply syncEvseCount_elem in Hin as [Hin|[id [ct ->]]].
      + rewrite Forall_forall in H. apply H, Hin.
      + unfold temperatureInRange. simpl. split; lra.
    - repeat constructor; unfold temperatureInRange; simpl; lra. }
  intros e Hin. rewrite Forall_forall in G. apply G, Hin.
Qed.

Lemma X5_reachable_temperature_range_witness :
  Forall wellConfigured (traceTicks 3)
  /\ Forall (fun e => 25 <= temperature e /\ temperature e <= 85)
       (evses (run (traceTicks 3) initialStation)).
Proof.
  assert (W : Forall wellConfigured (traceTicks 3)).
  { unfold traceTicks, traceCharging. cbn [app repeat].
    repeat (apply Forall_cons; split;
            [first [exact I
                   | unfold wellConfigured, inPanelRanges;
                     repeat split; apply Qle_bool_iff; reflexivity]|]).
    apply Forall_nil. exact I. }
  split; [exact W|].
  apply Forall_forall. apply (X5_reachable_temperature_range _ W).
Defined.

Lemma length_lastN {A} n (l : list A) : (length (lastN n l) <= n)%nat.
Proof. unfold lastN. rewrite length_drop. lia. Qed.

Lemma logs_addLog_bound d m ev s : (length (logs (addLog d m ev s)) <= 301)%nat.
Proof.
  cbn [addLog logs set_logs]. rewrite length_app. simpl.
  pose proof (length_lastN 300 (logs s)). lia.
Qed.

(** X6. The log never grows past 301 lines: [addLog] keeps the last 300
    and appends one, and nothing else writes the log. *)
Theorem X6_reachable_log_bounded (s : Station) :
  reachable s -> (length (logs s) <= 301)%nat.
Proof.
  intros R.
  apply (I_reachable (fun t => (length (logs t) <= 301)%nat));
    try (intros; assumption); try exact R.
  - intros d m ev t _. apply logs_addLog_bound.
  - intros t H. unfold syncEvseCount. destruct (connected t); exact H.
  - simpl. lia.
Qed.

Lemma X6_reachable_log_bounded_witness :
  reachable (run traceStartStop initialStation)
  /\ (length (logs (run traceStartStop initialStation)) <= 301)%nat.
Proof.
  assert (R : reachable (run traceStartStop initialStation))
    by apply reachable_run, reach_init.
  split; [exact R | exact (X6_reachable_log_bounded _ R)].
Defined.

(** ** Session life cycle: start, ramp-up, fault, stop *)

Lemma lookupInterval_filter_ne h h' ivs :
  lookupInterval h (filter (fun iv => fst iv ≠ h') ivs) =
  if Nat.eqb h h' then None else lookupInterval h ivs.
Proof.
  induction ivs as [|[k iv] ivs IH]; simpl.
  - destruct (h =? h')%nat; reflexivity.
  - rewrite filter_cons. simpl. destruct (decide (k ≠ h')) as [N|N]; simpl.
    + destruct (Nat.eqb_spec k h) as [E|E].
      * subst. rewrite (proj2 (Nat.eqb_neq _ _) N). reflexivity.
      * exact IH.
    + assert (k = h') as -> by (destruct (decide (k = h')); [assumption | contradiction]).
      rewrite IH. rewrite (Nat.eqb_sym h' h).
      destruct (h =? h')%nat; reflexivity.
Qed.

Lemma lookupInterval_clearInterval h s :
  lookupInterval h (intervals (clearInterval (Some h) s)) = None.
Proof.
  cbn [clearInterval intervals set_intervals].
  rewrite lookupInterval_filter_ne, Nat.eqb_refl. reflexivity.
Qed.

Lemma sessionOf_None_cases id s :
  sessionOf id s = None <->
  findEvse id (evses s) = None
  \/ exists e, findEvse id (evses s) = Some e /\ session e = None.
Proof.
  unfold sessionOf. destruct (findEvse id (evses s)) as [e|]; simpl.
  - split; [intros H; right; eauto | intros [H|[e' [[= <-] H]]];
                                     [discriminate | exact H]].
  - split; [intros _; left; reflexivity | reflexivity].
Qed.

Lemma start_session_shape env evseId tag s e :
  findEvse evseId (evses s) = Some e ->
  status e = Available ->
  exists e',
    findEvse evseId (evses (doStartSession env evseId tag s)) = Some e'
    /\ status e' = Preparing
    /\ session e' =
       Some {| startTime := env_dateNow env; energy := 0;
               soc := socStart (config s); transactionId := env_uid env;
               idTag := tag;
               totalSeconds := chargeDurationMin (config s) * 60;
               socEnd := cfg_socEnd (config s) |}.
Proof.
  intros F A. unfold doStartSession. rewrite F.
  rewrite bool_decide_eq_true_2 by exact A. cbn [negb]. cbv zeta.
  autorewrite with evs. rewrite findEvse_patchEvses, F. simpl.
  eexists. split; [reflexivity|]. split; reflexivity.
Qed.

(** X7. On an Available EVSE [doStartSession] moves it to Preparing with
    power 0 and a fresh session (energy 0, SOC at the configured start,
    the given id tag and transaction id), leaves its fault and every other
    EVSE as they are, and queues exactly one ramp-up callback that carries
    the increments computed from the configuration at that moment. *)
Theorem X7_start_on_available (env : Env) (evseId : Z) (tag : json)
    (s : Station) (e : Evse) :
  findEvse evseId (evses s) = Some e ->
  status e = Available ->
  let cfg := config s in
  let s' := doStartSession env evseId tag s in
  (exists e',
     findEvse evseId (evses s') = Some e'
     /\ status e' = Preparing /\ power e' = 0 /\ fault e' = fault e
     /\ temperature e' = temperature e
     /\ session e' =
        Some {| startTime := env_dateNow env; energy := 0;
                soc := socStart cfg; transactionId := env_uid env;
                idTag := tag; totalSeconds := chargeDurationMin cfg * 60;
                socEnd := cfg_socEnd cfg |})
  /\ timers s' =
     timers s ++ [TRamp evseId (env_uid env) tag
                    ((cfg_socEnd cfg - socStart cfg) / 100
                     * batteryCapacity cfg)
                    (chargeDurationMin cfg * 60)
                    (cfg_socEnd cfg - socStart cfg)]
  /\ (forall id', id' <> evseId ->
        findEvse id' (evses s') = findEvse id' (evses s))
  /\ intervals s' = intervals s /\ wire s' = wire s.
Proof.
  intros F A cfg s'. subst s'. unfold doStartSession. rewrite F.
  rewrite bool_decide_eq_true_2 by exact A. cbn [negb]. cbv zeta.
  cbn [setTimeout sendOCPP addLog set_timers set_logs updateEvse set_evses
       evses timers intervals wire].
  split.
  { rewrite findEvse_patchEvses, F. simpl. eexists. split; [reflexivity|].
    repeat split. }
  split; [reflexivity|].
  split; [intros id' N; apply findEvse_patchEvses_ne, N|].
  split; reflexivity.
Qed.

Lemma X7_start_on_available_witness :
  exists e',
    findEvse 1 (evses (doStartSession demoEnv 1 (JStr "USER001")
                         initialStation)) = Some e'
    /\ status e' = Preparing.
Proof.
  destruct (X7_start_on_available demoEnv 1 (JStr "USER001") initialStation
              (createEvse 1 "CCS2") eq_refl eq_refl)
    as [[e' [A [B _]]] _].
  exists e'. split; assumption.
Defined.

(** X8. The ramp-up callback never starts charging on an EVSE whose session
    is gone: it then returns the station as it is.  In particular a start
    followed by a fault on the same EVSE leaves the pending callback
    without any effect. *)
Theorem X8_rampUp_needs_session (env : Env) (evseId : Z) (tx : string)
    (tag : json) (te ts sr : Q) (code inf : string) (s : Station) :
  (sessionOf evseId s = None -> rampUp evseId tx tag te ts sr s = s)
  /\ rampUp evseId tx tag te ts sr (injectFault env evseId code inf s)
     = injectFault env evseId code inf s.
Proof.
  assert (G : forall t, sessionOf evseId t = None ->
                        rampUp evseId tx tag te ts sr t = t).
  { intros t H. unfold rampUp.
    apply sessionOf_None_cases in H as [H|[e [H1 H2]]].
    - rewrite H. reflexivity.
    - rewrite H1, H2. reflexivity. }
  split; [apply G|]. apply G.
  unfold sessionOf, injectFault. cbv zeta.
  cbn [updateEvse set_evses evses].
  rewrite findEvse_patchEvses.
  destruct (findEvse evseId _); reflexivity.
Qed.

Lemma X8_rampUp_needs_session_witness :
  rampUp 2 "TX" (JStr "U") 1 60 1 initialStation = initialStation.
Proof.
  apply (X8_rampUp_needs_session demoEnv 2 "TX" (JStr "U") 1 60 1 "" ""
           initialStation).
  reflexivity.
Defined.

(** X9. [injectFault] on an existing EVSE leaves it Faulted with the given
    fault, no session and power 0, and the metering interval registered
    for it is gone; a [clearFault] right after returns it to Available
    with neither fault nor session. *)
Theorem X9_fault_then_clear (env : Env) (evseId : Z) (code inf : string)
    (s : Station) (e : Evse) :
  findEvse evseId (evses s) = Some e ->
  let s1 := injectFault env evseId code inf s in
  (exists e1,
     findEvse evseId (evses s1) = Some e1
     /\ status e1 = Faulted /\ session e1 = None /\ power e1 = 0
     /\ fault e1 = Some {| errorCode := code; info := inf;
                           timestamp := env_now env |})
  /\ (forall h, meterRefs s !! evseId = Some h ->
                lookupInterval h (intervals s1) = None)
  /\ (exists e2,
        findEvse evseId (evses (clearFault evseId s1)) = Some e2
        /\ status e2 = Available /\ fault e2 = None /\ session e2 = None
        /\ power e2 = 0).
Proof.
  intros F s1.
  assert (F1 : findEvse evseId (evses s1)
               = Some (applyPatch
                         (patch (Some Faulted) (Some None)
                            (Some (Some {| errorCode := code; info := inf;
                                           timestamp := env_now env |}))
                            (Some 0)) e)).
  { subst s1. unfold injectFault. cbv zeta. cbn [updateEvse set_evses evses].
    rewrite findEvse_patchEvses.
    assert (E : forall t, evses
       match findEvse evseId (evses s) ≫= session with
       | Some ses => sendOCPP (TransactionEnded (transactionId ses)
                       "AbnormalCondition" "ImmediateReset" None)
                       (Some (jid evseId)) t
       | None => t end = evses t).
    { intros t. destruct (findEvse evseId (evses s) ≫= session); reflexivity. }
    cbn [sendOCPP addLog set_logs evses]. rewrite E, evses_clearInterval, F.
    reflexivity. }
  split; [eexists; split; [exact F1 | repeat split]|].
  split.
  - intros h Hh. subst s1. unfold injectFault. cbv zeta. rewrite Hh.
    cbn [updateEvse set_evses intervals addLog set_logs sendOCPP].
    destruct (findEvse evseId (evses s) ≫= session);
      cbn [sendOCPP addLog set_logs intervals];
      apply lookupInterval_clearInterval.
  - unfold clearFault. cbn [addLog sendOCPP set_logs updateEvse set_evses evses].
    rewrite findEvse_patchEvses, F1. simpl. eexists. split; [reflexivity|].
    repeat split.
Qed.

Lemma X9_fault_then_clear_witness :
  exists e1,
    findEvse 1 (evses (injectFault demoEnv 1 "GroundFailure" "" demoCharging))
    = Some e1
    /\ status e1 = Faulted /\ session e1 = None.
Proof.
  destruct (X9_fault_then_clear demoEnv 1 "GroundFailure" "" demoCharging
              demoEvse) as [[e1 [A [B [C _]]]] _].
  - vm_compute. reflexivity.
  - exists e1. repeat split; assumption.
Defined.

(** X10. The metering callback changes nothing when the EVSE of its id is
    missing, has no session or is Faulted; so after a fault on that EVSE any
    tick that still fires, from whatever interval, is a no-op. *)
Theorem X10_tick_guard (env : Env) (h : nat) (c : MeterClosure)
    (code inf : string) (s : Station) :
  (sessionOf (m_evseId c) s = None -> meterTick h c s = s)
  /\ (forall e, findEvse (m_evseId c) (evses s) = Some e ->
                status e = Faulted -> meterTick h c s = s)
  /\ meterTick h c (injectFault env (m_evseId c) code inf s)
     = injectFault env (m_evseId c) code inf s.
Proof.
  assert (G : forall t, sessionOf (m_evseId c) t = None ->
                        meterTick h c t = t).
  { intros t H. unfold meterTick. cbv zeta.
    apply sessionOf_None_cases in H as [H|[e [H1 H2]]].
    - rewrite H. reflexivity.
    - rewrite H1, H2. reflexivity. }
  split; [apply G|]. split.
  - intros e F St. unfold meterTick. cbv zeta. rewrite F.
    destruct (session e); [|reflexivity].
    rewrite bool_decide_eq_true_2 by exact St. reflexivity.
  - apply G. unfold sessionOf, injectFault. cbv zeta.
    cbn [updateEvse set_evses evses]. rewrite findEvse_patchEvses.
    destruct (findEvse (m_evseId c) _); reflexivity.
Qed.

Lemma X10_tick_guard_witness :
  meterTick 2 demoClosure initialStation = initialStation.
Proof.
  apply (X10_tick_guard demoEnv 2 demoClosure "" "" initialStation).
  reflexivity.
Defined.

(** X11. [doStopSession] on an EVSE without a session returns [false] and
    touches neither the EVSEs, the timers nor the log (it only cancels the
    registered interval).  With a session it returns [true], marks the EVSE
    Finishing with power 0 while keeping the session for the final report,
    cancels the registered interval and queues the settle callback; when
    that callback fires the EVSE is Available with no session. *)
Theorem X11_stop_session (evseId : Z) (reason : string) (s : Station) :
  (sessionOf evseId s = None ->
     snd (doStopSession (evses s) evseId reason s) = false
     /\ evses (fst (doStopSession (evses s) evseId reason s)) = evses s
     /\ timers (fst (doStopSession (evses s) evseId reason s)) = timers s
     /\ logs (fst (doStopSession (evses s) evseId reason s)) = logs s)
  /\ (forall e ses,
        findEvse evseId (evses s) = Some e -> session e = Some ses ->
        let s1 := fst (doStopSession (evses s) evseId reason s) in
        snd (doStopSession (evses s) evseId reason s) = true
        /\ (exists e1, findEvse evseId (evses s1) = Some e1
                       /\ status e1 = Finishing /\ power e1 = 0
                       /\ session e1 = Some ses)
        /\ timers s1 = timers s ++ [TStopAvail evseId]
        /\ (forall h, meterRefs s !! evseId = Some h ->
                      lookupInterval h (intervals s1) = None)
        /\ (exists e2, findEvse evseId (evses (stopAvail evseId s1)) = Some e2
                       /\ status e2 = Available /\ session e2 = None
                       /\ power e2 = 0)).
Proof.
  split.
  - intros H. unfold doStopSession.
    apply sessionOf_None_cases in H as [H|[e [H1 H2]]].
    + rewrite H. cbn [fst snd]. rewrite evses_clearInterval.
      destruct (meterRefs s !! evseId); repeat split.
    + rewrite H1, H2. cbn [fst snd]. rewrite evses_clearInterval.
      destruct (meterRefs s !! evseId); repeat split.
  - intros e ses F S s1. subst s1. unfold doStopSession. rewrite F, S.
    cbn [fst snd setTimeout set_timers updateEvse set_evses sendOCPP addLog
         set_logs evses timers intervals].
    rewrite evses_clearInterval.
    split; [reflexivity|].
    assert (F1 : findEvse evseId
                   (patchEvses evseId
                      (patch (Some Finishing) None None (Some 0)) (evses s))
                 = Some (applyPatch
                           (patch (Some Finishing) None None (Some 0)) e)).
    { rewrite findEvse_patchEvses, F. reflexivity. }
    split; [eexists; split; [exact F1 | repeat split; exact S]|].
    split; [destruct (meterRefs s !! evseId); reflexivity|].
    split.
    + intros h Hh. rewrite Hh. apply lookupInterval_clearInterval.
    + unfold stopAvail. autorewrite with evs.
      rewrite findEvse_patchEvses, F1. simpl. eexists.
      split; [reflexivity | repeat split].
Qed.

Lemma X11_stop_session_witness :
  snd (doStopSession (evses initialStation) 1 "Local" initialStation) = false
  /\ snd (doStopSession (evses demoCharging) 1 "Local" demoCharging) = true.
Proof.
  split.
  - apply (X11_stop_session 1 "Local" initialStation). reflexivity.
  - apply (proj2 (X11_stop_session 1 "Local" demoCharging) demoEvse
             demoSession).
    + vm_compute. reflexivity.
    + reflexivity.
Defined.

(** ** Metering: completion, power and energy *)





(** X13. The power a tick writes is never negative and never above the
    configured maximum, whenever that maximum is non-negative, the SOC is
    within [0, 100] and the temperature is at most 85. *)
Theorem X13_effective_power_bounded (cfg : Config) (ses : Session) (temp : Q) :
  0 <= maxPower cfg -> 0 <= soc ses -> soc ses <= 100 -> temp <= 85 ->
  0 <= effectivePowerOf cfg ses temp
  /\ effectivePowerOf cfg ses temp <= maxPower cfg.
Proof.
  intros M A B C. unfold effectivePowerOf.
  destruct (curveMultOf_range cfg ses A B) as [C1 C2].
  destruct (tempDerating_range temp C) as [T1 T2].
  set (cm := curveMultOf cfg ses) in *.
  set (tm := Physics.tempDerating temp) in *.
  assert (P1 : 0 <= cm * tm) by (apply Qmult_le_0_compat; lra).
  assert (P2 : cm * tm <= 1).
  { assert (K : 0 <= (1 - cm) * tm) by (apply Qmult_le_0_compat; lra).
    lra. }
  rewrite <- Qmult_assoc. split.
  - apply Qmult_le_0_compat; assumption.
  - assert (K : 0 <= maxPower cfg * (1 - cm * tm))
      by (apply Qmult_le_0_compat; lra).
    lra.
Qed.

Lemma X13_effective_power_bounded_witness :
  0 <= effectivePowerOf defaultConfig demoOnlineSession 28
  /\ effectivePowerOf defaultConfig demoOnlineSession 28 <= 50.
Proof.
  apply (X13_effective_power_bounded defaultConfig demoOnlineSession 28);
    apply Qle_bool_iff; reflexivity.
Defined.

(** X14. For a closure with a positive [m_totalSeconds] whose total energy
    is [socRange / 100 * capacity],
    as [doStartSession] computes it, every tick that does not clamp the SOC
    adds energy in proportion to the SOC it adds:
    [energy' - energy == capacity / 100 * (soc' - soc)]. *)
Theorem X14_energy_tracks_soc (c : MeterClosure) (cfg : Config)
    (ses : Session) (temp cap : Q) :
  0 < m_totalSeconds c ->
  m_totalEnergy c == m_socRange c / 100 * cap ->
  soc ses + socIncOf c cfg ses temp <= cfg_socEnd cfg ->
  energy (updatedSessionOf c cfg ses temp) - energy ses
  == cap / 100 * (soc (updatedSessionOf c cfg ses temp) - soc ses).
Proof.
  intros _ E NC. rewrite updatedSession_soc, updatedSession_energy.
  unfold socIncOf in NC.
  destruct (Qmin'_spec
              (soc ses + m_socRange c / m_totalSeconds c
                         * curveMultOf cfg ses * Physics.tempDerating temp)
              (cfg_socEnd cfg)) as [[A ->]|[A ->]]; [|lra].
  rewrite E. unfold Qdiv. ring.
Qed.

Lemma X14_energy_tracks_soc_witness :
  energy (updatedSessionOf demoOnlineClosure defaultConfig
            demoOnlineSession 28) - energy demoOnlineSession
  == 60 / 100 * (soc (updatedSessionOf demoOnlineClosure defaultConfig
                        demoOnlineSession 28) - soc demoOnlineSession).
Proof.
  apply (X14_energy_tracks_soc demoOnlineClosure defaultConfig
           demoOnlineSession 28 60).
  - apply Qltb_lt. reflexivity.
  - reflexivity.
  - apply Qle_bool_iff. vm_compute. reflexivity.
Defined.

(** X15. The energy is not clamped, but one tick never adds more than the
    base increment [totalEnergy / totalSeconds]; so the energy can pass the
    target by less than one base increment per tick. *)
Theorem X15_energy_step_bounded (c : MeterClosure) (cfg : Config)
    (ses : Session) (temp : Q) :
  0 <= m_totalEnergy c -> 0 < m_totalSeconds c ->
  0 <= soc ses -> soc ses <= 100 -> temp <= 85 ->
  energy ses <= energy (updatedSessionOf c cfg ses temp)
  /\ energy (updatedSessionOf c cfg ses temp)
     <= energy ses + m_totalEnergy c / m_totalSeconds c.
Proof.
  intros E T A B C. rewrite updatedSession_energy.
  destruct (curveMultOf_range cfg ses A B) as [C1 C2].
  destruct (tempDerating_range temp C) as [T1 T2].
  set (cm := curveMultOf cfg ses) in *.
  set (tm := Physics.tempDerating temp) in *.
  pose proof (ratio_nonneg _ _ E T) as R.
  set (base := m_totalEnergy c / m_totalSeconds c) in *.
  assert (P1 : 0 <= cm * tm) by (apply Qmult_le_0_compat; lra).
  assert (P2 : 0 <= (1 - cm) * tm) by (apply Qmult_le_0_compat; lra).
  assert (K1 : 0 <= base * (cm * tm)) by (apply Qmult_le_0_compat; lra).
  assert (K2 : 0 <= base * (1 - cm * tm)) by (apply Qmult_le_0_compat; lra).
  rewrite <- Qmult_assoc. split; lra.
Qed.

Lemma X15_energy_step_bounded_witness :
  energy (updatedSessionOf demoOnlineClosure defaultConfig
            demoOnlineSession 28)
  <= energy demoOnlineSession
     + m_totalEnergy demoOnlineClosure / m_totalSeconds demoOnlineClosure.
Proof.
  apply (X15_energy_step_bounded demoOnlineClosure defaultConfig
           demoOnlineSession 28).
  - apply Qle_bool_iff. reflexivity.
  - apply Qltb_lt. reflexivity.
  - apply Qle_bool_iff. reflexivity.
  - apply Qle_bool_iff. reflexivity.
  - apply Qle_bool_iff. reflexivity.
Defined.

(** ** Replies of the dispatcher *)

Lemma wire_doStartSession env id tag s :
  wire (doStartSession env id tag s) = wire s.
Proof.
  apply (I_doStartSession (fun t => wire t = wire s)); try reflexivity;
    intros; assumption.
Qed.

Lemma wire_doStopSession mirror id reason s :
  wire (fst (doStopSession mirror id reason s)) = wire s.
Proof.
  apply (I_doStopSession (fun t => wire t = wire s)); try reflexivity;
    intros; assumption.
Qed.

Lemma wire_stopAll mirror reason s : wire (stopAll mirror reason s) = wire s.
Proof.
  apply (I_stopAll (fun t => wire t = wire s)); try reflexivity;
    intros; assumption.
Qed.

Lemma replyOCPP_wire msgId st s :
  wsRef s = Some OPEN ->
  wire (replyOCPP msgId st s) = wire s ++ [FCallResult msgId st].
Proof. intros W. apply replyOCPP_open, W. Qed.

(** X16. On an open socket every four-element CALL frame with a primitive
    message id and a primitive action, whatever the action and the payload,
    makes the handler send exactly one reply frame (a CALLRESULT or a
    CALLERROR), and that reply carries the id of the CALL.  The CALL frames
    that a branch may send besides are not replies and are not counted. *)
Theorem X16_every_call_one_reply (env : Env) (q : Q)
    (msgId action payload : json) (more : list json) (s : Station) :
  q == 2 ->
  wsRef s = Some OPEN ->
  primitive msgId = true ->
  primitive action = true ->
  exists f,
    wire (fst (handleCsmsMessage env
                 (Some (JArr (JNum q :: msgId :: action :: payload :: more)))
                 s))
    = wire s ++ [f]
    /\ frameId f = Some msgId.
Proof.
  intros Hq W _ _.
  rewrite (handle_call env q msgId action payload more s Hq).
  cbn [fst]. unfold dispatchCall. cbv zeta.
  set (s0 := addLog "CSMS" (MsgCsmsCall action payload) None s).
  assert (W0 : wsRef s0 = Some OPEN) by exact W.
  assert (E0 : wire s0 = wire s) by reflexivity.
  destruct (isStr (Some action) "RequestStartTransaction").
  { destruct (findEvseJ _ _) as [e|].
    - destruct (negb _).
      + eexists. rewrite (replyOCPP_wire _ _ _ W0), E0. split; reflexivity.
      + eexists. rewrite wire_doStartSession, (replyOCPP_wire _ _ _ W0), E0.
        split; reflexivity.
    - eexists. rewrite (replyOCPP_wire _ _ _ W0), E0. split; reflexivity. }
  destruct (isStr (Some action) "RequestStopTransaction").
  { destruct (findByTx _ _) as [e|].
    - eexists. rewrite wire_doStopSession, (replyOCPP_wire _ _ _ W0), E0.
      split; reflexivity.
    - eexists. rewrite (replyOCPP_wire _ _ _ W0), E0. split; reflexivity. }
  destruct (isStr (Some action) "Reset").
  { eexists. cbn [setTimeout set_timers wire].
    rewrite wire_stopAll, (replyOCPP_wire _ _ _ W0), E0. split; reflexivity. }
  destruct (isStr (Some action) "ChangeAvailability").
  { eexists. cbn [sendOCPP addLog set_logs wire].
    destruct (asId _); cbn [updateEvse set_evses wire];
      rewrite (replyOCPP_wire _ _ _ W0), E0; split; reflexivity. }
  destruct (isStr (Some action) "TriggerMessage").
  { eexists.
    destruct (isStr _ "StatusNotification"), (isStr _ "Heartbeat");
      cbn [sendOCPP addLog set_logs wire];
      rewrite (replyOCPP_wire _ _ _ W0), E0; split; reflexivity. }
  unfold wsIsOpen. rewrite bool_decide_eq_true_2 by exact W0.
  eexists. split; reflexivity.
Qed.

Lemma X16_every_call_one_reply_witness :
  exists f,
    wire (fst (handleCsmsMessage demoEnv
                 (Some (JArr [JNum 2; JStr "m9"; JStr "Reset"; JObj []]))
                 demoOnlineCharging))
    = wire demoOnlineCharging ++ [f]
    /\ frameId f = Some (JStr "m9").
Proof.
  apply (X16_every_call_one_reply demoEnv 2 (JStr "m9") (JStr "Reset")
           (JObj []) [] demoOnlineCharging).
  - reflexivity.
  - vm_compute. reflexivity.
  - reflexivity.
  - reflexivity.
Defined.

(** X17. An inbound CALLRESULT or CALLERROR frame never sends anything and
    never changes the configuration, the EVSEs, the connection, the timers
    or the intervals: at most it adds a log line. *)
Theorem X17_result_frames_only_log (env : Env) (q : Q) (rest : list json)
    (s : Station) :
  q == 3 \/ q == 4 ->
  sameEngineState s (fst (handleCsmsMessage env (Some (JArr (JNum q :: rest))) s))
  /\ wire (fst (handleCsmsMessage env (Some (JArr (JNum q :: rest))) s))
     = wire s.
Proof.
  intros H. apply non_call_frame_keeps_state.
  intros elems [= <-]. change ((JNum q :: rest) !! 0%nat) with (Some (JNum q)).
  destruct H as [H|H]; [apply (isNum_ne q 3 2 H) | apply (isNum_ne q 4 2 H)];
    lia.
Qed.

Lemma X17_result_frames_only_log_witness :
  wire (fst (handleCsmsMessage demoEnv
               (Some (JArr [JNum 3; JStr "a1"; JObj []])) demoOnlineCharging))
  = wire demoOnlineCharging.
Proof.
  apply (X17_result_frames_only_log demoEnv 3 [JStr "a1"; JObj []]
           demoOnlineCharging).
  left. reflexivity.
Defined.

(** X18. A RequestStartTransaction with a primitive message id for an
    Available EVSE, received on an
    open socket, is answered Accepted and starts a session on that EVSE:
    it is Preparing, and the session carries the id token of the payload,
    or "REMOTE" when the payload has none. *)
Theorem X18_remote_start_accepted (env : Env) (q : Q)
    (msgId payload : json) (more : list json) (s : Station) (evseId : Z)
    (e : Evse) :
  q == 2 ->
  wsRef s = Some OPEN ->
  primitive msgId = true ->
  asId (nullish (getProp "evseId" (Some payload)) (JNum 1)) = Some evseId ->
  findEvse evseId (evses s) = Some e ->
  status e = Available ->
  let s' := fst (handleCsmsMessage env
                   (Some (JArr (JNum q :: msgId
                                  :: JStr "RequestStartTransaction"
                                  :: payload :: more))) s) in
  wire s' = wire s ++ [FCallResult (Some msgId) "Accepted"]
  /\ exists e' ses,
       findEvse evseId (evses s') = Some e'
       /\ status e' = Preparing /\ session e' = Some ses
       /\ idTag ses = orElse (getProp "idToken"
                                (getProp "idToken" (Some payload)))
                        (JStr "REMOTE")
       /\ transactionId ses = env_uid env
       /\ soc ses = socStart (config s) /\ energy ses = 0.
Proof.
  intros Hq W _ Hid F A s'. subst s'.
  rewrite (handle_call env q msgId _ payload more s Hq). cbn [fst].
  unfold dispatchCall. cbv zeta. cbn [isStr String.eqb Ascii.eqb Bool.eqb].
  unfold findEvseJ. rewrite Hid. cbn [evses addLog set_logs]. rewrite F.
  rewrite bool_decide_eq_true_2 by exact A. cbn [negb].
  pose proof (findEvse_Some _ _ _ F) as [_ Eid]. rewrite Eid.
  set (s0 := replyOCPP (Some msgId) "Accepted"
               (addLog "CSMS"
                  (MsgCsmsCall (JStr "RequestStartTransaction") payload)
                  None s)).
  assert (E0 : evses s0 = evses s)
    by (subst s0; rewrite evses_replyOCPP; reflexivity).
  assert (C0 : config s0 = config s).
  { subst s0. unfold replyOCPP. destruct (wsIsOpen _); reflexivity. }
  split.
  - rewrite wire_doStartSession. subst s0.
    rewrite replyOCPP_wire by exact W. reflexivity.
  - assert (F0 : findEvse evseId (evses s0) = Some e) by (rewrite E0; exact F).
    destruct (start_session_shape env evseId
                (orElse (getProp "idToken" (getProp "idToken" (Some payload)))
                   (JStr "REMOTE")) s0 e F0 A) as [e' [P [Q R]]].
    exists e'. eexists. split; [exact P|]. split; [exact Q|].
    split; [exact R|]. rewrite C0. repeat split.
Qed.

Lemma X18_remote_start_accepted_witness :
  wire (fst (handleCsmsMessage demoEnv
               (Some (JArr [JNum 2; JStr "m5";
                            JStr "RequestStartTransaction";
                            JObj [("evseId", JNum 2)]])) demoOnline))
  = wire demoOnline ++ [FCallResult (Some (JStr "m5")) "Accepted"].
Proof.
  apply (X18_remote_start_accepted demoEnv 2 (JStr "m5")
           (JObj [("evseId", JNum 2)]) [] demoOnline 2
           (createEvse 2 "CHAdeMO")).
  - reflexivity.
  - vm_compute. reflexivity.
  - reflexivity.
  - vm_compute. reflexivity.
  - vm_compute. reflexivity.
  - reflexivity.
Defined.

Lemma findByTx_Some tx evs e :
  findByTx tx evs = Some e -> e ∈ evs /\ matchesTx tx e = true.
Proof.
  induction evs as [|x evs IH]; simpl; [discriminate|].
  destruct (matchesTx tx x) eqn:M.
  - intros [= <-]. split; [left | exact M].
  - intros H. destruct (IH H). split; [right|]; assumption.
Qed.

(** X19. A RequestStopTransaction with a primitive message id whose
    [transactionId] is that of a
    session, received on an open socket of a station with distinct EVSE
    ids, is answered Accepted; the EVSE found is set Finishing with power 0,
    keeps its session, loses its registered metering interval, and one
    settle callback is queued. *)
Theorem X19_remote_stop_accepted (env : Env) (q : Q)
    (msgId payload : json) (more : list json) (s : Station) (t : string)
    (e : Evse) :
  q == 2 ->
  wsRef s = Some OPEN ->
  primitive msgId = true ->
  NoDup (map evse_id (evses s)) ->
  getProp "transactionId" (Some payload) = Some (JStr t) ->
  findByTx (Some (JStr t)) (evses s) = Some e ->
  let s' := fst (handleCsmsMessage env
                   (Some (JArr (JNum q :: msgId
                                  :: JStr "RequestStopTransaction"
                                  :: payload :: more))) s) in
  wire s' = wire s ++ [FCallResult (Some msgId) "Accepted"]
  /\ (exists e' ses,
        findEvse (evse_id e) (evses s') = Some e'
        /\ status e' = Finishing /\ power e' = 0
        /\ session e' = Some ses /\ session e = Some ses
        /\ transactionId ses = t)
  /\ timers s' = timers s ++ [TStopAvail (evse_id e)]
  /\ (forall h, meterRefs s !! evse_id e = Some h ->
                lookupInterval h (intervals s') = None).
Proof.
  intros Hq W _ ND G Fx s'. subst s'.
  rewrite (handle_call env q msgId _ payload more s Hq). cbn [fst].
  unfold dispatchCall. cbv zeta. cbn [isStr String.eqb Ascii.eqb Bool.eqb].
  rewrite G. cbn [evses addLog set_logs]. rewrite Fx.
  destruct (findByTx_Some _ _ _ Fx) as [Hin M].
  unfold matchesTx in M. destruct (session e) as [ses|] eqn:S; [|discriminate].
  apply String.eqb_eq in M.
  pose proof (findEvse_unique _ _ ND Hin) as F.
  set (s0 := replyOCPP (Some msgId) "Accepted"
               (addLog "CSMS"
                  (MsgCsmsCall (JStr "RequestStopTransaction") payload)
                  None s)).
  assert (Hs : sameEngineState s s0).
  { subst s0. eapply sameEngineState_trans;
      [apply sameEngineState_addLog | apply sameEngineState_replyOCPP]. }
  destruct Hs as (_ & E0 & _ & _ & _ & _ & M0 & I0 & T0 & _).
  split.
  { rewrite wire_doStopSession. subst s0.
    rewrite replyOCPP_wire by exact W. reflexivity. }
  unfold doStopSession. rewrite F, S.
  cbn [fst setTimeout set_timers updateEvse set_evses sendOCPP addLog
       set_logs evses timers intervals].
  rewrite evses_clearInterval, E0, M0.
  split.
  { rewrite findEvse_patchEvses, F. simpl. eexists. eexists.
    split; [reflexivity|]. repeat split; [exact S | exact M]. }
  split.
  { destruct (meterRefs s !! evse_id e); cbn [clearInterval timers
      set_intervals]; rewrite T0; reflexivity. }
  intros h Hh. rewrite Hh. apply lookupInterval_clearInterval.
Qed.

Lemma X19_remote_stop_accepted_witness :
  wire (fst (handleCsmsMessage demoEnv
               (Some (JArr [JNum 2; JStr "m6"; JStr "RequestStopTransaction";
                            JObj [("transactionId", JStr "TX000001")]]))
               demoOnlineCharging))
  = wire demoOnlineCharging ++ [FCallResult (Some (JStr "m6")) "Accepted"].
Proof.
  apply (X19_remote_stop_accepted demoEnv 2 (JStr "m6")
           (JObj [("transactionId", JStr "TX000001")]) []
           demoOnlineCharging "TX000001" demoOnlineEvse).
  - reflexivity.
  - vm_compute. reflexivity.
  - reflexivity.
  - apply (proj1 (Inv_reachable demoOnlineCharging
                    (reachable_run _ _ reach_init))).
  - reflexivity.
  - vm_compute. reflexivity.
Defined.

(** X20. A RequestStopTransaction whose payload has no [transactionId] is
    not rejected when some EVSE is idle: the lookup compares [undefined]
    with the missing session of that EVSE, so on an open socket of a
    station with distinct EVSE ids the reply is Accepted, while no EVSE
    changes and no callback is queued. *)
Theorem X20_stop_without_id_accepted (env : Env) (q : Q)
    (msgId payload : json) (more : list json) (s : Station) (e : Evse) :
  q == 2 ->
  wsRef s = Some OPEN ->
  NoDup (map evse_id (evses s)) ->
  getProp "transactionId" (Some payload) = None ->
  e ∈ evses s -> session e = None ->
  let s' := fst (handleCsmsMessage env
                   (Some (JArr (JNum q :: msgId
                                  :: JStr "RequestStopTransaction"
                                  :: payload :: more))) s) in
  wire s' = wire s ++ [FCallResult (Some msgId) "Accepted"]
  /\ evses s' = evses s /\ timers s' = timers s.
Proof.
  intros Hq W ND G Hin S s'. subst s'.
  rewrite (handle_call env q msgId _ payload more s Hq). cbn [fst].
  unfold dispatchCall. cbv zeta. cbn [isStr String.eqb Ascii.eqb Bool.eqb].
  rewrite G. cbn [evses addLog set_logs].
  assert (Fx : exists e0, findByTx None (evses s) = Some e0).
  { clear ND. induction (evses s) as [|x evs IH]; [inversion Hin|].
    simpl. destruct (matchesTx None x) eqn:M; [eauto|].
    apply IH. apply elem_of_cons in Hin as [->|Hin]; [|exact Hin].
    unfold matchesTx in M. rewrite S in M. discriminate. }
  destruct Fx as [e0 Fx]. rewrite Fx.
  destruct (findByTx_Some _ _ _ Fx) as [Hin0 M].
  unfold matchesTx in M. destruct (session e0) eqn:S0; [discriminate|].
  pose proof (findEvse_unique _ _ ND Hin0) as F.
  set (s0 := replyOCPP (Some msgId) "Accepted"
               (addLog "CSMS"
                  (MsgCsmsCall (JStr "RequestStopTransaction") payload)
                  None s)).
  assert (Hs : sameEngineState s s0).
  { subst s0. eapply sameEngineState_trans;
      [apply sameEngineState_addLog | apply sameEngineState_replyOCPP]. }
  destruct Hs as (_ & E0 & _ & _ & _ & _ & M0 & I0 & T0 & _).
  split.
  { rewrite wire_doStopSession. subst s0.
    rewrite replyOCPP_wire by exact W. reflexivity. }
  unfold doStopSession. rewrite F, S0. cbn [fst].
  rewrite evses_clearInterval.
  split; [exact E0|].
  destruct (meterRefs s0 !! evse_id e0); cbn [clearInterval timers
    set_intervals]; exact T0.
Qed.

Lemma X20_stop_without_id_accepted_witness :
  wire (fst (handleCsmsMessage demoEnv
               (Some (JArr [JNum 2; JStr "m4"; JStr "RequestStopTransaction";
                            JObj []])) demoOnline))
  = wire demoOnline ++ [FCallResult (Some (JStr "m4")) "Accepted"].
Proof.
  apply (X20_stop_without_id_accepted demoEnv 2 (JStr "m4") (JObj []) []
           demoOnline (createEvse 1 "CCS2")).
  - reflexivity.
  - vm_compute. reflexivity.
  - apply (proj1 (Inv_reachable demoOnline (reachable_run _ _ reach_init))).
  - reflexivity.
  - vm_compute. left.
  - reflexivity.
Defined.

(** ** Station-wide operations *)

Lemma allTo_elem f s e :
  e ∈ evses (allTo f s) -> exists e0, e0 ∈ evses s /\ e = f e0.
Proof.
  rewrite evses_allTo. intros H.
  apply list_elem_of_fmap in H as [e0 [-> H]]. eauto.
Qed.

(** X21. The Reset command, with a primitive message id, queues the reset
    callback as the last pending timer; when that callback fires, in
    whatever state the station then is, every EVSE ends Available with no
    session, no fault and power 0, and the EVSE ids are the same as
    before. *)
Theorem X21_reset_restores_all (env : Env) (q : Q) (msgId payload : json)
    (more : list json) (s : Station) :
  q == 2 ->
  primitive msgId = true ->
  last (timers (fst (handleCsmsMessage env
                       (Some (JArr (JNum q :: msgId :: JStr "Reset"
                                      :: payload :: more))) s)))
  = Some TReset
  /\ forall t,
       (forall e, e ∈ evses (fireTimer TReset t) ->
                  status e = Available /\ session e = None
                  /\ fault e = None /\ power e = 0)
       /\ map evse_id (evses (fireTimer TReset t)) = map evse_id (evses t).
Proof.
  intros Hq _. split.
  - rewrite (handle_call env q msgId _ payload more s Hq). cbn [fst].
    unfold dispatchCall. cbv zeta. cbn [isStr String.eqb Ascii.eqb Bool.eqb].
    cbn [setTimeout set_timers timers]. apply last_snoc.
  - intros t. cbn [fireTimer]. unfold resetAll.
    cbn [sendOCPP addLog set_logs evses]. split.
    + intros e H. apply allTo_elem in H as [e0 [_ ->]]. repeat split.
    + rewrite evses_allTo, map_map. apply map_ext. reflexivity.
Qed.

Lemma X21_reset_restores_all_witness :
  last (timers (fst (handleCsmsMessage demoEnv
                       (Some (JArr [JNum 2; JStr "m8"; JStr "Reset";
                                    JObj []])) demoOnlineCharging)))
  = Some TReset.
Proof.
  apply (X21_reset_restores_all demoEnv 2 (JStr "m8") (JObj []) []
           demoOnlineCharging).
  - reflexivity.
  - reflexivity.
Defined.

Lemma lookupInterval_clear_mono k h s :
  lookupInterval k (intervals s) = None ->
  lookupInterval k (intervals (clearInterval h s)) = None.
Proof.
  intros H. destruct h as [h|]; [|exact H].
  cbn [clearInterval intervals set_intervals].
  rewrite lookupInterval_filter_ne. destruct (k =? h)%nat; [reflexivity|exact H].
Qed.

Lemma intervals_doStopSession mirror id reason s :
  intervals (fst (doStopSession mirror id reason s))
  = intervals (clearInterval (meterRefs s !! id) s).
Proof.
  unfold doStopSession. destruct (findEvse id mirror) as [e|]; [|reflexivity].
  destruct (session e); reflexivity.
Qed.

Lemma lookupInterval_stopAll_mono k mirror reason s :
  lookupInterval k (intervals s) = None ->
  lookupInterval k (intervals (stopAll mirror reason s)) = None.
Proof.
  unfold stopAll. generalize mirror at 1 as m0. intros m0. revert s.
  induction mirror as [|e rest IH]; intros s H; simpl; [exact H|].
  apply IH. destruct (session e); [|exact H].
  rewrite intervals_doStopSession. apply lookupInterval_clear_mono, H.
Qed.

Lemma lookupInterval_clearMany k hs s :
  (k ∈ hs \/ lookupInterval k (intervals s) = None) ->
  lookupInterval k
    (intervals (fold_left (fun acc h => clearInterval (Some h) acc) hs s))
  = None.
Proof.
  revert s. induction hs as [|h hs IH]; intros s H; cbn [fold_left].
  - destruct H as [H|H]; [inversion H | exact H].
  - apply IH. destruct H as [H|H].
    + apply elem_of_cons in H as [->|H]; [right | left; exact H].
      apply lookupInterval_clearInterval.
    + right. apply lookupInterval_clear_mono, H.
Qed.

Lemma meterRefs_clearInterval h s :
  meterRefs (clearInterval h s) = meterRefs s.
Proof. destruct h; reflexivity. Qed.

(** X22. After [disconnect] the station is offline, every EVSE is
    Unavailable with no session and power 0 (fault and temperature as
    before), and neither the heartbeat interval nor any metering interval
    registered in [meterRefs] is live any more. *)
Theorem X22_disconnect_stops_everything (s : Station) :
  connected (disconnect s) = false
  /\ simMode (disconnect s) = false
  /\ (forall e, e ∈ evses (disconnect s) ->
        status e = Unavailable /\ session e = None /\ power e = 0)
  /\ map evse_id (evses (disconnect s)) = map evse_id (evses s)
  /\ (forall h, heartbeatRef s = Some h ->
                lookupInterval h (intervals (disconnect s)) = None)
  /\ (forall id h, meterRefs s !! id = Some h ->
                   lookupInterval h (intervals (disconnect s)) = None).
Proof.
  unfold disconnect. cbv zeta.
  set (s1 := clearInterval (heartbeatRef s) s).
  set (s2 := fold_left (fun acc h => clearInterval (Some h) acc)
               (snd <$> map_to_list (meterRefs s1)) s1).
  set (s3 := stopAll (evses s) "Local" s2).
  set (s4 := match wsRef s3 with
             | Some CONNECTING | Some OPEN => set_wsRef (Some CLOSING) s3
             | _ => s3
             end).
  assert (E4 : evses s4 = evses s3 /\ intervals s4 = intervals s3).
  { subst s4. destruct (wsRef s3) as [[]|]; split; reflexivity. }
  destruct E4 as [E4 I4].
  cbn [addLog set_logs allTo set_evses set_connected connected simMode evses
       intervals].
  split; [reflexivity|]. split; [reflexivity|].
  split.
  { intros e H. apply list_elem_of_fmap in H as [e0 [-> _]]. repeat split. }
  split.
  { rewrite map_map, E4.
    assert (K : map evse_id (evses s3) = map evse_id (evses s)).
    { subst s3.
      apply (I_stopAll (fun t => map evse_id (evses t) = map evse_id (evses s)));
        try (intros; assumption).
      - intros id st ses ft pw t H. rewrite evses_updateEvse, patchEvses_ids.
        exact H.
      - subst s2. rewrite evses_clearMany. subst s1.
        rewrite evses_clearInterval. reflexivity. }
    rewrite <- K. apply map_ext. reflexivity. }
  rewrite I4. subst s3. split.
  - intros h Hh. apply lookupInterval_stopAll_mono. subst s2.
    apply lookupInterval_clearMany. right. subst s1. rewrite Hh.
    apply lookupInterval_clearInterval.
  - intros id h Hh. apply lookupInterval_stopAll_mono. subst s2.
    apply lookupInterval_clearMany. left. subst s1.
    rewrite meterRefs_clearInterval.
    apply list_elem_of_fmap. exists (id, h). split; [reflexivity|].
    apply elem_of_map_to_list. exact Hh.
Qed.



(** ** The single-connector variant *)

Section SingleEvseFacts.
Import SingleEvse.

(** X24. In the single-connector variant a CALL with a primitive, unknown
    action, received on an open socket, is answered with exactly one
    CALLERROR
    NotImplemented carrying the inbound id, and status, session, power,
    timers and intervals stay as they are. *)
Theorem X24_single_unknown_action (env : Env) (q : Q)
    (msgId action payload : json) (more : list json) (s : Charger) :
  q == 2 ->
  wsRef s = Some OPEN ->
  primitive action = true ->
  (forall t, action = JStr t -> t ∉ knownActions) ->
  exists s',
    handleCsmsMessage env
      (Some (JArr (JNum q :: msgId :: action :: payload :: more))) s
    = (s', Normal)
    /\ wire s' = wire s ++ [FCallError (Some msgId) "NotImplemented"
                              (Some action)]
    /\ sameCharger s s'.
Proof.
  intros Hq W _ U.
  rewrite (single_handle_call env q msgId action payload more s Hq).
  eexists. split; [reflexivity|].
  unfold dispatchCall. cbv zeta.
  rewrite !(isStr_unknown action _ U) by (unfold knownActions; set_solver).
  unfold wsIsOpen. cbn [wsRef addLog set_logs].
  rewrite bool_decide_eq_true_2 by exact W.
  split; [reflexivity | repeat split].
Qed.

Lemma X24_single_unknown_action_witness :
  exists s',
    handleCsmsMessage demoEnv
      (Some (JArr [JNum 2; JStr "m7"; JStr "GetVariables"; JObj []]))
      (set_wire [] {| config := defaultConfig; status := Available;
                      session := None; sessionRef := None; power := 0;
                      logs := []; wsRef := Some OPEN; wire := [];
                      meterRef := None; intervals := []; timers := [];
                      nextHandle := 1 |})
    = (s', Normal)
    /\ wire s' = [FCallError (Some (JStr "m7")) "NotImplemented"
                    (Some (JStr "GetVariables"))].
Proof.
  destruct (X24_single_unknown_action demoEnv 2 (JStr "m7")
              (JStr "GetVariables") (JObj []) []
              (set_wire [] {| config := defaultConfig; status := Available;
                              session := None; sessionRef := None;
                              power := 0; logs := []; wsRef := Some OPEN;
                              wire := []; meterRef := None; intervals := [];
                              timers := []; nextHandle := 1 |}))
    as [s' [A [B _]]].
  - reflexivity.
  - reflexivity.
  - reflexivity.
  - intros t [= <-]. apply (bool_decide_unpack _). vm_compute. exact I.
  - exists s'. split; assumption.
Defined.

(** X25. RequestStopTransaction with a primitive message id in the
    single-connector variant, on an
    open socket: with no session it is Rejected; with a session and a
    truthy [transactionId] different from the session's it is Rejected; in
    both cases status, session, power, timers and intervals are untouched.
    With a session and a matching or missing [transactionId] it is
    Accepted, the status becomes Finishing and one final callback is
    queued. *)
Theorem X25_single_remote_stop (env : Env) (q : Q) (msgId payload : json)
    (more : list json) (s : Charger) :
  q == 2 ->
  wsRef s = Some OPEN ->
  primitive msgId = true ->
  let frame := Some (JArr (JNum q :: msgId :: JStr "RequestStopTransaction"
                             :: payload :: more)) in
  let s' := fst (handleCsmsMessage env frame s) in
  (sessionRef s = None ->
     wire s' = wire s ++ [FCallResult (Some msgId) "Rejected"]
     /\ sameCharger s s')
  /\ (forall ses v,
        sessionRef s = Some ses ->
        getProp "transactionId" (Some payload) = Some v ->
        truthy (Some v) = true -> v <> JStr (transactionId ses) ->
        wire s' = wire s ++ [FCallResult (Some msgId) "Rejected"]
        /\ sameCharger s s')
  /\ (forall ses,
        sessionRef s = Some ses ->
        (getProp "transactionId" (Some payload) = None
         \/ getProp "transactionId" (Some payload)
            = Some (JStr (transactionId ses))) ->
        wire s' = wire s ++ [FCallResult (Some msgId) "Accepted"]
        /\ status s' = Finishing /\ session s' = session s
        /\ timers s' = timers s ++ [TFinal]).
Proof.
  intros Hq W _ frame s'. subst frame s'.
  rewrite (single_handle_call env q msgId _ payload more s Hq). cbn [fst].
  unfold dispatchCall. cbv zeta. cbn [isStr String.eqb Ascii.eqb Bool.eqb].
  set (s0 := addLog "CSMS"
               (MsgCsmsCall (JStr "RequestStopTransaction") payload) s).
  assert (W0 : wsRef s0 = Some OPEN) by exact W.
  destruct (single_reply_open (Some msgId) "Rejected" s0 W0) as [Rw Rs].
  destruct (single_reply_open (Some msgId) "Accepted" s0 W0) as [Aw As].
  change (sessionRef s0) with (sessionRef s).
  split; [|split].
  - intros N. rewrite N. split; [exact Rw|].
    eapply sameCharger_trans; [apply sameCharger_addLog|].
    eapply sameCharger_trans; [exact Rs | apply sameCharger_addLog].
  - intros ses v S G T D. rewrite S, G, T.
    assert (M : isStr (Some v) (transactionId ses) = false).
    { destruct v; try reflexivity. simpl.
      destruct (String.eqb_spec s1 (transactionId ses)) as [E|E];
        [|reflexivity].
      exfalso. apply D. rewrite E. reflexivity. }
    rewrite M. cbn [negb andb]. split; [exact Rw|].
    eapply sameCharger_trans; [apply sameCharger_addLog|].
    eapply sameCharger_trans; [exact Rs | apply sameCharger_addLog].
  - intros ses S G. rewrite S.
    assert (B : truthy (getProp "transactionId" (Some payload))
                && negb (isStr (getProp "transactionId" (Some payload))
                           (transactionId ses)) = false).
    { destruct G as [-> | ->]; [reflexivity|].
      cbn [isStr]. rewrite String.eqb_refl. apply andb_false_r. }
    rewrite B. unfold doStopSession.
    destruct As as (_ & _ & Es & Er & _ & _ & Em & _ & Et & _).
    assert (R : sessionRef
                  (clearMeter
                     (addLog "SYS" (MsgText "remote stop accepted")
                        (replyOCPP (Some msgId) "Accepted" s0)))
                = Some ses).
    { unfold clearMeter. destruct (meterRef _); cbn [sessionRef set_meter
        addLog set_logs]; rewrite Er; exact S. }
    rewrite R. cbn [fst setTimeout set_timers sendOCPP addLog set_logs
                    set_status wire status session timers].
    unfold clearMeter.
    destruct (meterRef
                (addLog "SYS" (MsgText "remote stop accepted")
                   (replyOCPP (Some msgId) "Accepted" s0)));
      cbn [wire status session timers set_meter addLog set_logs];
      rewrite Aw, Es, Et; repeat split.
Qed.

Lemma X25_single_remote_stop_witness :
  wire (fst (handleCsmsMessage demoEnv
               (Some (JArr [JNum 2; JStr "m3";
                            JStr "RequestStopTransaction";
                            JObj [("transactionId", JStr "TX999999")]]))
               onlineCharger))
  = [FCallResult (Some (JStr "m3")) "Rejected"]
  /\ wire (fst (handleCsmsMessage demoEnv
                  (Some (JArr [JNum 2; JStr "m3";
                               JStr "RequestStopTransaction";
                               JObj [("transactionId", JStr "TX999999")]]))
                  demoCharger))
     = wire demoCharger ++ [FCallResult (Some (JStr "m3")) "Rejected"]
  /\ status (fst (handleCsmsMessage demoEnv
                    (Some (JArr [JNum 2; JStr "m3";
                                 JStr "RequestStopTransaction";
                                 JObj [("transactionId", JStr "TX000001")]]))
                    demoCharger))
     = Finishing.
Proof.
  split; [|split].
  - apply (X25_single_remote_stop demoEnv 2 (JStr "m3")
             (JObj [("transactionId", JStr "TX999999")]) [] onlineCharger);
      reflexivity.
  - apply (proj1 (proj2 (X25_single_remote_stop demoEnv 2 (JStr "m3")
                           (JObj [("transactionId", JStr "TX999999")]) []
                           demoCharger eq_refl eq_refl eq_refl))
             demoOnlineSession (JStr "TX999999")).
    + reflexivity.
    + reflexivity.
    + reflexivity.
    + discriminate.
  - apply (proj2 (proj2 (X25_single_remote_stop demoEnv 2 (JStr "m3")
                           (JObj [("transactionId", JStr "TX000001")]) []
                           demoCharger eq_refl eq_refl eq_refl))
             demoOnlineSession).
    + reflexivity.
    + right. reflexivity.
Defined.










End SingleEvseFacts.

(** ** A stop that arrives before the ramp-up callback *)

Section SingleEvseSession.
Import SingleEvse.

(** X27. RequestStartTransaction in the single-connector variant, on an
    open socket, with a primitive message id, a primitive id tag and a
    positive configured duration.  Unless the status is Available the request is Rejected
    and status, session, power, timers and intervals stay as they are.  When
    it is Available the request is Accepted, the status becomes Preparing,
    a fresh session (energy 0, SOC at the configured start) is stored in
    both the state and its mirror, and one ramp-up callback is queued; the
    id tag is [payload.idToken.idToken], or REMOTE when that is falsy. *)
Theorem X27_single_remote_start (env : Env) (q : Q) (msgId payload : json)
    (more : list json) (s : Charger) :
  q == 2 ->
  wsRef s = Some OPEN ->
  primitive msgId = true ->
  primitive (orElse (getProp "idToken" (getProp "idToken" (Some payload)))
               (JStr "REMOTE")) = true ->
  0 < chargeDurationMin (config s) ->
  let frame := Some (JArr (JNum q :: msgId :: JStr "RequestStartTransaction"
                             :: payload :: more)) in
  let s' := fst (handleCsmsMessage env frame s) in
  let tag := orElse (getProp "idToken" (getProp "idToken" (Some payload)))
               (JStr "REMOTE") in
  (status s <> Available ->
     wire s' = wire s ++ [FCallResult (Some msgId) "Rejected"]
     /\ sameCharger s s')
  /\ (status s = Available ->
      wire s' = wire s ++ [FCallResult (Some msgId) "Accepted"]
      /\ status s' = Preparing
      /\ session s'
         = Some {| startTime := env_dateNow env; energy := 0;
                   soc := socStart (config s);
                   transactionId := env_uid env; idTag := tag;
                   totalSeconds := chargeDurationMin (config s) * 60;
                   socEnd := cfg_socEnd (config s) |}
      /\ sessionRef s' = session s'
      /\ timers s' = timers s ++ [TRamp (closureOf env tag (config s))]
      /\ intervals s' = intervals s /\ power s' = power s).
Proof.
  intros Hq W _ _ _ frame s' tag. subst frame s'.
  rewrite (single_handle_call env q msgId _ payload more s Hq). cbn [fst].
  unfold dispatchCall. cbv zeta. cbn [isStr String.eqb Ascii.eqb Bool.eqb].
  set (s0 := addLog "CSMS"
               (MsgCsmsCall (JStr "RequestStartTransaction") payload) s).
  assert (W0 : wsRef s0 = Some OPEN) by exact W.
  destruct (single_reply_open (Some msgId) "Rejected" s0 W0) as [Rw Rs].
  destruct (single_reply_open (Some msgId) "Accepted" s0 W0) as [Aw As].
  change (status s0) with (status s).
  split.
  - intros N. rewrite bool_decide_eq_false_2 by exact N. cbn [negb].
    split; [exact Rw|].
    eapply sameCharger_trans; [apply sameCharger_addLog|].
    eapply sameCharger_trans; [exact Rs | apply sameCharger_addLog].
  - intros A. rewrite bool_decide_eq_true_2 by exact A. cbn [negb].
    destruct As as (Ec & _ & _ & _ & Ep & _ & _ & Ei & Et & _).
    unfold doStartSession, closureOf. cbv zeta.
    cbn [setTimeout set_timers sendOCPP addLog set_logs set_status
         set_session wire status session sessionRef timers intervals power
         config].
    rewrite Aw, Ec, Ei, Et, Ep. repeat split.
Qed.

Lemma X27_single_remote_start_witness :
  status (fst (handleCsmsMessage demoEnv
                 (Some (JArr [JNum 2; JStr "m1";
                              JStr "RequestStartTransaction"; JObj []]))
                 {| config := defaultConfig; status := Available;
                    session := None; sessionRef := None; power := 0;
                    logs := []; wsRef := Some OPEN; wire := [];
                    meterRef := None; intervals := []; timers := [];
                    nextHandle := 1 |}))
  = Preparing.
Proof.
  apply (X27_single_remote_start demoEnv 2 (JStr "m1") (JObj []) []
           {| config := defaultConfig; status := Available;
              session := None; sessionRef := None; power := 0;
              logs := []; wsRef := Some OPEN; wire := [];
              meterRef := None; intervals := []; timers := [];
              nextHandle := 1 |}).
  - reflexivity.
  - reflexivity.
  - reflexivity.
  - reflexivity.
  - reflexivity.
  - reflexivity.
Defined.

(** X28. In the single-connector variant a stop issued while the charger is
    still Preparing does not cancel the ramp-up callback, and that callback
    checks nothing: it fires 1.5 s after the start, sets the status to
    Charging and installs the metering interval.  When the final callback
    of the stop then fires the charger is Available with no session and
    zero power, yet the metering interval is still registered. *)
Theorem X28_single_stop_while_preparing (env : Env) (tag : json)
    (reason : string) (s : Charger) :
  let k := closureOf env tag (config s) in
  let s1 := doStartSession env tag s in
  let s2 := fst (doStopSession reason s1) in
  let s3 := rampUp k s2 in
  let s4 := finalize s3 in
  status s1 = Preparing
  /\ snd (doStopSession reason s1) = true
  /\ status s2 = Finishing
  /\ timers s2 = timers s ++ [TRamp k; TFinal]
  /\ status s3 = Charging
  /\ status s4 = Available /\ session s4 = None /\ power s4 = 0
  /\ meterRef s4 = Some (nextHandle s)
  /\ (nextHandle s, k) ∈ intervals s4
  /\ meterTick k s4 = s4.
Proof.
  intros k s1 s2 s3 s4.
  set (ses0 := {| startTime := env_dateNow env; energy := 0;
                  soc := socStart (config s); transactionId := env_uid env;
                  idTag := tag;
                  totalSeconds := chargeDurationMin (config s) * 60;
                  socEnd := cfg_socEnd (config s) |}).
  assert (C1 : sessionRef (clearMeter s1) = Some ses0
               /\ timers (clearMeter s1) = timers s ++ [TRamp k]
               /\ nextHandle (clearMeter s1) = nextHandle s).
  { unfold clearMeter. destruct (meterRef s1); repeat split. }
  destruct C1 as (R1 & T1 & N1).
  assert (D : doStopSession reason s1
              = (setTimeout TFinal
                   (sendOCPP
                      (TransactionEnded (transactionId ses0)
                         (if String.eqb reason "Remote"
                          then "RemoteStop" else "StopAuthorized")
                         (if String.eqb reason "Remote"
                          then "Remote" else "Local")
                         (Some (jsRound (energy ses0 * 1000), soc ses0)))
                      (addLog "SYS" (MsgSessionEnded 1 reason (energy ses0))
                         (set_status Finishing (clearMeter s1)))), true)).
  { unfold doStopSession. cbv zeta. rewrite R1. reflexivity. }
  assert (T2 : timers s2 = timers s ++ [TRamp k; TFinal]).
  { subst s2. rewrite D. cbn [fst setTimeout set_timers sendOCPP addLog
      set_logs set_status timers]. rewrite T1, <- app_assoc. reflexivity. }
  assert (N2 : nextHandle s2 = nextHandle s).
  { subst s2. rewrite D. exact N1. }
  split; [reflexivity|]. split; [rewrite D; reflexivity|].
  split; [subst s2; rewrite D; reflexivity|].
  split; [exact T2|]. split; [reflexivity|]. split; [reflexivity|].
  split; [reflexivity|]. split; [reflexivity|].
  split; [subst s4 s3; cbn; rewrite N2; reflexivity|].
  split; [|reflexivity].
  subst s4 s3. cbn [finalize rampUp set_session set_power set_status
    sendOCPP addLog set_logs set_meter intervals nextHandle].
  rewrite N2. apply elem_of_app. right. apply list_elem_of_singleton.
  reflexivity.
Qed.

End SingleEvseSession.

(** X29. The multi-EVSE variant has the same gap.  A stop issued while the
    EVSE is still Preparing keeps the session until its own 2 s callback,
    so the ramp-up callback, which fires first, still finds a session: it
    sets the EVSE to Charging and installs the metering interval.  After
    the stop's callback the EVSE is Available with no session, and the
    metering interval of the ended transaction is still registered for
    it. *)
Theorem X29_stop_while_preparing (env : Env) (evseId : Z) (tag : json)
    (reason : string) (s : Station) (e : Evse) :
  findEvse evseId (evses s) = Some e ->
  status e = Available ->
  let cfg := config s in
  let te := (cfg_socEnd cfg - socStart cfg) / 100 * batteryCapacity cfg in
  let ts := chargeDurationMin cfg * 60 in
  let sr := cfg_socEnd cfg - socStart cfg in
  let c := {| m_evseId := evseId; m_txId := env_uid env;
              m_totalEnergy := te; m_totalSeconds := ts;
              m_socRange := sr; m_seqNo := 1 |} in
  let s1 := doStartSession env evseId tag s in
  let s2 := fst (doStopSession (evses s1) evseId reason s1) in
  let s3 := fireTimer (TRamp evseId (env_uid env) tag te ts sr) s2 in
  let s4 := fireTimer (TStopAvail evseId) s3 in
  timers s2 = timers s ++ [TRamp evseId (env_uid env) tag te ts sr;
                           TStopAvail evseId]
  /\ (exists e3, findEvse evseId (evses s3) = Some e3
                 /\ status e3 = Charging)
  /\ (exists e4, findEvse evseId (evses s4) = Some e4
                 /\ status e4 = Available /\ session e4 = None
                 /\ power e4 = 0)
  /\ meterRefs s4 !! evseId = Some (nextHandle s)
  /\ (nextHandle s, IMeter c) ∈ intervals s4.
Proof.
  intros F A cfg te ts sr c s1 s2 s3 s4.
  destruct (start_session_shape env evseId tag s e F A)
    as (e1 & F1 & St1 & Se1).
  fold s1 in F1.
  assert (T1 : timers s1 = timers s ++ [TRamp evseId (env_uid env) tag te ts sr]
               /\ nextHandle s1 = nextHandle s
               /\ intervals s1 = intervals s).
  { subst s1. unfold doStartSession. rewrite F.
    rewrite bool_decide_eq_true_2 by exact A. cbn [negb]. cbv zeta.
    repeat split. }
  destruct T1 as (T1 & N1 & I1).
  assert (E2 : s2 = setTimeout (TStopAvail evseId)
                 (updateEvse evseId
                    (patch (Some Finishing) None None (Some 0))
                    (sendOCPP
                       (TransactionEnded (env_uid env)
                          (if String.eqb reason "Remote"
                           then "RemoteStop" else "StopAuthorized")
                          reason
                          (Some (jsRound (0 * 1000), socStart (config s))))
                       (Some (jid evseId))
                       (addLog "SYS" (MsgSessionEnded evseId reason 0)
                          (Some (jid evseId))
                          (clearInterval (meterRefs s1 !! evseId) s1))))).
  { subst s2. unfold doStopSession. rewrite F1, Se1. reflexivity. }
  assert (F2 : findEvse evseId (evses s2)
               = Some (applyPatch
                         (patch (Some Finishing) None None (Some 0)) e1)).
  { rewrite E2. autorewrite with evs.
    rewrite findEvse_patchEvses, F1. reflexivity. }
  assert (T2 : timers s2 = timers s1 ++ [TStopAvail evseId]
               /\ nextHandle s2 = nextHandle s).
  { rewrite E2. cbn [setTimeout set_timers updateEvse set_evses sendOCPP
      addLog set_logs timers nextHandle].
    destruct (meterRefs s1 !! evseId); cbn [clearInterval set_intervals timers
      nextHandle]; rewrite ?N1; split; reflexivity. }
  destruct T2 as (T2 & N2).
  assert (E3 : s3 = startMeter c
                 (sendOCPP (TransactionStarted (env_uid env) tag evseId)
                    (Some (jid evseId))
                    (updateEvse evseId
                       (patch (Some Charging) None None None) s2))).
  { subst s3. cbn [fireTimer]. unfold rampUp. rewrite F2.
    cbn [applyPatch session patch p_session default]. rewrite Se1.
    reflexivity. }
  assert (F3 : findEvse evseId (evses s3)
               = Some (applyPatch (patch (Some Charging) None None None)
                         (applyPatch
                            (patch (Some Finishing) None None (Some 0)) e1))).
  { rewrite E3. autorewrite with evs.
    rewrite findEvse_patchEvses, F2. reflexivity. }
  split; [rewrite T2, T1, <- app_assoc; reflexivity|].
  split; [eexists; split; [exact F3 | reflexivity]|].
  split.
  { subst s4. cbn [fireTimer]. unfold stopAvail. autorewrite with evs.
    rewrite findEvse_patchEvses, F3. eexists. split; [reflexivity|].
    repeat split. }
  subst s4. cbn [fireTimer]. unfold stopAvail.
  cbn [updateEvse sendOCPP addLog set_logs set_evses meterRefs intervals].
  rewrite E3. unfold startMeter.
  cbn [updateEvse sendOCPP addLog set_logs set_evses set_intervals meterRefs
       intervals nextHandle m_evseId].
  rewrite N2. split.
  - apply lookup_insert_eq.
  - apply elem_of_app. right. apply list_elem_of_singleton. reflexivity.
Qed.

Lemma X29_stop_while_preparing_witness :
  meterRefs
    (fireTimer (TStopAvail 1)
       (fireTimer
          (TRamp 1 (env_uid demoEnv) (JStr "U")
             ((cfg_socEnd defaultConfig - socStart defaultConfig) / 100
              * batteryCapacity defaultConfig)
             (chargeDurationMin defaultConfig * 60)
             (cfg_socEnd defaultConfig - socStart defaultConfig))
          (fst (doStopSession
                  (evses (doStartSession demoEnv 1 (JStr "U") initialStation))
                  1 "Local"
                  (doStartSession demoEnv 1 (JStr "U") initialStation)))))
    !! 1%Z
  = Some (nextHandle initialStation).
Proof.
  apply (X29_stop_while_preparing demoEnv 1 (JStr "U") "Local"
           initialStation (createEvse 1 "CCS2") eq_refl eq_refl).
Defined.
